(** * LUKS2 unlocking core of GRUB (grub-core/disk/luks2.c)

    A shallow embedding of the header codec, the JSON metadata decoder,
    the keyslot resolver, the key pipeline, the unlock orchestrator and
    the scan probe, followed by the properties of the specification that
    were checked against it and by further properties of the code. *)

From Stdlib Require Import ZArith List String Ascii Bool Lia.
Import ListNotations.
Open Scope string_scope.
Open Scope list_scope.
Open Scope Z_scope.

Set Warnings "-register-all,-notation-for-abbreviation".

(** ** Machine integers *)

Definition u64 (z : Z) : Z := z mod 2 ^ 64.
Definition u32 (z : Z) : Z := z mod 2 ^ 32.

(** The value of a 32-bit two's complement [int] holding the low 32 bits
    of [z]. *)
Definition sint32 (z : Z) : Z := (z + 2 ^ 31) mod 2 ^ 32 - 2 ^ 31.

(** A byte is a number in [0, 255]. *)
Definition byte := Z.

(** ** Error codes (grub/err.h) *)

Inductive grub_err_t :=
| GRUB_ERR_NONE
| GRUB_ERR_OUT_OF_MEMORY
| GRUB_ERR_BAD_ARGUMENT
| GRUB_ERR_FILE_NOT_FOUND
| GRUB_ERR_BAD_SIGNATURE
| GRUB_ERR_ACCESS_DENIED
| GRUB_ERR_OUT_OF_RANGE
| GRUB_ERR_READ_ERROR
| GRUB_ERR_IO
| GRUB_ERR_BUG.

Definition is_err (e : grub_err_t) : bool :=
  match e with GRUB_ERR_NONE => false | _ => true end.

Arguments is_err !e : simpl nomatch.

(** libgcrypt error codes: 0 is success. *)
Definition gcry_err_code_t := Z.
Definition GPG_ERR_NO_ERROR : gcry_err_code_t := 0.

(** ** Constants of the file *)

Definition LUKS_MAGIC_1ST : list byte := [76; 85; 75; 83; 186; 190].
Definition LUKS_MAGIC_2ND : list byte := [83; 75; 85; 76; 186; 190].
Definition MAX_PASSPHRASE : Z := 256.
Definition sizeof_header : Z := 4096.

(** Modelled from the spec: the macro LUKS_LOG_SECTOR_SIZE comes from
    grub/cryptodisk.h, which is not part of the sources at hand.  The
    keyslot area "always uses 512-byte sectors" (the words of the comment
    at its use and of the specification), so the logarithm is 9. *)
Definition LUKS_LOG_SECTOR_SIZE : Z := 9.

(** Modelled from the spec: the size of the key buffers, a macro of
    grub/cryptodisk.h as well.  It only bounds what the base64 decoder may
    write; no statement below depends on its value. *)
Definition GRUB_CRYPTODISK_MAX_KEYLEN : Z := 128.

(** ** Strings *)

Definition grub_strcmp (a b : string) : bool := negb (String.eqb a b).

Definition digit_of (c : ascii) : option Z :=
  let n := Z.of_N (N_of_ascii c) in
  if (48 <=? n) && (n <=? 57) then Some (n - 48) else None.

Definition grub_isspace (c : ascii) : bool :=
  let n := Z.of_N (N_of_ascii c) in
  (n =? 32) || (n =? 9) || (n =? 10) || (n =? 13).

Fixpoint skip_spaces (s : string) : string :=
  match s with
  | String c r => if grub_isspace c then skip_spaces r else s
  | EmptyString => s
  end.

Fixpoint digits_value (s : string) (acc : Z) : Z :=
  match s with
  | String c r =>
      match digit_of c with
      | Some d => digits_value r (acc * 10 + d)
      | None => acc
      end
  | EmptyString => acc
  end.

(** Modelled from the spec: grub_strtoull (kern/misc.c) with base 10 reads
    the leading decimal digits after optional blanks as an unsigned
    integer and saturates at the largest 64-bit value. *)
Definition grub_strtoull (s : string) : Z :=
  Z.min (digits_value (skip_spaces s) 0) (2 ^ 64 - 1).

(** Modelled from the spec: the signed reading used for the i64 fields,
    an optional sign followed by decimal digits, saturating. *)
Definition grub_strtoll (s : string) : Z :=
  match skip_spaces s with
  | String "-" r => Z.max (- digits_value r 0) (- 2 ^ 63)
  | String "+" r => Z.min (digits_value r 0) (2 ^ 63 - 1)
  | r => Z.min (digits_value r 0) (2 ^ 63 - 1)
  end.

(** Decimal text of a small number, used to build metadata in examples
    and statements. *)
Definition digit_char (d : Z) : ascii := ascii_of_N (Z.to_N (48 + d)).

Definition decimal (n : Z) : string :=
  if n <? 10 then String (digit_char n) EmptyString
  else String (digit_char (n / 10)) (String (digit_char (n mod 10)) EmptyString).

(** [grub_strncpy (dst, src, n)] followed by reading [dst] as a string:
    at most [n] characters of [src].  This is what the C code reads when
    [src] has fewer than [n] characters; see [fits_cipher]. *)
Fixpoint string_firstn (n : nat) (s : string) : string :=
  match n, s with
  | S k, String c r => String c (string_firstn k r)
  | _, _ => EmptyString
  end.

(** [grub_memchr (cipher, '-', grub_strlen (cipher))] and the write of a
    NUL at the position found: the text before the first dash and the text
    after it. *)
Fixpoint split_dash (s : string) : option (string * string) :=
  match s with
  | EmptyString => None
  | String c r =>
      if Ascii.eqb c "-"%char then Some (EmptyString, r)
      else match split_dash r with
           | Some (a, b) => Some (String c a, b)
           | None => None
           end
  end.

(** The arrays [cipher] of [luks2_decrypt_key] and of [luks2_recover_key]
    hold 32 characters.  [grub_strncpy] leaves a string of fewer than 32
    characters in them with its NUL; a longer one fills the array without
    a NUL, and what [grub_strlen] and [grub_memchr] then read is not the
    array alone. *)
Definition fits_cipher (enc : string) : Prop := (String.length enc < 32)%nat.

(** ** JSON values and their navigation *)

(** Modelled from the spec: the JSON utility (lib/json) is not part of the
    sources at hand.  A parsed document is a tree; objects keep their
    members in order.  [grub_json_getchild] on an object yields the
    (key, value) pair at a position, here [JMember], whose own child 0 is
    the value and whose text is the key. *)
Inductive grub_json_t :=
| JObject (members : list (string * grub_json_t))
| JArray (items : list grub_json_t)
| JString (s : string)
| JPrimitive (s : string)
| JMember (key : string) (value : grub_json_t).

(** Modelled from the spec: number of children of a node. *)
Definition grub_json_getsize (j : grub_json_t) : option Z :=
  match j with
  | JObject ms => Some (Z.of_nat (List.length ms))
  | JArray xs => Some (Z.of_nat (List.length xs))
  | JMember _ _ => Some 1
  | JString _ | JPrimitive _ => Some 0
  end.

(** Modelled from the spec: the child at position [n]; fails when [n] is
    not below the size. *)
Definition grub_json_getchild (parent : grub_json_t) (n : Z) : option grub_json_t :=
  if n <? 0 then None else
  match parent with
  | JObject ms =>
      match nth_error ms (Z.to_nat n) with
      | Some (k, v) => Some (JMember k v)
      | None => None
      end
  | JArray xs => nth_error xs (Z.to_nat n)
  | JMember _ v => if n =? 0 then Some v else None
  | JString _ | JPrimitive _ => None
  end.

Fixpoint member_lookup (ms : list (string * grub_json_t)) (key : string)
  : option grub_json_t :=
  match ms with
  | [] => None
  | (k, v) :: rest => if String.eqb k key then Some v else member_lookup rest key
  end.

(** Modelled from the spec: the value stored under [key] in an object
    (the first member of that name). *)
Definition grub_json_getvalue (parent : grub_json_t) (key : string)
  : option grub_json_t :=
  match parent with
  | JObject ms => member_lookup ms key
  | _ => None
  end.

(** The node a getter reads: the node itself for a NULL key, the member
    of that name otherwise. *)
Definition json_target (parent : grub_json_t) (key : option string)
  : option grub_json_t :=
  match key with
  | None => Some parent
  | Some k => grub_json_getvalue parent k
  end.

(** Modelled from the spec: string getter; only string nodes (a member key
    is a string node) are accepted. *)
Definition grub_json_getstring (parent : grub_json_t) (key : option string)
  : option string :=
  match json_target parent key with
  | Some (JString s) => Some s
  | Some (JMember k _) => Some k
  | _ => None
  end.

(** The text of a scalar node: strings and primitives, which is what the
    integer getters accept. *)
Definition json_scalar_text (parent : grub_json_t) (key : option string)
  : option string :=
  match json_target parent key with
  | Some (JString s) => Some s
  | Some (JPrimitive s) => Some s
  | Some (JMember k _) => Some k
  | _ => None
  end.

(** Modelled from the spec: unsigned and signed 64-bit getters. *)
Definition grub_json_getuint64 (parent : grub_json_t) (key : option string)
  : option Z :=
  option_map grub_strtoull (json_scalar_text parent key).

Definition grub_json_getint64 (parent : grub_json_t) (key : option string)
  : option Z :=
  option_map grub_strtoll (json_scalar_text parent key).

(** ** Decoded metadata records *)

Inductive grub_luks2_kdf_type_t :=
| LUKS2_KDF_TYPE_ARGON2I
| LUKS2_KDF_TYPE_PBKDF2.

(** One 8-byte cell of the [kdf.u] union: it holds a number (time, memory,
    cpus, iterations) or a pointer to a string (the PBKDF2 hash name). *)
Inductive cell :=
| CInt (z : Z)
| CPtr (s : string).

(** [struct grub_luks2_keyslot].  The union [kdf.u] is kept as its three
    cells: [argon2i.time], [argon2i.memory], [argon2i.cpus] are cells 0,
    1, 2 and [pbkdf2.hash], [pbkdf2.iterations] are cells 0, 1. *)
Record grub_luks2_keyslot_t := mk_keyslot {
  key_size : Z;
  priority : Z;
  area_encryption : string;
  area_offset : Z;
  area_size : Z;
  area_key_size : Z;
  af_hash : string;
  af_stripes : Z;
  kdf_type : grub_luks2_kdf_type_t;
  kdf_salt : string;
  kdf_u0 : cell;
  kdf_u1 : cell;
  kdf_u2 : cell
}.

Definition pbkdf2_hash (k : grub_luks2_keyslot_t) : string :=
  match kdf_u0 k with CPtr s => s | CInt _ => EmptyString end.

Definition pbkdf2_iterations (k : grub_luks2_keyslot_t) : Z :=
  match kdf_u1 k with CInt z => z | CPtr _ => 0 end.

Record grub_luks2_segment_t := mk_segment {
  seg_offset : Z;
  seg_size : string;
  seg_encryption : string;
  seg_sector_size : Z
}.

Record grub_luks2_digest_t := mk_digest {
  dg_keyslots : Z;
  dg_segments : Z;
  dg_salt : string;
  dg_digest : string;
  dg_hash : string;
  dg_iterations : Z
}.

(** Field assignments [out->f = v]. *)
Definition set_key_size (k : grub_luks2_keyslot_t) (v : Z) :=
  mk_keyslot v (priority k) (area_encryption k) (area_offset k) (area_size k)
    (area_key_size k) (af_hash k) (af_stripes k) (kdf_type k) (kdf_salt k)
    (kdf_u0 k) (kdf_u1 k) (kdf_u2 k).
Definition set_priority (k : grub_luks2_keyslot_t) (v : Z) :=
  mk_keyslot (key_size k) v (area_encryption k) (area_offset k) (area_size k)
    (area_key_size k) (af_hash k) (af_stripes k) (kdf_type k) (kdf_salt k)
    (kdf_u0 k) (kdf_u1 k) (kdf_u2 k).
Definition set_area_encryption (k : grub_luks2_keyslot_t) (v : string) :=
  mk_keyslot (key_size k) (priority k) v (area_offset k) (area_size k)
    (area_key_size k) (af_hash k) (af_stripes k) (kdf_type k) (kdf_salt k)
    (kdf_u0 k) (kdf_u1 k) (kdf_u2 k).
Definition set_area_offset (k : grub_luks2_keyslot_t) (v : Z) :=
  mk_keyslot (key_size k) (priority k) (area_encryption k) v (area_size k)
    (area_key_size k) (af_hash k) (af_stripes k) (kdf_type k) (kdf_salt k)
    (kdf_u0 k) (kdf_u1 k) (kdf_u2 k).
Definition set_area_size (k : grub_luks2_keyslot_t) (v : Z) :=
  mk_keyslot (key_size k) (priority k) (area_encryption k) (area_offset k) v
    (area_key_size k) (af_hash k) (af_stripes k) (kdf_type k) (kdf_salt k)
    (kdf_u0 k) (kdf_u1 k) (kdf_u2 k).
Definition set_area_key_size (k : grub_luks2_keyslot_t) (v : Z) :=
  mk_keyslot (key_size k) (priority k) (area_encryption k) (area_offset k)
    (area_size k) v (af_hash k) (af_stripes k) (kdf_type k) (kdf_salt k)
    (kdf_u0 k) (kdf_u1 k) (kdf_u2 k).
Definition set_af_hash (k : grub_luks2_keyslot_t) (v : string) :=
  mk_keyslot (key_size k) (priority k) (area_encryption k) (area_offset k)
    (area_size k) (area_key_size k) v (af_stripes k) (kdf_type k) (kdf_salt k)
    (kdf_u0 k) (kdf_u1 k) (kdf_u2 k).
Definition set_af_stripes (k : grub_luks2_keyslot_t) (v : Z) :=
  mk_keyslot (key_size k) (priority k) (area_encryption k) (area_offset k)
    (area_size k) (area_key_size k) (af_hash k) v (kdf_type k) (kdf_salt k)
    (kdf_u0 k) (kdf_u1 k) (kdf_u2 k).
Definition set_kdf_type (k : grub_luks2_keyslot_t) (v : grub_luks2_kdf_type_t) :=
  mk_keyslot (key_size k) (priority k) (area_encryption k) (area_offset k)
    (area_size k) (area_key_size k) (af_hash k) (af_stripes k) v (kdf_salt k)
    (kdf_u0 k) (kdf_u1 k) (kdf_u2 k).
Definition set_kdf_salt (k : grub_luks2_keyslot_t) (v : string) :=
  mk_keyslot (key_size k) (priority k) (area_encryption k) (area_offset k)
    (area_size k) (area_key_size k) (af_hash k) (af_stripes k) (kdf_type k) v
    (kdf_u0 k) (kdf_u1 k) (kdf_u2 k).
Definition set_kdf_u0 (k : grub_luks2_keyslot_t) (v : cell) :=
  mk_keyslot (key_size k) (priority k) (area_encryption k) (area_offset k)
    (area_size k) (area_key_size k) (af_hash k) (af_stripes k) (kdf_type k)
    (kdf_salt k) v (kdf_u1 k) (kdf_u2 k).
Definition set_kdf_u1 (k : grub_luks2_keyslot_t) (v : cell) :=
  mk_keyslot (key_size k) (priority k) (area_encryption k) (area_offset k)
    (area_size k) (area_key_size k) (af_hash k) (af_stripes k) (kdf_type k)
    (kdf_salt k) (kdf_u0 k) v (kdf_u2 k).
Definition set_kdf_u2 (k : grub_luks2_keyslot_t) (v : cell) :=
  mk_keyslot (key_size k) (priority k) (area_encryption k) (area_offset k)
    (area_size k) (area_key_size k) (af_hash k) (af_stripes k) (kdf_type k)
    (kdf_salt k) (kdf_u0 k) (kdf_u1 k) v.

Definition set_argon2i_time k (v : Z) := set_kdf_u0 k (CInt v).
Definition set_argon2i_memory k (v : Z) := set_kdf_u1 k (CInt v).
Definition set_argon2i_cpus k (v : Z) := set_kdf_u2 k (CInt v).
Definition set_pbkdf2_hash k (v : string) := set_kdf_u0 k (CPtr v).
Definition set_pbkdf2_iterations k (v : Z) := set_kdf_u1 k (CInt v).

Definition set_seg_offset (s : grub_luks2_segment_t) (v : Z) :=
  mk_segment v (seg_size s) (seg_encryption s) (seg_sector_size s).
Definition set_seg_size (s : grub_luks2_segment_t) (v : string) :=
  mk_segment (seg_offset s) v (seg_encryption s) (seg_sector_size s).
Definition set_seg_encryption (s : grub_luks2_segment_t) (v : string) :=
  mk_segment (seg_offset s) (seg_size s) v (seg_sector_size s).
Definition set_seg_sector_size (s : grub_luks2_segment_t) (v : Z) :=
  mk_segment (seg_offset s) (seg_size s) (seg_encryption s) v.

Definition set_dg_keyslots (d : grub_luks2_digest_t) (v : Z) :=
  mk_digest v (dg_segments d) (dg_salt d) (dg_digest d) (dg_hash d) (dg_iterations d).
Definition set_dg_segments (d : grub_luks2_digest_t) (v : Z) :=
  mk_digest (dg_keyslots d) v (dg_salt d) (dg_digest d) (dg_hash d) (dg_iterations d).
Definition set_dg_salt (d : grub_luks2_digest_t) (v : string) :=
  mk_digest (dg_keyslots d) (dg_segments d) v (dg_digest d) (dg_hash d) (dg_iterations d).
Definition set_dg_digest (d : grub_luks2_digest_t) (v : string) :=
  mk_digest (dg_keyslots d) (dg_segments d) (dg_salt d) v (dg_hash d) (dg_iterations d).
Definition set_dg_hash (d : grub_luks2_digest_t) (v : string) :=
  mk_digest (dg_keyslots d) (dg_segments d) (dg_salt d) (dg_digest d) v (dg_iterations d).
Definition set_dg_iterations (d : grub_luks2_digest_t) (v : Z) :=
  mk_digest (dg_keyslots d) (dg_segments d) (dg_salt d) (dg_digest d) (dg_hash d) v.

(** A getter writing through an out pointer: on failure the target is
    left as it was; the result says whether the getter failed. *)
Definition into {O A : Type} (set : O -> A -> O) (got : option A)
  : O -> bool * O :=
  fun o => match got with
           | Some v => (false, set o v)
           | None => (true, o)
           end.

(** The short-circuit [a || b] of two getters. *)
Definition orelse {O : Type} (a b : O -> bool * O) : O -> bool * O :=
  fun o => let '(failed, o1) := a o in
           if failed then (true, o1) else b o1.

Notation "a ||| b" := (orelse a b) (at level 50, left associativity).

(** ** Devices, the crypto disk and the environment *)

(** Modelled from the spec: the part of [struct grub_cryptodisk]
    (grub/cryptodisk.h) that this file reads and writes: the sector layout
    fields assigned by the orchestrator, and the cipher and key that
    [setcipher] and [setkey] configure. *)
Record grub_cryptodisk := mk_cryptodisk {
  offset_sectors : Z;
  log_sector_size : Z;
  total_sectors : Z;
  cipher : option (string * string);
  key : option (list byte);
  uuid : string
}.

(** The source disk: what a read of [size] bytes at byte [offset] returns,
    its size in sectors and its sector size. *)
Record grub_disk := mk_disk {
  disk_read_result : Z -> Z -> grub_err_t * list byte;
  disk_size : Z;
  disk_log_sector_size : Z
}.

(** A detached header file: [file_seek_result off] is the error that a
    failing seek leaves in [grub_errno]; [file_read_result off len] is the
    bytes delivered by a read of [len] bytes at [off] (fewer on a short
    read) and the error it leaves in [grub_errno], if any. *)
Record grub_file := mk_file {
  file_seek_result : Z -> option grub_err_t;
  file_read_result : Z -> Z -> list byte * option grub_err_t
}.

(** What the routines of other modules compute.  They are black boxes of
    the specification; every definition below takes them as [P]. *)
Record providers := mk_providers {
  (** value of the [int] expression [1 << n] when [n] is 31 or more, where
      C leaves it undefined; only its low 32 bits are used *)
  shl_undefined : Z -> Z;
  (** [base64_decode (in, strlen (in), out, &outlen)]: the decoded bytes
      for an output capacity, or failure *)
  base64_decode : string -> Z -> option (list byte);
  grub_crypto_lookup_md_by_name : string -> bool;
  (** [grub_crypto_pbkdf2 (hash, P, Plen, S, Slen, c, DK, dkLen)] with the
      salt length that of [S]: the error code and the derived bytes *)
  grub_crypto_pbkdf2 :
    string -> list byte -> Z -> list byte -> Z -> Z -> gcry_err_code_t * list byte;
  AF_merge : string -> list byte -> Z -> Z -> gcry_err_code_t * list byte;
  grub_crypto_gcry_error : gcry_err_code_t -> grub_err_t;
  (** whether a cipher and mode pair can be configured *)
  setcipher_result : string -> string -> grub_err_t;
  setkey_result : option (string * string) -> list byte -> Z -> gcry_err_code_t;
  (** sector decryption of a buffer under the configured cipher and key *)
  decrypt_result :
    grub_cryptodisk -> list byte -> Z -> Z -> Z -> gcry_err_code_t * list byte;
  grub_json_parse : list byte -> Z -> option grub_json_t;
  (** [grub_password_get]: whether a passphrase was supplied, and the
      characters typed (fewer than [MAX_PASSPHRASE]) *)
  grub_password_get : bool * list byte;
  (** whether an allocation of a size succeeds, and what a fresh
      [grub_malloc] block holds *)
  alloc_ok : Z -> bool;
  malloc_contents : Z -> list byte;
  (** what the automatic variables hold before their first assignment *)
  uninit_header : list byte;
  uninit_keyslot : grub_luks2_keyslot_t;
  uninit_digest : grub_luks2_digest_t;
  uninit_segment : grub_luks2_segment_t;
  uninit_key : list byte
}.

(** Everything the routines change outside their arguments: the global
    error state and the crypto disk the caller handed in. *)
Record world := mk_world {
  grub_errno : grub_err_t;
  grub_errmsg : string;
  crypt : grub_cryptodisk
}.

(** Calls into other modules and messages, in the order they happen. *)
Inductive event :=
| EvError (code : grub_err_t) (fmt : string)
| EvDprintf (fmt : string) (args : list Z)
| EvPrintf (fmt : string) (args : list Z)
| EvDiskRead (offset size : Z)
| EvFileSeek (offset : Z)
| EvFileRead (len : Z)
| EvZalloc (size : Z)
| EvMalloc (size : Z)
| EvFree (contents : list byte)
| EvJsonParse (buffer_len len : Z)
| EvJsonFree
| EvPasswordGet
| EvBase64 (input : string)
| EvPbkdf2 (hash : string) (secret : list byte) (secret_len : Z)
    (salt : list byte) (iterations outlen : Z)
| EvSetCipher (ciphername mode : string)
| EvSetKey (keybytes : list byte) (len : Z)
| EvDecrypt (len sector log_sector : Z)
| EvAFMerge (hash : string) (blocksize blocknumbers : Z).

(** ** The monad of the embedding: state and an event trace *)

Definition M (A : Type) : Type := world -> A * world * list event.

Definition pure {A : Type} (a : A) : M A := fun w => (a, w, []).

Definition bind {A B : Type} (m : M A) (f : A -> M B) : M B :=
  fun w =>
    let '(a, w1, t1) := m w in
    let '(b, w2, t2) := f a w1 in
    (b, w2, t1 ++ t2).

Notation "x <- m ;; k" := (bind m (fun x => k))
  (at level 61, m at next level, right associativity).
Notation "' pat <- m ;; k" := (bind m (fun x => match x with pat => k end))
  (at level 61, pat pattern, m at next level, right associativity).
Notation "m ;;; k" := (bind m (fun _ => k))
  (at level 61, right associativity).

Definition emit (e : event) : M unit := fun w => (tt, w, [e]).
Definition get_world : M world := fun w => (w, w, []).
Definition put_world (w' : world) : M unit := fun _ => (tt, w', []).

Definition value_of {A : Type} (r : A * world * list event) : A := fst (fst r).
Definition world_of {A : Type} (r : A * world * list event) : world := snd (fst r).
Definition trace_of {A : Type} (r : A * world * list event) : list event := snd r.

Definition set_errno (w : world) (e : grub_err_t) : world :=
  mk_world e (grub_errmsg w) (crypt w).
Definition set_error (w : world) (e : grub_err_t) (msg : string) : world :=
  mk_world e msg (crypt w).
Definition set_crypt (w : world) (c : grub_cryptodisk) : world :=
  mk_world (grub_errno w) (grub_errmsg w) c.

(** [grub_error (n, fmt, ...)]: records the error and returns its code.
    The message is kept as its format string. *)
Definition grub_error (n : grub_err_t) (fmt : string) : M grub_err_t :=
  fun w => (n, set_error w n fmt, [EvError n fmt]).

(** [luks2_derror] expands to [grub_derror ("luks2", n, ...)], the
    debugging variant of [grub_error]. *)
Definition luks2_derror (n : grub_err_t) (fmt : string) : M grub_err_t :=
  grub_error n fmt.

Definition grub_dprintf (fmt : string) (args : list Z) : M unit :=
  emit (EvDprintf fmt args).
Definition grub_printf_ (fmt : string) (args : list Z) : M unit :=
  emit (EvPrintf fmt args).

(** [return luks2_derror (n, fmt)] from a routine with an out record. *)
Definition reject {O : Type} (out : O) (n : grub_err_t) (fmt : string)
  : M (grub_err_t * O) :=
  e <- luks2_derror n fmt ;; pure (e, out).

(** ** 4.B JSON metadata decoder *)

Definition luks2_parse_keyslot (out : grub_luks2_keyslot_t) (keyslot : grub_json_t)
  : M (grub_err_t * grub_luks2_keyslot_t) :=
  match grub_json_getstring keyslot (Some "type") with
  | None => reject out GRUB_ERR_BAD_ARGUMENT "Missing or invalid keyslot"
  | Some type =>
  if grub_strcmp type "luks2"
  then reject out GRUB_ERR_BAD_ARGUMENT "Unsupported keyslot type %s"
  else
  let '(failed, out) :=
    into set_key_size (grub_json_getint64 keyslot (Some "key_size")) out in
  if failed then reject out GRUB_ERR_BAD_ARGUMENT "Missing keyslot information"
  else
  let out :=
    match grub_json_getint64 keyslot (Some "priority") with
    | Some v => set_priority out v
    | None => set_priority out 1
    end in
  match grub_json_getvalue keyslot "area" with
  | None => reject out GRUB_ERR_BAD_ARGUMENT "Missing or invalid key area"
  | Some area =>
  match grub_json_getstring area (Some "type") with
  | None => reject out GRUB_ERR_BAD_ARGUMENT "Missing or invalid key area"
  | Some type =>
  if grub_strcmp type "raw"
  then reject out GRUB_ERR_BAD_ARGUMENT "Unsupported key area type: %s"
  else
  let '(failed, out) :=
    (into set_area_offset (grub_json_getuint64 area (Some "offset"))
     ||| into set_area_size (grub_json_getuint64 area (Some "size"))
     ||| into set_area_encryption (grub_json_getstring area (Some "encryption"))
     ||| into set_area_key_size (grub_json_getint64 area (Some "key_size"))) out in
  if failed then reject out GRUB_ERR_BAD_ARGUMENT "Missing key area information"
  else
  match grub_json_getvalue keyslot "kdf" with
  | None => reject out GRUB_ERR_BAD_ARGUMENT "Missing or invalid KDF"
  | Some kdf =>
  match grub_json_getstring kdf (Some "type") with
  | None => reject out GRUB_ERR_BAD_ARGUMENT "Missing or invalid KDF"
  | Some type =>
  let '(failed, out) :=
    into set_kdf_salt (grub_json_getstring kdf (Some "salt")) out in
  if failed then reject out GRUB_ERR_BAD_ARGUMENT "Missing or invalid KDF"
  else
  let after_kdf (out : grub_luks2_keyslot_t) :=
    match grub_json_getvalue keyslot "af" with
    | None => reject out GRUB_ERR_BAD_ARGUMENT "missing or invalid area"
    | Some af =>
    match grub_json_getstring af (Some "type") with
    | None => reject out GRUB_ERR_BAD_ARGUMENT "missing or invalid area"
    | Some type =>
    if grub_strcmp type "luks1"
    then reject out GRUB_ERR_BAD_ARGUMENT "Unsupported AF type %s"
    else
    let '(failed, out) :=
      (into set_af_stripes (grub_json_getint64 af (Some "stripes"))
       ||| into set_af_hash (grub_json_getstring af (Some "hash"))) out in
    if failed then reject out GRUB_ERR_BAD_ARGUMENT "Missing AF parameters"
    else pure (GRUB_ERR_NONE, out)
    end end in
  if negb (grub_strcmp type "argon2i") || negb (grub_strcmp type "argon2id")
  then
    let out := set_kdf_type out LUKS2_KDF_TYPE_ARGON2I in
    let '(failed, out) :=
      (into set_argon2i_time (grub_json_getint64 kdf (Some "time"))
       ||| into set_argon2i_memory (grub_json_getint64 kdf (Some "memory"))
       ||| into set_argon2i_cpus (grub_json_getint64 kdf (Some "cpus"))) out in
    if failed then reject out GRUB_ERR_BAD_ARGUMENT "Missing Argon2i parameters"
    else after_kdf out
  else if negb (grub_strcmp type "pbkdf2")
  then
    let out := set_kdf_type out LUKS2_KDF_TYPE_PBKDF2 in
    let '(failed, out) :=
      (into set_pbkdf2_hash (grub_json_getstring kdf (Some "hash"))
       ||| into set_pbkdf2_iterations (grub_json_getint64 kdf (Some "iterations"))) out in
    if failed then reject out GRUB_ERR_BAD_ARGUMENT "Missing PBKDF2 parameters"
    else after_kdf out
  else reject out GRUB_ERR_BAD_ARGUMENT "Unsupported KDF type %s"
  end end end end end.

Definition luks2_parse_segment (out : grub_luks2_segment_t) (segment : grub_json_t)
  : M (grub_err_t * grub_luks2_segment_t) :=
  match grub_json_getstring segment (Some "type") with
  | None => reject out GRUB_ERR_BAD_ARGUMENT "Invalid segment type"
  | Some type =>
  if grub_strcmp type "crypt"
  then reject out GRUB_ERR_BAD_ARGUMENT "Unsupported segment type %s"
  else
  let '(failed, out) :=
    (into set_seg_offset (grub_json_getuint64 segment (Some "offset"))
     ||| into set_seg_size (grub_json_getstring segment (Some "size"))
     ||| into set_seg_encryption (grub_json_getstring segment (Some "encryption"))
     ||| into set_seg_sector_size (grub_json_getint64 segment (Some "sector_size"))) out in
  if failed then reject out GRUB_ERR_BAD_ARGUMENT "Missing segment parameters"
  else pure (GRUB_ERR_NONE, out)
  end.

Section Decoder.

Variable P : providers.

(** The [int] expression [1 << bit]: the literal 1 is a 32-bit [int], so
    the shift is an [int] too.  It is [2 ^ bit] up to bit 30; from bit 31
    on the C value is not defined and the target decides, within 32 bits. *)
Definition int_shl1 (bit : Z) : Z :=
  if bit <? 31 then 2 ^ bit else sint32 (shl_undefined P bit).

(** [mask |= (1 << bit)] on a [grub_uint64_t]: the [int] is converted to
    64 bits (sign extension) before the OR. *)
Definition or_bit (mask bit : Z) : Z := Z.lor mask (u64 (int_shl1 bit)).

(** [mask & (1 << bit)] as a truth value. *)
Definition test_bit (mask bit : Z) : bool :=
  negb (Z.land mask (u64 (int_shl1 bit)) =? 0).

(** The loops of [luks2_parse_digest] over the children [i], [i+1], ... of
    an array: [n] is the number of rounds left.  Returns whether a child
    was rejected, and the mask as it stands. *)
Fixpoint collect_bits (arr : grub_json_t) (n : nat) (i : Z) (mask : Z)
  : bool * Z :=
  match n with
  | O => (false, mask)
  | S n' =>
      match grub_json_getchild arr i with
      | None => (true, mask)
      | Some o =>
          match grub_json_getuint64 o None with
          | None => (true, mask)
          | Some bit => collect_bits arr n' (i + 1) (or_bit mask bit)
          end
      end
  end.

Definition luks2_parse_digest (out : grub_luks2_digest_t) (digest : grub_json_t)
  : M (grub_err_t * grub_luks2_digest_t) :=
  match grub_json_getstring digest (Some "type") with
  | None => reject out GRUB_ERR_BAD_ARGUMENT "Invalid digest type"
  | Some type =>
  if grub_strcmp type "pbkdf2"
  then reject out GRUB_ERR_BAD_ARGUMENT "Unsupported digest type %s"
  else
  match grub_json_getvalue digest "segments" with
  | None => reject out GRUB_ERR_BAD_ARGUMENT "Missing digest parameters"
  | Some segments =>
  match grub_json_getvalue digest "keyslots" with
  | None => reject out GRUB_ERR_BAD_ARGUMENT "Missing digest parameters"
  | Some keyslots =>
  let '(failed, out) :=
    (into set_dg_salt (grub_json_getstring digest (Some "salt"))
     ||| into set_dg_digest (grub_json_getstring digest (Some "digest"))
     ||| into set_dg_hash (grub_json_getstring digest (Some "hash"))
     ||| into set_dg_iterations (grub_json_getint64 digest (Some "iterations"))) out in
  if failed then reject out GRUB_ERR_BAD_ARGUMENT "Missing digest parameters"
  else
  match grub_json_getsize segments with
  | None => reject out GRUB_ERR_BAD_ARGUMENT "Digest references no segments"
  | Some size =>
  let out := set_dg_segments out 0 in
  let '(failed, mask) := collect_bits segments (Z.to_nat size) 0 (dg_segments out) in
  let out := set_dg_segments out mask in
  if failed then reject out GRUB_ERR_BAD_ARGUMENT "Invalid segment"
  else
  match grub_json_getsize keyslots with
  | None => reject out GRUB_ERR_BAD_ARGUMENT "Digest references no keyslots"
  | Some size =>
  let out := set_dg_keyslots out 0 in
  let '(failed, mask) := collect_bits keyslots (Z.to_nat size) 0 (dg_keyslots out) in
  let out := set_dg_keyslots out mask in
  if failed then reject out GRUB_ERR_BAD_ARGUMENT "Invalid keyslot"
  else pure (GRUB_ERR_NONE, out)
  end end end end end.

End Decoder.

(** ** 4.A Binary header codec *)

(** Big-endian value of a run of bytes ([grub_be_to_cpu16], [..64] applied
    to a field of the packed header). *)
Definition be_value (bs : list byte) : Z :=
  fold_left (fun acc b => acc * 256 + b) bs 0.

Definition field (hdr : list byte) (off len : nat) : list byte :=
  firstn len (skipn off hdr).

(** Fields of [struct grub_luks2_header] by their offsets in the packed
    4096-byte layout. *)
Definition hdr_magic (h : list byte) : list byte := field h 0 6.
Definition hdr_version (h : list byte) : Z := be_value (field h 6 2).
Definition hdr_size (h : list byte) : Z := be_value (field h 8 8).
Definition hdr_seqid (h : list byte) : Z := be_value (field h 16 8).
Definition hdr_label (h : list byte) : list byte := field h 24 48.
Definition hdr_csum_alg (h : list byte) : list byte := field h 72 32.
Definition hdr_salt (h : list byte) : list byte := field h 104 64.
Definition hdr_uuid (h : list byte) : list byte := field h 168 40.
Definition hdr_subsystem (h : list byte) : list byte := field h 208 48.
Definition hdr_offset (h : list byte) : Z := be_value (field h 256 8).
Definition hdr_csum (h : list byte) : list byte := field h 448 64.

Fixpoint bytes_eqb (a b : list byte) : bool :=
  match a, b with
  | [], [] => true
  | x :: a', y :: b' => (x =? y) && bytes_eqb a' b'
  | _, _ => false
  end.

(** [grub_memcmp (a, b, n) != 0] *)
Definition grub_memcmp (a b : list byte) (n : nat) : bool :=
  negb (bytes_eqb (firstn n a) (firstn n b)).

(** Writing [data] at the start of a buffer. *)
Definition overwrite (buf data : list byte) : list byte :=
  data ++ skipn (List.length data) buf.

(** The read block that the file repeats three times:
<<
    if (hdr_file)
      {
        if (grub_file_seek (hdr_file, offset) == (grub_off_t) -1)
          ret = grub_errno;
        else if (grub_file_read (hdr_file, buf, size) != size)
          ret = grub_errno;
      }
    else
      ret = grub_disk_read (disk, 0, offset, size, buf);
>>
    [ret] is the value the variable holds when the block is entered. *)
Definition luks2_read (disk : grub_disk) (hdr_file : option grub_file)
    (ret : grub_err_t) (offset size : Z) (buf : list byte)
  : M (grub_err_t * list byte) :=
  match hdr_file with
  | Some f =>
      emit (EvFileSeek offset) ;;;
      match file_seek_result f offset with
      | Some e =>
          w <- get_world ;;
          put_world (set_errno w e) ;;;
          pure (e, buf)
      | None =>
          emit (EvFileRead size) ;;;
          let '(data, err) := file_read_result f offset size in
          match err with
          | Some e =>
              w <- get_world ;;
              put_world (set_errno w e) ;;;
              pure (e, overwrite buf data)
          | None =>
              if Z.of_nat (List.length data) =? size
              then pure (ret, overwrite buf data)
              else w <- get_world ;; pure (grub_errno w, overwrite buf data)
          end
      end
  | None =>
      emit (EvDiskRead offset size) ;;;
      let '(e, data) := disk_read_result disk offset size in
      if is_err e
      then w <- get_world ;; put_world (set_errno w e) ;;; pure (e, buf)
      else pure (GRUB_ERR_NONE, overwrite buf data)
  end.

Section Header.

Variable P : providers.

(** Determine whether to use primary or secondary header. *)
Definition luks2_read_header (disk : grub_disk) (hdr_file : option grub_file)
    (outhdr : list byte) : M (grub_err_t * list byte) :=
  '(ret, primary) <-
     luks2_read disk hdr_file GRUB_ERR_NONE 0 sizeof_header (uninit_header P) ;;
  if is_err ret then pure (ret, outhdr)
  else
  if grub_memcmp (hdr_magic primary) LUKS_MAGIC_1ST 6
     || negb (hdr_version primary =? 2)
  then e <- grub_error GRUB_ERR_BAD_SIGNATURE "Bad primary signature" ;;
       pure (e, outhdr)
  else
  '(ret, secondary) <-
     luks2_read disk hdr_file ret (hdr_size primary) sizeof_header (uninit_header P) ;;
  if is_err ret then pure (ret, outhdr)
  else
  if grub_memcmp (hdr_magic secondary) LUKS_MAGIC_2ND 6
     || negb (hdr_version secondary =? 2)
  then e <- grub_error GRUB_ERR_BAD_SIGNATURE "Bad secondary signature" ;;
       pure (e, outhdr)
  else
  let header :=
    if hdr_seqid primary <? hdr_seqid secondary then secondary else primary in
  pure (GRUB_ERR_NONE, header).

End Header.

(** ** 4.C Resolver *)

(** How one of the two scans of [luks2_get_keyslot] ends: at a matching
    entry (the [break]), after the last entry ([i == size]), or at an
    entry that cannot be parsed.  [o] is the out record as the scan
    leaves it and [k] the key of the last entry looked at. *)
Inductive scan_result (O : Type) :=
| ScanFound (o : O) (k : Z)
| ScanExhausted (o : O) (k : Z)
| ScanError (o : O).

Arguments ScanFound {O} o k.
Arguments ScanExhausted {O} o k.
Arguments ScanError {O} o.

Section Resolver.

Variable P : providers.

(** [for (i = 0; i < size; i++)] over the digests; [n] rounds are left. *)
Fixpoint scan_digests (digests : grub_json_t) (keyslot_key : Z)
    (n : nat) (i : Z) (d : grub_luks2_digest_t) (digest_key : Z)
  : M (scan_result grub_luks2_digest_t) :=
  match n with
  | O => pure (ScanExhausted d digest_key)
  | S n' =>
      match grub_json_getchild digests i with
      | None => pure (ScanError d)
      | Some digest =>
      match grub_json_getuint64 digest None with
      | None => pure (ScanError d)
      | Some digest_key =>
      match grub_json_getchild digest 0 with
      | None => pure (ScanError d)
      | Some digest =>
          '(e, d) <- luks2_parse_digest P d digest ;;
          if is_err e then pure (ScanError d)
          else if test_bit P (dg_keyslots d) keyslot_key
          then pure (ScanFound d digest_key)
          else scan_digests digests keyslot_key n' (i + 1) d digest_key
      end end end
  end.

(** [for (i = 0; i < size; i++)] over the segments. *)
Fixpoint scan_segments (segments : grub_json_t) (d : grub_luks2_digest_t)
    (n : nat) (i : Z) (s : grub_luks2_segment_t) (segment_key : Z)
  : M (scan_result grub_luks2_segment_t) :=
  match n with
  | O => pure (ScanExhausted s segment_key)
  | S n' =>
      match grub_json_getchild segments i with
      | None => pure (ScanError s)
      | Some segment =>
      match grub_json_getuint64 segment None with
      | None => pure (ScanError s)
      | Some segment_key =>
      match grub_json_getchild segment 0 with
      | None => pure (ScanError s)
      | Some segment =>
          '(e, s) <- luks2_parse_segment s segment ;;
          if is_err e then pure (ScanError s)
          else if test_bit P (dg_segments d) segment_key
          then pure (ScanFound s segment_key)
          else scan_segments segments d n' (i + 1) s segment_key
      end end end
  end.

Definition get_keyslot_result : Type :=
  grub_err_t * grub_luks2_keyslot_t * grub_luks2_digest_t * grub_luks2_segment_t.

Definition luks2_get_keyslot (k : grub_luks2_keyslot_t) (d : grub_luks2_digest_t)
    (s : grub_luks2_segment_t) (root : grub_json_t) (keyslot_idx : Z)
  : M get_keyslot_result :=
  let no_keyslot (k : grub_luks2_keyslot_t) : M get_keyslot_result :=
    e <- luks2_derror GRUB_ERR_BAD_ARGUMENT "Could not parse keyslot index %lu" ;;
    pure (e, k, d, s) in
  (* Get nth keyslot *)
  match grub_json_getvalue root "keyslots" with
  | None => no_keyslot k
  | Some keyslots =>
  match grub_json_getchild keyslots keyslot_idx with
  | None => no_keyslot k
  | Some keyslot =>
  match grub_json_getuint64 keyslot None with
  | None => no_keyslot k
  | Some keyslot_key =>
  match grub_json_getchild keyslot 0 with
  | None => no_keyslot k
  | Some keyslot =>
  '(e, k) <- luks2_parse_keyslot k keyslot ;;
  if is_err e then no_keyslot k
  else
  (* Get digest that matches the keyslot. *)
  match grub_json_getvalue root "digests" with
  | None =>
      e <- luks2_derror GRUB_ERR_BAD_ARGUMENT "Could not get digests" ;;
      pure (e, k, d, s)
  | Some digests =>
  match grub_json_getsize digests with
  | None =>
      e <- luks2_derror GRUB_ERR_BAD_ARGUMENT "Could not get digests" ;;
      pure (e, k, d, s)
  | Some size =>
  found <- scan_digests digests keyslot_key (Z.to_nat size) 0 d 0 ;;
  match found with
  | ScanError d =>
      e <- luks2_derror GRUB_ERR_BAD_ARGUMENT "Could not parse digest index %lu" ;;
      pure (e, k, d, s)
  | ScanExhausted d _ =>
      e <- luks2_derror GRUB_ERR_FILE_NOT_FOUND "No digest for keyslot %lu" ;;
      pure (e, k, d, s)
  | ScanFound d digest_key =>
  (* Get segment that matches the digest. *)
  match grub_json_getvalue root "segments" with
  | None =>
      e <- luks2_derror GRUB_ERR_BAD_ARGUMENT "Could not get segments" ;;
      pure (e, k, d, s)
  | Some segments =>
  match grub_json_getsize segments with
  | None =>
      e <- luks2_derror GRUB_ERR_BAD_ARGUMENT "Could not get segments" ;;
      pure (e, k, d, s)
  | Some size =>
  found <- scan_segments segments d (Z.to_nat size) 0 s 0 ;;
  match found with
  | ScanError s =>
      e <- luks2_derror GRUB_ERR_BAD_ARGUMENT "Could not parse segment index %lu" ;;
      pure (e, k, d, s)
  | ScanExhausted s _ =>
      e <- luks2_derror GRUB_ERR_FILE_NOT_FOUND "No segment for digest %lu" ;;
      pure (e, k, d, s)
  | ScanFound s _ => pure (GRUB_ERR_NONE, k, d, s)
  end end end end end end end end end end.

End Resolver.

(** ** Crypto disk operations *)

Definition set_cd_offset_sectors (c : grub_cryptodisk) (v : Z) :=
  mk_cryptodisk v (log_sector_size c) (total_sectors c) (cipher c) (key c) (uuid c).
Definition set_cd_log_sector_size (c : grub_cryptodisk) (v : Z) :=
  mk_cryptodisk (offset_sectors c) v (total_sectors c) (cipher c) (key c) (uuid c).
Definition set_cd_total_sectors (c : grub_cryptodisk) (v : Z) :=
  mk_cryptodisk (offset_sectors c) (log_sector_size c) v (cipher c) (key c) (uuid c).
Definition set_cd_cipher (c : grub_cryptodisk) (v : option (string * string)) :=
  mk_cryptodisk (offset_sectors c) (log_sector_size c) (total_sectors c) v (key c) (uuid c).
Definition set_cd_key (c : grub_cryptodisk) (v : option (list byte)) :=
  mk_cryptodisk (offset_sectors c) (log_sector_size c) (total_sectors c) (cipher c) v (uuid c).

(** An assignment to a field of [*crypt]. *)
Definition update_crypt (f : grub_cryptodisk -> grub_cryptodisk) : M unit :=
  fun w => (tt, set_crypt w (f (crypt w)), []).

Section CryptoDisk.

Variable P : providers.

(** Modelled from the spec: [crypto_disk.setcipher (cipher, mode)]
    configures the pair, or fails with an error it records. *)
Definition grub_cryptodisk_setcipher (ciphername mode : string) : M grub_err_t :=
  emit (EvSetCipher ciphername mode) ;;;
  let e := setcipher_result P ciphername mode in
  if is_err e then grub_error e "cannot configure cipher"
  else update_crypt (fun c => set_cd_cipher c (Some (ciphername, mode))) ;;;
       pure GRUB_ERR_NONE.

(** Modelled from the spec: [crypto_disk.setkey (bytes)] installs the
    first [len] bytes of the buffer as the key. *)
Definition grub_cryptodisk_setkey (keybuf : list byte) (len : Z)
  : M gcry_err_code_t :=
  emit (EvSetKey keybuf len) ;;;
  w <- get_world ;;
  let r := setkey_result P (cipher (crypt w)) keybuf len in
  if r =? 0
  then update_crypt (fun c => set_cd_key c (Some (firstn (Z.to_nat len) keybuf))) ;;;
       pure r
  else pure r.

(** Modelled from the spec: [crypto_disk.decrypt (buf, len, iv_start,
    log_sector_size)] decrypts the buffer in place. *)
Definition grub_cryptodisk_decrypt (buf : list byte) (len sector log_sector : Z)
  : M (gcry_err_code_t * list byte) :=
  emit (EvDecrypt len sector log_sector) ;;;
  w <- get_world ;;
  pure (decrypt_result P (crypt w) buf len sector log_sector).

(** ** 4.E Digest verifier *)

Definition luks2_verify_key (d : grub_luks2_digest_t) (candidate_key : list byte)
    (candidate_key_len : Z) : M grub_err_t :=
  (* Decode both digest and salt *)
  emit (EvBase64 (dg_digest d)) ;;;
  match base64_decode P (dg_digest d) GRUB_CRYPTODISK_MAX_KEYLEN with
  | None => luks2_derror GRUB_ERR_BAD_ARGUMENT "Invalid digest"
  | Some digest =>
  emit (EvBase64 (dg_salt d)) ;;;
  match base64_decode P (dg_salt d) GRUB_CRYPTODISK_MAX_KEYLEN with
  | None => luks2_derror GRUB_ERR_BAD_ARGUMENT "Invalid digest salt"
  | Some salt =>
  let digestlen := Z.of_nat (List.length digest) in
  (* Configure the hash used for the digest. *)
  if negb (grub_crypto_lookup_md_by_name P (dg_hash d))
  then luks2_derror GRUB_ERR_FILE_NOT_FOUND "Couldn't load %s hash"
  else
  (* Calculate the candidate key's digest *)
  emit (EvPbkdf2 (dg_hash d) candidate_key candidate_key_len salt
          (dg_iterations d) digestlen) ;;;
  let '(gcry_ret, candidate_digest) :=
    grub_crypto_pbkdf2 P (dg_hash d) candidate_key candidate_key_len salt
      (dg_iterations d) digestlen in
  if negb (gcry_ret =? 0)
  then luks2_derror (grub_crypto_gcry_error P gcry_ret)
         "grub_crypto_pbkdf2 failed with code %d"
  else
  if grub_memcmp candidate_digest digest (List.length digest)
  then luks2_derror GRUB_ERR_ACCESS_DENIED "Mismatching digests"
  else pure GRUB_ERR_NONE
  end end.

(** ** 4.D Key-derivation and area-decrypt pipeline *)

(** The label [err:] of [luks2_decrypt_key]. *)
Definition decrypt_key_err (split_key : list byte) (ret : grub_err_t)
    (out_key : list byte) : M (grub_err_t * list byte) :=
  emit (EvFree split_key) ;;;
  pure (ret, out_key).

Definition luks2_decrypt_key (out_key : list byte) (source : grub_disk)
    (hdr_file : option grub_file) (k : grub_luks2_keyslot_t)
    (passphrase : list byte) (passphraselen : Z)
  : M (grub_err_t * list byte) :=
  emit (EvBase64 (kdf_salt k)) ;;;
  match base64_decode P (kdf_salt k) GRUB_CRYPTODISK_MAX_KEYLEN with
  | None => reject out_key GRUB_ERR_BAD_ARGUMENT "Invalid keyslot salt"
  | Some salt =>
  (* Calculate the binary area key of the user supplied passphrase. *)
  match kdf_type k with
  | LUKS2_KDF_TYPE_ARGON2I =>
      reject out_key GRUB_ERR_BAD_ARGUMENT "Argon2 not supported"
  | LUKS2_KDF_TYPE_PBKDF2 =>
  if negb (grub_crypto_lookup_md_by_name P (pbkdf2_hash k))
  then reject out_key GRUB_ERR_FILE_NOT_FOUND "Couldn't load %s hash"
  else
  emit (EvPbkdf2 (pbkdf2_hash k) passphrase passphraselen salt
          (pbkdf2_iterations k) (area_key_size k)) ;;;
  let '(gcry_ret, area_key) :=
    grub_crypto_pbkdf2 P (pbkdf2_hash k) passphrase passphraselen salt
      (pbkdf2_iterations k) (area_key_size k) in
  if negb (gcry_ret =? 0)
  then reject out_key (grub_crypto_gcry_error P gcry_ret)
         "grub_crypto_pbkdf2 failed with code %d"
  else
  (* Set up disk encryption parameters for the key area *)
  match split_dash (string_firstn 32 (area_encryption k)) with
  | None => reject out_key GRUB_ERR_BAD_ARGUMENT "Invalid encryption"
  | Some (ciphername, mode) =>
  ret <- grub_cryptodisk_setcipher ciphername mode ;;
  if is_err ret
  then grub_dprintf "grub_cryptodisk_setcipher failed[%d]: %s\n" [] ;;;
       pure (ret, out_key)
  else
  gcry_ret <- grub_cryptodisk_setkey area_key (area_key_size k) ;;
  if negb (gcry_ret =? 0)
  then reject out_key (grub_crypto_gcry_error P gcry_ret)
         "grub_cryptodisk_setkey failed with code %d"
  else
  (* Read and decrypt the binary key area with the area key. *)
  emit (EvMalloc (area_size k)) ;;;
  if negb (alloc_ok P (area_size k))
  then e <- grub_error GRUB_ERR_OUT_OF_MEMORY "out of memory" ;;
       w <- get_world ;;
       pure (grub_errno w, out_key)
  else
  let split_key := malloc_contents P (area_size k) in
  w <- get_world ;;
  put_world (set_errno w GRUB_ERR_NONE) ;;;
  '(ret, split_key) <-
     luks2_read source hdr_file ret (area_offset k) (area_size k) split_key ;;
  if is_err ret
  then luks2_derror GRUB_ERR_IO "Read error: %s\n" ;;;
       decrypt_key_err split_key ret out_key
  else
  (* The encrypted key slots area always uses 512-byte sectors,
     regardless of encrypted data sector size. *)
  '(gcry_ret, split_key) <-
     grub_cryptodisk_decrypt split_key (area_size k) 0 LUKS_LOG_SECTOR_SIZE ;;
  if negb (gcry_ret =? 0)
  then ret <- luks2_derror (grub_crypto_gcry_error P gcry_ret)
                "grub_cryptodisk_decrypt failed with code %d" ;;
       decrypt_key_err split_key ret out_key
  else
  (* Configure the hash used for anti-forensic merging. *)
  if negb (grub_crypto_lookup_md_by_name P (af_hash k))
  then ret <- luks2_derror GRUB_ERR_FILE_NOT_FOUND "Couldn't load %s hash" ;;
       decrypt_key_err split_key ret out_key
  else
  (* Merge the decrypted key material to get the candidate master key. *)
  emit (EvAFMerge (af_hash k) (key_size k) (af_stripes k)) ;;;
  let '(gcry_ret, merged) :=
    AF_merge P (af_hash k) split_key (key_size k) (af_stripes k) in
  let out_key := merged in
  if negb (gcry_ret =? 0)
  then ret <- luks2_derror (grub_crypto_gcry_error P gcry_ret)
                "AF_merge failed with code %d" ;;
       decrypt_key_err split_key ret out_key
  else
  grub_dprintf "Candidate key recovered\n" [] ;;;
  decrypt_key_err split_key ret out_key
  end end end.

End CryptoDisk.

(** ** 4.F Unlock orchestrator *)

(** The automatic variables of [luks2_recover_key] that the trial loop
    assigns. *)
Record locals := mk_locals {
  l_keyslot : grub_luks2_keyslot_t;
  l_digest : grub_luks2_digest_t;
  l_segment : grub_luks2_segment_t;
  l_candidate_key : list byte;
  l_candidate_key_len : Z;
  l_ret : grub_err_t
}.

(** The two automatic buffers of [luks2_recover_key] that hold secrets, as
    they are when the function returns and its frame is released. *)
Record frame := mk_frame {
  interactive_passphrase : list byte;
  candidate_key : list byte
}.

(** [grub_strlen] of a byte buffer: the bytes before the first NUL. *)
Fixpoint strlen_bytes (buf : list byte) : Z :=
  match buf with
  | [] => 0
  | b :: rest => if b =? 0 then 0 else 1 + strlen_bytes rest
  end.

(** [grub_memchr (buf, 0, n) != NULL] *)
Definition has_nul (buf : list byte) (n : Z) : bool :=
  existsb (fun b => b =? 0) (firstn (Z.to_nat n) buf).

(** [__builtin_clz] on a 32-bit unsigned value.  The result for 0 is not
    defined by the compiler; 32 is what a count-leading-zeros instruction
    gives. *)
Definition builtin_clz (x : Z) : Z :=
  if x =? 0 then 32 else 31 - Z.log2 x.

(** [grub_divmod64 (n, d, NULL)]: the unsigned quotient. *)
Definition grub_divmod64 (n d : Z) : Z := n / d.

Section Orchestrator.

Variable P : providers.

(** One round of the loop [for (i = 0; i < size; i++)].  The boolean says
    whether the round ended in [break].  The quotient, [__builtin_clz]
    and the shifts have the values given here where C defines them; see
    [layout_defined]. *)
Definition trial_body (source : grub_disk) (hdr_file : option grub_file)
    (json : grub_json_t) (passphrase : list byte) (passphrase_len : Z)
    (i : Z) (l : locals) : M (bool * locals) :=
  '(ret, k, d, s) <-
     luks2_get_keyslot P (l_keyslot l) (l_digest l) (l_segment l) json i ;;
  let l := mk_locals k d s (l_candidate_key l) (l_candidate_key_len l) ret in
  if is_err ret
  then grub_dprintf "Failed to get keyslot %lu\n" [i] ;;; pure (false, l)
  else
  if priority k =? 0
  then grub_dprintf "Ignoring keyslot %lu due to priority\n" [i] ;;;
       pure (false, l)
  else
  grub_dprintf "Trying keyslot %lu\n" [i] ;;;
  (* Set up disk according to keyslot's segment. *)
  update_crypt (fun c =>
    set_cd_offset_sectors c
      (grub_divmod64 (seg_offset s) (u64 (seg_sector_size s)))) ;;;
  update_crypt (fun c =>
    set_cd_log_sector_size c (32 - builtin_clz (u32 (seg_sector_size s)) - 1)) ;;;
  (if negb (grub_strcmp (seg_size s) "dynamic")
   then
     (* Convert to cryptodisk sized sectors from source disk sized sectors
        before subtracting the offset, which is in cryptodisk sized
        sectors. *)
     update_crypt (fun c =>
       set_cd_total_sectors c
         (u64 (Z.shiftr (disk_size source)
                 (log_sector_size c - disk_log_sector_size source)
               - offset_sectors c)))
   else
     update_crypt (fun c =>
       set_cd_total_sectors c
         (Z.shiftr (grub_strtoull (seg_size s)) (log_sector_size c)))) ;;;
  '(ret, key) <-
     luks2_decrypt_key P (l_candidate_key l) source hdr_file k
       passphrase passphrase_len ;;
  let l := mk_locals k d s key (l_candidate_key_len l) ret in
  if is_err ret
  then grub_dprintf "Decryption with keyslot %lu failed\n" [i] ;;;
       pure (false, l)
  else
  ret <- luks2_verify_key P d key (u64 (key_size k)) ;;
  let l := mk_locals k d s key (l_candidate_key_len l) ret in
  if is_err ret
  then grub_dprintf "Could not open keyslot %lu\n" [i] ;;; pure (false, l)
  else
  grub_printf_ "Slot %lu opened\n" [i] ;;;
  pure (true, mk_locals k d s key (u64 (key_size k)) ret).

(** [for (i = 0; i < size; i++)] with [n] rounds left. *)
Fixpoint trial_loop (source : grub_disk) (hdr_file : option grub_file)
    (json : grub_json_t) (passphrase : list byte) (passphrase_len : Z)
    (n : nat) (i : Z) (l : locals) : M locals :=
  match n with
  | O => pure l
  | S n' =>
      '(stop, l) <- trial_body source hdr_file json passphrase passphrase_len i l ;;
      if stop then pure l
      else trial_loop source hdr_file json passphrase passphrase_len n' (i + 1) l
  end.

(** The label [err:] of [luks2_recover_key]. *)
Definition recover_key_err (json_header : list byte) (ret : grub_err_t)
    (fr : frame) : M (grub_err_t * frame) :=
  emit (EvFree json_header) ;;;
  emit EvJsonFree ;;;
  pure (ret, fr).

(** The end of [luks2_recover_key], from the test of [candidate_key_len]
    after the loop.  [buf] is the interactive passphrase buffer. *)
Definition recover_key_finish (json_header buf : list byte) (l : locals)
  : M (grub_err_t * frame) :=
  let fr := mk_frame buf (l_candidate_key l) in
  if l_candidate_key_len l =? 0
  then ret <- grub_error GRUB_ERR_ACCESS_DENIED "Invalid passphrase" ;;
       recover_key_err json_header ret fr
  else
  (* Set up disk cipher. *)
  match split_dash (string_firstn 32 (seg_encryption (l_segment l))) with
  | None =>
      ret <- grub_error GRUB_ERR_BAD_ARGUMENT "Invalid encryption" ;;
      pure (ret, fr)
  | Some (ciphername, mode) =>
  ret <- grub_cryptodisk_setcipher P ciphername mode ;;
  if is_err ret then recover_key_err json_header ret fr
  else
  (* Set the master key. *)
  gcry_ret <- grub_cryptodisk_setkey P (l_candidate_key l) (l_candidate_key_len l) ;;
  if negb (gcry_ret =? 0)
  then ret <- grub_error (grub_crypto_gcry_error P gcry_ret)
                "grub_cryptodisk_setkey failed with code %d" ;;
       recover_key_err json_header ret fr
  else recover_key_err json_header ret fr
  end.

(** The automatic variables as the loop finds them. *)
Definition initial_locals : locals :=
  mk_locals (uninit_keyslot P) (uninit_digest P) (uninit_segment P)
    (uninit_key P) 0 GRUB_ERR_NONE.

(** [luks2_recover_key] from the point where the passphrase is known:
    the size of the keyslot object, the trial loop and the end. *)
Definition recover_key_trials (source : grub_disk) (hdr_file : option grub_file)
    (json_header : list byte) (json : grub_json_t)
    (buf passphrase : list byte) (passphrase_len : Z)
  : M (grub_err_t * frame) :=
  match grub_json_getvalue json "keyslots" with
  | None =>
      ret <- grub_error GRUB_ERR_BAD_ARGUMENT "Could not get keyslots" ;;
      recover_key_err json_header ret (mk_frame buf (uninit_key P))
  | Some keyslots =>
  match grub_json_getsize keyslots with
  | None =>
      ret <- grub_error GRUB_ERR_BAD_ARGUMENT "Could not get keyslots" ;;
      recover_key_err json_header ret (mk_frame buf (uninit_key P))
  | Some size =>
  (* Try all keyslot *)
  l <- trial_loop source hdr_file json passphrase passphrase_len
         (Z.to_nat size) 0 initial_locals ;;
  recover_key_finish json_header buf l
  end end.

(** [luks2_recover_key] from the point where the JSON area has been
    parsed: passphrase, trial loop and installation of the master key.
    The name of the partition, which only goes into the prompt, is left
    out. *)
Definition recover_key_with_json (source : grub_disk)
    (hdr_file : option grub_file) (key : option (list byte)) (keyfile_size : Z)
    (json_header : list byte) (json : grub_json_t)
  : M (grub_err_t * frame) :=
  let zeroes := repeat 0 (Z.to_nat MAX_PASSPHRASE) in
  match key with
  | Some keybytes =>
      (* Use bytestring from key file as passphrase *)
      recover_key_trials source hdr_file json_header json
        zeroes keybytes keyfile_size
  | None =>
      (* Get the passphrase from the user.  *)
      grub_printf_ "Enter passphrase for %s%s%s (%s): " [] ;;;
      emit EvPasswordGet ;;;
      let '(supplied, typed) := grub_password_get P in
      let buf := overwrite zeroes (typed ++ [0]) in
      if negb supplied
      then ret <- grub_error GRUB_ERR_BAD_ARGUMENT "Passphrase not supplied" ;;
           recover_key_err json_header ret (mk_frame buf (uninit_key P))
      else recover_key_trials source hdr_file json_header json
             buf buf (strlen_bytes buf)
  end.

(** [luks2_recover_key], returning with its status the secret-holding
    automatic buffers as they are at the return. *)
Definition luks2_recover_key_frame (source : grub_disk)
    (hdr_file : option grub_file) (key : option (list byte)) (keyfile_size : Z)
  : M (grub_err_t * frame) :=
  let zeroes := repeat 0 (Z.to_nat MAX_PASSPHRASE) in
  let fr0 := mk_frame zeroes (uninit_key P) in
  '(ret, header) <- luks2_read_header P source hdr_file (uninit_header P) ;;
  if is_err ret then pure (ret, fr0)
  else
  let json_size := u64 (hdr_size header - sizeof_header) in
  emit (EvZalloc json_size) ;;;
  if negb (alloc_ok P json_size) then pure (GRUB_ERR_OUT_OF_MEMORY, fr0)
  else
  let json_header := repeat 0 (Z.to_nat json_size) in
  (* Read the JSON area. *)
  '(ret, json_header) <-
     luks2_read source hdr_file ret (u64 (hdr_offset header + sizeof_header))
       json_size json_header ;;
  if is_err ret then recover_key_err json_header ret fr0
  else
  if negb (has_nul json_header json_size)
  then recover_key_err json_header ret fr0
  else
  emit (EvJsonParse (Z.of_nat (List.length json_header)) (hdr_size header)) ;;;
  match grub_json_parse P json_header (hdr_size header) with
  | None =>
      ret <- grub_error GRUB_ERR_BAD_ARGUMENT "Invalid LUKS2 JSON header" ;;
      recover_key_err json_header ret fr0
  | Some json =>
      recover_key_with_json source hdr_file key keyfile_size json_header json
  end.

Definition luks2_recover_key (source : grub_disk) (hdr_file : option grub_file)
    (key : option (list byte)) (keyfile_size : Z) : M grub_err_t :=
  '(ret, _) <- luks2_recover_key_frame source hdr_file key keyfile_size ;;
  pure ret.

End Orchestrator.

(** ** 4.G Scan probe *)

(** The string held by a character array: the characters before the
    first NUL. *)
Fixpoint c_string (bs : list byte) : string :=
  match bs with
  | [] => EmptyString
  | b :: rest =>
      if b =? 0 then EmptyString
      else String (ascii_of_N (Z.to_N b)) (c_string rest)
  end.

(** The object [luks2_scan] hands back: the crypto disk with the name of
    the module that will unlock it. *)
Record scanned_cryptodisk := mk_scanned {
  sc_disk : grub_cryptodisk;
  sc_modname : string
}.

Section Scan.

Variable P : providers.

(** [grub_uuidcasecmp (a, b, n)] of grub/misc.h and the size of
    [struct grub_cryptodisk] of grub/cryptodisk.h are not part of the
    sources at hand; the probe is defined for any comparison and any
    size. *)
Variable grub_uuidcasecmp : string -> list byte -> Z -> Z.
Variable sizeof_cryptodisk : Z.

Definition luks2_scan (disk : grub_disk) (check_uuid : option string)
    (check_boot : Z) (hdr_file : option grub_file)
  : M (option scanned_cryptodisk) :=
  if negb (check_boot =? 0) then pure None
  else
  '(ret, header) <- luks2_read_header P disk hdr_file (uninit_header P) ;;
  if is_err ret
  then w <- get_world ;;
       put_world (set_errno w GRUB_ERR_NONE) ;;;
       pure None
  else
  if match check_uuid with
     | Some u => negb (grub_uuidcasecmp u (hdr_uuid header) 40 =? 0)
     | None => false
     end
  then pure None
  else
  emit (EvZalloc sizeof_cryptodisk) ;;;
  if negb (alloc_ok P sizeof_cryptodisk)
  then grub_error GRUB_ERR_OUT_OF_MEMORY "out of memory" ;;; pure None
  else
  pure (Some (mk_scanned
                (mk_cryptodisk 0 0 0 None None (c_string (hdr_uuid header)))
                "luks2")).

End Scan.

(** ** Auxiliary notions used in the statements *)

Section Rounds.

Variable P : providers.

(** The state reached when each of [n] rounds from index [i] ends in
    [continue]; [None] when one of them ends in [break]. *)
Fixpoint failed_rounds (source : grub_disk) (hdr_file : option grub_file)
    (json : grub_json_t) (passphrase : list byte) (passphrase_len : Z)
    (n : nat) (i : Z) (l : locals) (w : world)
  : option (locals * world * list event) :=
  match n with
  | O => Some (l, w, [])
  | S n' =>
      let '(stop, l1, w1, t1) :=
        trial_body P source hdr_file json passphrase passphrase_len i l w in
      if (stop : bool) then None
      else match failed_rounds source hdr_file json passphrase passphrase_len
                   n' (i + 1) l1 w1 with
           | Some (l2, w2, t2) => Some (l2, w2, t1 ++ t2)
           | None => None
           end
  end.

(** The trial loop run over an explicit list of indices. *)
Fixpoint run_rounds (source : grub_disk) (hdr_file : option grub_file)
    (json : grub_json_t) (passphrase : list byte) (passphrase_len : Z)
    (idxs : list Z) (l : locals) : M locals :=
  match idxs with
  | [] => pure l
  | i :: rest =>
      '(stop, l) <- trial_body P source hdr_file json passphrase passphrase_len i l ;;
      if stop then pure l
      else run_rounds source hdr_file json passphrase passphrase_len rest l
  end.

End Rounds.

(** The indices [i], [i+1], ... of [n] rounds. *)
Fixpoint indices (n : nat) (i : Z) : list Z :=
  match n with
  | O => []
  | S n' => i :: indices n' (i + 1)
  end.

(** Metadata with the keyslot entry at position [p] taken out. *)
Fixpoint remove_nth {A : Type} (p : nat) (xs : list A) : list A :=
  match p, xs with
  | _, [] => []
  | O, _ :: rest => rest
  | S p', x :: rest => x :: remove_nth p' rest
  end.

Fixpoint members_remove_keyslot (ms : list (string * grub_json_t)) (p : nat)
  : list (string * grub_json_t) :=
  match ms with
  | [] => []
  | (k, v) :: rest =>
      if String.eqb k "keyslots"
      then (k, match v with
               | JObject ks => JObject (remove_nth p ks)
               | _ => v
               end) :: rest
      else (k, v) :: members_remove_keyslot rest p
  end.

Definition remove_keyslot (root : grub_json_t) (p : nat) : grub_json_t :=
  match root with
  | JObject ms => JObject (members_remove_keyslot ms p)
  | _ => root
  end.

(** Two keyslot records with the same content in every field that a
    decoded keyslot defines: all of them for Argon2, all but the third
    cell of the union for PBKDF2, which has no member there. *)
Definition keyslot_same (a b : grub_luks2_keyslot_t) : Prop :=
  set_kdf_u2 a (CInt 0) = set_kdf_u2 b (CInt 0)
  /\ (kdf_type a = LUKS2_KDF_TYPE_ARGON2I -> kdf_u2 a = kdf_u2 b).

(** What the end of [luks2_recover_key] reads of the loop's variables. *)
Definition locals_equiv (a b : locals) : Prop :=
  l_candidate_key_len a = l_candidate_key_len b
  /\ (l_candidate_key_len a <> 0 ->
      l_candidate_key a = l_candidate_key b /\ l_segment a = l_segment b).

(** Header validity as the format defines it. *)
Definition valid_header (magic : list byte) (h : list byte) : Prop :=
  hdr_magic h = magic /\ hdr_version h = 2.

Definition decrypt_event_ok (area_len : Z) (e : event) : Prop :=
  match e with
  | EvDecrypt len sector log_sector =>
      len = area_len /\ sector = 0 /\ log_sector = 9
  | _ => True
  end.

(** Events in which a cipher or key is handed to another module, or a
    buffer is read or decrypted: the work of trying a keyslot. *)
Definition is_attempt_event (e : event) : bool :=
  match e with
  | EvBase64 _ | EvPbkdf2 _ _ _ _ _ _ | EvSetCipher _ _ | EvSetKey _ _
  | EvDecrypt _ _ _ | EvAFMerge _ _ _ | EvMalloc _ | EvFree _
  | EvDiskRead _ _ | EvFileSeek _ | EvFileRead _ => true
  | _ => false
  end.

Section Prelude.

Variable P : providers.

(** The passphrase buffer, the passphrase and its length as
    [luks2_recover_key] determines them from the key file or the prompt,
    and what the prompt adds to the trace. *)
Definition passphrase_buffer (key : option (list byte)) : list byte :=
  match key with
  | Some _ => repeat 0 (Z.to_nat MAX_PASSPHRASE)
  | None =>
      overwrite (repeat 0 (Z.to_nat MAX_PASSPHRASE))
        (snd (grub_password_get P) ++ [0])
  end.

Definition passphrase_bytes (key : option (list byte)) : list byte :=
  match key with
  | Some keybytes => keybytes
  | None => passphrase_buffer key
  end.

Definition passphrase_length (key : option (list byte)) (keyfile_size : Z) : Z :=
  match key with
  | Some _ => keyfile_size
  | None => strlen_bytes (passphrase_buffer key)
  end.

Definition passphrase_supplied (key : option (list byte)) : bool :=
  match key with
  | Some _ => true
  | None => fst (grub_password_get P)
  end.

Definition passphrase_trace (key : option (list byte)) : list event :=
  match key with
  | Some _ => []
  | None => [EvPrintf "Enter passphrase for %s%s%s (%s): " []; EvPasswordGet]
  end.

(** The first part of [luks2_recover_key] went through: [header] was
    selected, the JSON area was read into [buf] without error, it holds a
    NUL and parses to [json]; [w2] is the state and [t] the trace at that
    point. *)
Definition json_area_parsed (source : grub_disk) (hdr_file : option grub_file)
    (w : world) (header buf : list byte) (json : grub_json_t)
    (w2 : world) (t : list event) : Prop :=
  exists (w1 : world) (t1 t2 : list event),
    luks2_read_header P source hdr_file (uninit_header P) w
      = (GRUB_ERR_NONE, header, w1, t1)
    /\ alloc_ok P (u64 (hdr_size header - sizeof_header)) = true
    /\ luks2_read source hdr_file GRUB_ERR_NONE
         (u64 (hdr_offset header + sizeof_header))
         (u64 (hdr_size header - sizeof_header))
         (repeat 0 (Z.to_nat (u64 (hdr_size header - sizeof_header)))) w1
       = (GRUB_ERR_NONE, buf, w2, t2)
    /\ has_nul buf (u64 (hdr_size header - sizeof_header)) = true
    /\ grub_json_parse P buf (hdr_size header) = Some json
    /\ t = t1 ++ EvZalloc (u64 (hdr_size header - sizeof_header))
              :: t2 ++ [EvJsonParse (Z.of_nat (List.length buf)) (hdr_size header)].

End Prelude.

(** The contents of the buffers handed to [grub_free], in order. *)
Fixpoint freed_buffers (t : list event) : list (list byte) :=
  match t with
  | [] => []
  | EvFree c :: rest => c :: freed_buffers rest
  | _ :: rest => freed_buffers rest
  end.

Definition all_zero (buf : list byte) : bool := forallb (fun b => b =? 0) buf.

(** The result of a decoder does not depend on what the out record held,
    except for the record a rejection hands back. *)
Definition decoder_agrees {O : Type} (same : O -> O -> Prop) (w : world)
    (r1 r2 : grub_err_t * O * world * list event) : Prop :=
  world_of r1 = world_of r2
  /\ trace_of r1 = trace_of r2
  /\ fst (value_of r1) = fst (value_of r2)
  /\ (fst (value_of r1) = GRUB_ERR_NONE ->
      same (snd (value_of r1)) (snd (value_of r2))
      /\ world_of r1 = w /\ trace_of r1 = [])
  /\ (fst (value_of r1) <> GRUB_ERR_NONE ->
      fst (value_of r1) = GRUB_ERR_BAD_ARGUMENT
      /\ grub_errno (world_of r1) = GRUB_ERR_BAD_ARGUMENT).

(** What a field of the out record holds when a decoder returns: the
    value of its JSON member when the decoder came as far as the
    assignment ([reached]) and the getter delivered, and what it held
    before otherwise. *)
Definition field_after {A : Type} (reached : bool) (member : option A) (old : A)
  : A :=
  if reached then match member with Some v => v | None => old end else old.

Definition delivered {A : Type} (member : option A) : bool :=
  match member with Some _ => true | None => false end.

(** The member [key] of [parent] when it is there and its "type" is
    [type]. *)
Definition typed_member (parent : grub_json_t) (key type : string)
  : option grub_json_t :=
  match grub_json_getvalue parent key with
  | Some child =>
      match grub_json_getstring child (Some "type") with
      | Some t => if grub_strcmp t type then None else Some child
      | None => None
      end
  | None => None
  end.

Definition has_type (j : grub_json_t) (type : string) : bool :=
  match grub_json_getstring j (Some "type") with
  | Some t => negb (grub_strcmp t type)
  | None => false
  end.

(** A getter applied to a member that may be missing. *)
Definition of_member {A : Type} (parent : option grub_json_t)
    (get : grub_json_t -> option A) : option A :=
  match parent with Some j => get j | None => None end.

(** [s'] is [s0] after [luks2_parse_segment] has gone through [j]: the
    checks and assignments are taken in the order of the source, and an
    assignment is reached when every check and getter before it passed.
    The last component says when all of them pass. *)
Definition segment_assigned (s0 : grub_luks2_segment_t) (j : grub_json_t)
    (s' : grub_luks2_segment_t) (accepted : bool) : Prop :=
  let offset := grub_json_getuint64 j (Some "offset") in
  let size := grub_json_getstring j (Some "size") in
  let encryption := grub_json_getstring j (Some "encryption") in
  let sector_size := grub_json_getint64 j (Some "sector_size") in
  let at_offset := has_type j "crypt" in
  let at_size := at_offset && delivered offset in
  let at_encryption := at_size && delivered size in
  let at_sector_size := at_encryption && delivered encryption in
  seg_offset s' = field_after at_offset offset (seg_offset s0)
  /\ seg_size s' = field_after at_size size (seg_size s0)
  /\ seg_encryption s' = field_after at_encryption encryption (seg_encryption s0)
  /\ seg_sector_size s'
     = field_after at_sector_size sector_size (seg_sector_size s0)
  /\ accepted = at_sector_size && delivered sector_size.

(** The kdf type that [luks2_parse_keyslot] assigns for the type string
    of the kdf object. *)
Definition kdf_type_of (type : option string) : option grub_luks2_kdf_type_t :=
  match type with
  | Some t =>
      if negb (grub_strcmp t "argon2i") || negb (grub_strcmp t "argon2id")
      then Some LUKS2_KDF_TYPE_ARGON2I
      else if negb (grub_strcmp t "pbkdf2") then Some LUKS2_KDF_TYPE_PBKDF2
      else None
  | None => None
  end.

(** The same for [luks2_parse_keyslot].  The three cells of the union
    [kdf.u] are assigned by the branch of the kdf type. *)
Definition keyslot_assigned (k0 : grub_luks2_keyslot_t) (j : grub_json_t)
    (k' : grub_luks2_keyslot_t) (accepted : bool) : Prop :=
  let size := grub_json_getint64 j (Some "key_size") in
  let area := typed_member j "area" "raw" in
  let offset := of_member area (fun a => grub_json_getuint64 a (Some "offset")) in
  let asize := of_member area (fun a => grub_json_getuint64 a (Some "size")) in
  let encryption :=
    of_member area (fun a => grub_json_getstring a (Some "encryption")) in
  let akey := of_member area (fun a => grub_json_getint64 a (Some "key_size")) in
  let kdf := grub_json_getvalue j "kdf" in
  let ktype := of_member kdf (fun o => grub_json_getstring o (Some "type")) in
  let salt := of_member kdf (fun o => grub_json_getstring o (Some "salt")) in
  let time := of_member kdf (fun o => grub_json_getint64 o (Some "time")) in
  let memory := of_member kdf (fun o => grub_json_getint64 o (Some "memory")) in
  let cpus := of_member kdf (fun o => grub_json_getint64 o (Some "cpus")) in
  let hash := of_member kdf (fun o => grub_json_getstring o (Some "hash")) in
  let iterations :=
    of_member kdf (fun o => grub_json_getint64 o (Some "iterations")) in
  let af := typed_member j "af" "luks1" in
  let stripes := of_member af (fun o => grub_json_getint64 o (Some "stripes")) in
  let afhash := of_member af (fun o => grub_json_getstring o (Some "hash")) in
  let at_key_size := has_type j "luks2" in
  let at_priority := at_key_size && delivered size in
  let at_area_size := at_priority && delivered offset in
  let at_area_encryption := at_area_size && delivered asize in
  let at_area_key_size := at_area_encryption && delivered encryption in
  let at_salt := at_area_key_size && delivered akey && delivered ktype in
  let at_kdf_type := at_salt && delivered salt in
  let argon2 :=
    match kdf_type_of ktype with Some LUKS2_KDF_TYPE_ARGON2I => true | _ => false end in
  let pbkdf2 :=
    match kdf_type_of ktype with Some LUKS2_KDF_TYPE_PBKDF2 => true | _ => false end in
  let at_stripes :=
    at_kdf_type
    && ((argon2 && delivered time && delivered memory && delivered cpus)
        || (pbkdf2 && delivered hash && delivered iterations)) in
  key_size k' = field_after at_key_size size (key_size k0)
  /\ priority k'
     = field_after at_priority
         (Some (match grub_json_getint64 j (Some "priority") with
                | Some v => v
                | None => 1
                end))
         (priority k0)
  /\ area_offset k' = field_after at_priority offset (area_offset k0)
  /\ area_size k' = field_after at_area_size asize (area_size k0)
  /\ area_encryption k'
     = field_after at_area_encryption encryption (area_encryption k0)
  /\ area_key_size k' = field_after at_area_key_size akey (area_key_size k0)
  /\ kdf_salt k' = field_after at_salt salt (kdf_salt k0)
  /\ kdf_type k' = field_after at_kdf_type (kdf_type_of ktype) (kdf_type k0)
  /\ kdf_u0 k'
     = (if argon2 then field_after at_kdf_type (option_map CInt time) (kdf_u0 k0)
        else field_after (at_kdf_type && pbkdf2) (option_map CPtr hash) (kdf_u0 k0))
  /\ kdf_u1 k'
     = (if argon2
        then field_after (at_kdf_type && delivered time) (option_map CInt memory)
               (kdf_u1 k0)
        else field_after (at_kdf_type && pbkdf2 && delivered hash)
               (option_map CInt iterations) (kdf_u1 k0))
  /\ kdf_u2 k'
     = field_after (at_kdf_type && argon2 && delivered time && delivered memory)
         (option_map CInt cpus) (kdf_u2 k0)
  /\ af_stripes k' = field_after at_stripes stripes (af_stripes k0)
  /\ af_hash k' = field_after (at_stripes && delivered stripes) afhash (af_hash k0)
  /\ accepted = at_stripes && delivered stripes && delivered afhash.

(** The same for [luks2_parse_digest].  A mask is assigned when its loop
    is reached, and holds what the loop has collected when it stops. *)
Definition digest_assigned (P : providers) (d0 : grub_luks2_digest_t)
    (j : grub_json_t) (d' : grub_luks2_digest_t) (accepted : bool) : Prop :=
  let segments := grub_json_getvalue j "segments" in
  let keyslots := grub_json_getvalue j "keyslots" in
  let salt := grub_json_getstring j (Some "salt") in
  let digest := grub_json_getstring j (Some "digest") in
  let hash := grub_json_getstring j (Some "hash") in
  let iterations := grub_json_getint64 j (Some "iterations") in
  let segment_bits :=
    of_member segments
      (fun a => option_map (fun n => collect_bits P a (Z.to_nat n) 0 0)
                  (grub_json_getsize a)) in
  let keyslot_bits :=
    of_member keyslots
      (fun a => option_map (fun n => collect_bits P a (Z.to_nat n) 0 0)
                  (grub_json_getsize a)) in
  let at_salt := has_type j "pbkdf2" && delivered segments && delivered keyslots in
  let at_digest := at_salt && delivered salt in
  let at_hash := at_digest && delivered digest in
  let at_iterations := at_hash && delivered hash in
  let at_segments := at_iterations && delivered iterations in
  let at_keyslots :=
    at_segments
    && match segment_bits with Some (failed, _) => negb failed | None => false end in
  dg_salt d' = field_after at_salt salt (dg_salt d0)
  /\ dg_digest d' = field_after at_digest digest (dg_digest d0)
  /\ dg_hash d' = field_after at_hash hash (dg_hash d0)
  /\ dg_iterations d' = field_after at_iterations iterations (dg_iterations d0)
  /\ dg_segments d'
     = field_after at_segments (option_map snd segment_bits) (dg_segments d0)
  /\ dg_keyslots d'
     = field_after at_keyslots (option_map snd keyslot_bits) (dg_keyslots d0)
  /\ accepted
     = at_keyslots
       && match keyslot_bits with Some (failed, _) => negb failed | None => false end.

(** [wp m w Q]: the run of [m] from [w] ends in a value, a state and a
    trace that satisfy [Q]. *)
Definition wp {A : Type} (m : M A) (w : world)
    (Q : A -> world -> list event -> Prop) : Prop :=
  Q (value_of (m w)) (world_of (m w)) (trace_of (m w)).

(** The index in the full metadata of the entry at index [i] once the
    entry at [p] is taken out. *)
Definition shift_index (p : nat) (i : Z) : Z :=
  if i <? Z.of_nat p then i else i + 1.

(** Two scans that start from different out records agree: they end the
    same way, with the same state and trace, and a scan that finds its
    entry leaves the same record and records no error. *)
Definition scan_agrees {O : Type} (w : world)
    (r1 r2 : scan_result O * world * list event) : Prop :=
  world_of r1 = world_of r2
  /\ trace_of r1 = trace_of r2
  /\ match value_of r1, value_of r2 with
     | ScanFound o1 k1, ScanFound o2 k2 =>
         o1 = o2 /\ k1 = k2 /\ world_of r1 = w /\ trace_of r1 = []
     | ScanExhausted _ _, ScanExhausted _ _ =>
         world_of r1 = w /\ trace_of r1 = []
     | ScanError _, ScanError _ => True
     | _, _ => False
     end.

(** Two resolutions of the same keyslot index that start from different
    out records agree, and a resolution that succeeds records nothing. *)
Definition resolve_agrees (w : world)
    (r1 r2 : get_keyslot_result * world * list event) : Prop :=
  world_of r1 = world_of r2
  /\ trace_of r1 = trace_of r2
  /\ fst (fst (fst (value_of r1))) = fst (fst (fst (value_of r2)))
  /\ (fst (fst (fst (value_of r1))) = GRUB_ERR_NONE ->
      keyslot_same (snd (fst (fst (value_of r1)))) (snd (fst (fst (value_of r2))))
      /\ snd (fst (value_of r1)) = snd (fst (value_of r2))
      /\ snd (value_of r1) = snd (value_of r2)
      /\ world_of r1 = w /\ trace_of r1 = []).

(** What two rounds on the same state leave behind is related when they
    resolve their keyslots alike: the same decision between [break] and
    [continue], the same state, and after a [break] the same key, key
    length and segment. *)
Definition round_agrees (l1 l2 : locals)
    (r1 r2 : bool * locals * world * list event) : Prop :=
  fst (value_of r1) = fst (value_of r2)
  /\ world_of r1 = world_of r2
  /\ (fst (value_of r1) = true ->
      l_candidate_key_len (snd (value_of r1)) = l_candidate_key_len (snd (value_of r2))
      /\ l_candidate_key (snd (value_of r1)) = l_candidate_key (snd (value_of r2))
      /\ l_segment (snd (value_of r1)) = l_segment (snd (value_of r2)))
  /\ (fst (value_of r1) = false ->
      l_candidate_key_len (snd (value_of r1)) = l_candidate_key_len l1
      /\ l_candidate_key_len (snd (value_of r2)) = l_candidate_key_len l2).

(** What two runs of the loop leave behind for the end of
    [luks2_recover_key]. *)
Definition loop_agrees (r1 r2 : locals * world * list event) : Prop :=
  world_of r1 = world_of r2 /\ locals_equiv (value_of r1) (value_of r2).




(** ** Notions used in the further properties *)

Definition is_error_event (e : event) : bool :=
  match e with EvError _ _ => true | _ => false end.

(** The member at position [i] of the [keyslots] object has the key
    [key], and its value decodes into the record [k] to give [x]. *)
Definition keyslot_entry (keyslots : grub_json_t) (i key : Z)
    (k x : grub_luks2_keyslot_t) : Prop :=
  exists member obj w0,
    grub_json_getchild keyslots i = Some member
    /\ grub_json_getuint64 member None = Some key
    /\ grub_json_getchild member 0 = Some obj
    /\ value_of (luks2_parse_keyslot k obj w0) = (GRUB_ERR_NONE, x).

(** The member at position [i] of the [digests] object has the key [key]
    and its value decodes to [x], whatever the out record held. *)
Definition digest_entry (P : providers) (digests : grub_json_t) (i key : Z)
    (x : grub_luks2_digest_t) : Prop :=
  exists member obj,
    grub_json_getchild digests i = Some member
    /\ grub_json_getuint64 member None = Some key
    /\ grub_json_getchild member 0 = Some obj
    /\ forall d0 w0,
         value_of (luks2_parse_digest P d0 obj w0) = (GRUB_ERR_NONE, x).

Definition segment_entry (segments : grub_json_t) (i key : Z)
    (x : grub_luks2_segment_t) : Prop :=
  exists member obj,
    grub_json_getchild segments i = Some member
    /\ grub_json_getuint64 member None = Some key
    /\ grub_json_getchild member 0 = Some obj
    /\ forall s0 w0,
         value_of (luks2_parse_segment s0 obj w0) = (GRUB_ERR_NONE, x).

(** What a decoder does besides filling its record: nothing on success,
    and on rejection it records BadArgument. *)
Definition decoder_effect {O : Type} (w : world)
    (r : grub_err_t * O * world * list event) : Prop :=
  (fst (value_of r) = GRUB_ERR_NONE /\ world_of r = w /\ trace_of r = [])
  \/ (exists msg, fst (value_of r) = GRUB_ERR_BAD_ARGUMENT
        /\ world_of r = set_error w GRUB_ERR_BAD_ARGUMENT msg
        /\ trace_of r = [EvError GRUB_ERR_BAD_ARGUMENT msg]).

(** What a scan of [luks2_get_keyslot] does besides filling its record:
    nothing unless it ends at an entry that cannot be parsed, where the
    decoder may have recorded BadArgument. *)
Definition scan_effect {O : Type} (w : world)
    (r : scan_result O * world * list event) : Prop :=
  match value_of r with
  | ScanError _ =>
      (world_of r = w /\ trace_of r = [])
      \/ (exists msg, world_of r = set_error w GRUB_ERR_BAD_ARGUMENT msg
            /\ trace_of r = [EvError GRUB_ERR_BAD_ARGUMENT msg])
  | _ => world_of r = w /\ trace_of r = []
  end.

Definition is_free_event (e : event) : bool :=
  match e with EvFree _ => true | _ => false end.

Definition is_malloc_event (e : event) : bool :=
  match e with EvMalloc _ => true | _ => false end.

Definition is_read_event (e : event) : bool :=
  match e with EvDiskRead _ _ | EvFileRead _ => true | _ => false end.

Definition count_events (p : event -> bool) (t : list event) : nat :=
  List.length (filter p t).

(** An access to the device or to the header file is the read of [size]
    bytes at [off], from the file when there is one. *)
Definition area_access_ok (hdr_file : option grub_file) (off size : Z)
    (e : event) : Prop :=
  match e with
  | EvDiskRead o s => hdr_file = None /\ o = off /\ s = size
  | EvFileSeek o => hdr_file <> None /\ o = off
  | EvFileRead n => hdr_file <> None /\ n = size
  | _ => True
  end.

(** A call of [setcipher] gets the text of [enc] before its first dash as
    the cipher and the text after that dash as the mode. *)
Definition setcipher_splits (enc : string) (e : event) : Prop :=
  match e with
  | EvSetCipher c m => enc = (c ++ String "-" m)%string /\ split_dash c = None
  | _ => True
  end.

(** Every event of every run of [m] satisfies [q]. *)
Definition trace_all {A : Type} (q : event -> bool) (m : M A) : Prop :=
  forall w, forallb q (trace_of (m w)) = true.

(** The events a round of the trial loop can produce: errors, messages
    and the work of trying a keyslot, the key area being read from the
    header file exactly when there is one.  The JSON buffer and the prompt
    belong to the code around the loop. *)
Definition trial_event (hdr_file : option grub_file) (e : event) : bool :=
  match e with
  | EvZalloc _ | EvJsonParse _ _ | EvJsonFree | EvPasswordGet => false
  | EvDiskRead _ _ => match hdr_file with None => true | Some _ => false end
  | EvFileSeek _ | EvFileRead _ =>
      match hdr_file with None => false | Some _ => true end
  | EvPrintf fmt _ => String.eqb fmt "Slot %lu opened\n"
  | _ => true
  end.

(** An access goes to the header file when there is one and to the disk
    otherwise. *)
Definition device_matches (hdr_file : option grub_file) (e : event) : bool :=
  match e with
  | EvDiskRead _ _ => match hdr_file with None => true | Some _ => false end
  | EvFileSeek _ | EvFileRead _ =>
      match hdr_file with None => false | Some _ => true end
  | _ => true
  end.

Definition is_prompt_event (e : event) : bool :=
  match e with
  | EvPasswordGet => true
  | EvPrintf fmt _ => String.eqb fmt "Enter passphrase for %s%s%s (%s): "
  | _ => false
  end.

(** Work on a keyslot: a salt decoded, a key derived, set or merged, an
    area allocated or decrypted. *)
Definition is_key_event (e : event) : bool :=
  match e with
  | EvBase64 _ | EvPbkdf2 _ _ _ _ _ _ | EvSetCipher _ _ | EvSetKey _ _
  | EvDecrypt _ _ _ | EvAFMerge _ _ _ | EvMalloc _ => true
  | _ => false
  end.

Definition quiet_event (e : event) : bool := negb (is_prompt_event e).

Definition preparing_event (e : event) : bool :=
  negb (is_prompt_event e) && negb (is_key_event e).

(** A trace without a prompt, or with exactly one: the message, then the
    reading of the passphrase, no work on a keyslot before them. *)
Definition prompts_once (t : list event) : Prop :=
  forallb quiet_event t = true
  \/ exists pre post,
       t = pre ++ EvPrintf "Enter passphrase for %s%s%s (%s): " []
                   :: EvPasswordGet :: post
       /\ forallb preparing_event pre = true
       /\ forallb quiet_event post = true.

Definition keeps_json (e : event) : bool :=
  match e with EvJsonFree => false | _ => true end.

Definition is_zalloc_event (e : event) : bool :=
  match e with EvZalloc _ => true | _ => false end.

(** The run ends by handing the JSON buffer to [grub_free] and the parsed
    document to [grub_json_free], and frees the document nowhere else. *)
Definition released_at_end (t : list event) : Prop :=
  exists pre buf,
    t = pre ++ [EvFree buf; EvJsonFree] /\ forallb keeps_json pre = true.

(** The run returns through the one [return] of [luks2_recover_key] that
    comes after the allocation and does not pass the label [err]. *)
Definition returns_invalid_encryption (e : grub_err_t) (w : world) : Prop :=
  e = GRUB_ERR_BAD_ARGUMENT /\ grub_errmsg w = "Invalid encryption".

Definition released_or_returned (e : grub_err_t) (w : world) (t : list event)
  : Prop :=
  released_at_end t
  \/ (forallb keeps_json t = true /\ returns_invalid_encryption e w).

(** Two states of the crypto disk with the same sector layout. *)
Definition same_layout (a b : grub_cryptodisk) : Prop :=
  offset_sectors a = offset_sectors b
  /\ log_sector_size a = log_sector_size b
  /\ total_sectors a = total_sectors b.

Definition not_json_parse (e : event) : bool :=
  match e with EvJsonParse _ _ => false | _ => true end.

(** The indices of the keyslots a run has tried, in the order of the
    messages "Trying keyslot". *)
Fixpoint tried_indices (t : list event) : list Z :=
  match t with
  | [] => []
  | EvDprintf fmt [i] :: rest =>
      if String.eqb fmt "Trying keyslot %lu\n" then i :: tried_indices rest
      else tried_indices rest
  | _ :: rest => tried_indices rest
  end.

Definition not_trying (e : event) : bool :=
  match e with
  | EvDprintf fmt _ => negb (String.eqb fmt "Trying keyslot %lu\n")
  | _ => true
  end.

Fixpoint ascending (xs : list Z) : bool :=
  match xs with
  | a :: rest =>
      match rest with
      | b :: _ => (a <? b) && ascending rest
      | [] => true
      end
  | [] => true
  end.

(** ** Sample metadata and a small environment to run the model on *)

Definition bytes_of_string (s : string) : list byte :=
  map (fun c => Z.of_N (N_of_ascii c)) (list_ascii_of_string s).

Fixpoint be_bytes (n : nat) (z : Z) : list byte :=
  match n with
  | O => []
  | S n' => (z / 256 ^ Z.of_nat n') mod 256 :: be_bytes n' z
  end.

(** A 4096-byte binary header with the given magic, version 2, size,
    sequence id and offset; every other field is zero. *)
Definition sample_header (magic : list byte) (size seqid offset : Z) : list byte :=
  magic ++ [0; 2] ++ be_bytes 8 size ++ be_bytes 8 seqid
  ++ repeat 0 232 ++ be_bytes 8 offset ++ repeat 0 3832.

(** A disk with a primary header at 0, a secondary one at the primary's
    [hdr_size], and the byte [fill] everywhere else. *)
Definition sample_disk (primary secondary : list byte) (fill : byte) : grub_disk :=
  mk_disk
    (fun off size =>
       if off =? 0 then (GRUB_ERR_NONE, primary)
       else if off =? hdr_size primary then (GRUB_ERR_NONE, secondary)
       else (GRUB_ERR_NONE, repeat fill (Z.to_nat size)))
    32768 9.

Definition sample_kdf_pbkdf2 : grub_json_t :=
  JObject [("type", JString "pbkdf2"); ("salt", JString "c2FsdA==");
           ("hash", JString "sha256"); ("iterations", JPrimitive "1000")].

Definition sample_kdf_argon2 : grub_json_t :=
  JObject [("type", JString "argon2id"); ("salt", JString "c2FsdA==");
           ("time", JPrimitive "4"); ("memory", JPrimitive "1048576");
           ("cpus", JPrimitive "4")].

Definition sample_keyslot (prio : list (string * grub_json_t)) (kdf : grub_json_t)
  : grub_json_t :=
  JObject ([("type", JString "luks2"); ("key_size", JPrimitive "4")] ++ prio
           ++ [("area", JObject [("type", JString "raw");
                                 ("offset", JString "32768");
                                 ("size", JString "16");
                                 ("encryption", JString "aes-xts-plain64");
                                 ("key_size", JPrimitive "4")]);
               ("kdf", kdf);
               ("af", JObject [("type", JString "luks1");
                               ("stripes", JPrimitive "4");
                               ("hash", JString "sha256")])]).

(** A digest object referring to keyslots and segments by number. *)
Definition sample_digest (keyslots segments : list Z) (digest : string)
  : grub_json_t :=
  JObject [("type", JString "pbkdf2");
           ("keyslots", JArray (map (fun a => JString (decimal a)) keyslots));
           ("segments", JArray (map (fun a => JString (decimal a)) segments));
           ("salt", JString "c2FsdA==");
           ("digest", JString digest);
           ("hash", JString "sha256");
           ("iterations", JPrimitive "1000")].

Definition sample_segment : grub_json_t :=
  JObject [("type", JString "crypt"); ("offset", JString "16777216");
           ("size", JString "dynamic");
           ("encryption", JString "aes-xts-plain64");
           ("sector_size", JPrimitive "4096")].

Definition sample_root (keyslots : list (string * grub_json_t)) (digest : string)
  : grub_json_t :=
  JObject [("keyslots", JObject keyslots);
           ("segments", JObject [("0", sample_segment)]);
           ("digests", JObject [("0", sample_digest [0; 1] [0] digest)])].

(** Two PBKDF2 keyslots; both open with the same passphrase. *)
Definition two_slots : grub_json_t :=
  sample_root [("0", sample_keyslot [] sample_kdf_pbkdf2);
               ("1", sample_keyslot [] sample_kdf_pbkdf2)] "pppp".

(** Keyslot 0 has priority 0, keyslot 1 the default priority. *)
Definition priority_zero_first : grub_json_t :=
  sample_root [("0", sample_keyslot [("priority", JPrimitive "0")] sample_kdf_pbkdf2);
               ("1", sample_keyslot [] sample_kdf_pbkdf2)] "pppp".

(** A keyslot object that stops after [key_size]: no area. *)
Definition keyslot_without_area : grub_json_t :=
  JObject [("type", JString "luks2"); ("key_size", JPrimitive "32")].

Definition blank_keyslot : grub_luks2_keyslot_t :=
  mk_keyslot 0 0 "" 0 0 0 "" 0 LUKS2_KDF_TYPE_ARGON2I "" (CInt 0) (CInt 0) (CInt 0).
Definition blank_digest : grub_luks2_digest_t := mk_digest 0 0 "" "" "" 0.
Definition blank_segment : grub_luks2_segment_t := mk_segment 0 "" "" 0.
Definition blank_cryptodisk : grub_cryptodisk :=
  mk_cryptodisk 0 0 0 None None "".
Definition blank_world : world := mk_world GRUB_ERR_NONE "" blank_cryptodisk.

(** A stand-in environment: a target that shifts modulo 32, text taken as
    its own bytes for base64, a key derivation that copies its secret, a
    cipher that XORs with the first key byte and a merge that keeps the
    first stripe.  The JSON parser returns [root] and the user types
    [typed]. *)
Definition sample_providers (root : grub_json_t) (typed : list byte) : providers :=
  mk_providers
    (fun n => 2 ^ (n mod 32))
    (fun s _ => Some (bytes_of_string s))
    (fun name => String.eqb name "sha256")
    (fun _ secret len _ _ outlen =>
       (0, firstn (Z.to_nat outlen)
             (firstn (Z.to_nat len) secret ++ repeat 0 (Z.to_nat outlen))))
    (fun _ src blocksize _ => (0, firstn (Z.to_nat blocksize) src))
    (fun _ => GRUB_ERR_ACCESS_DENIED)
    (fun c _ => if String.eqb c "aes" then GRUB_ERR_NONE else GRUB_ERR_FILE_NOT_FOUND)
    (fun _ _ _ => 0)
    (fun cd buf _ _ _ =>
       (0, map (Z.lxor (hd 0 (match key cd with Some k => k | None => [] end))) buf))
    (fun _ _ => Some root)
    (true, typed)
    (fun _ => true)
    (fun n => repeat 170 (Z.to_nat n))
    (repeat 85 4096)
    blank_keyslot blank_digest blank_segment
    (repeat 85 128).

Definition sample_primary : list byte := sample_header LUKS_MAGIC_1ST 16384 1 0.
Definition sample_secondary : list byte := sample_header LUKS_MAGIC_2ND 16384 1 16384.

(** A primary header with a damaged magic, and a secondary header that
    is newer than [sample_primary]. *)
Definition damaged_primary : list byte :=
  sample_header [76; 85; 75; 83; 0; 0] 16384 1 0.
Definition newer_secondary : list byte :=
  sample_header LUKS_MAGIC_2ND 16384 2 16384.

(** Headers of a volume whose JSON area is 16 bytes long. *)
Definition short_primary : list byte := sample_header LUKS_MAGIC_1ST 4112 1 0.
Definition short_secondary : list byte := sample_header LUKS_MAGIC_2ND 4112 1 4112.

(** The keyslot of the sample metadata, decoded. *)
Definition sample_keyslot_record : grub_luks2_keyslot_t :=
  mk_keyslot 4 1 "aes-xts-plain64" 32768 16 4 "sha256" 4
    LUKS2_KDF_TYPE_PBKDF2 "c2FsdA==" (CPtr "sha256") (CInt 1000) (CInt 0).

(** An event that touches the device does so at byte offset [off]. *)
Definition reads_only_at (off : Z) (e : event) : Prop :=
  match e with
  | EvDiskRead o _ => o = off
  | EvFileSeek o => o = off
  | _ => True
  end.


(** Metadata whose only keyslot has priority 0. *)
Definition ignored_slot_root : grub_json_t :=
  sample_root [("0", sample_keyslot [("priority", JPrimitive "0")]
                       sample_kdf_pbkdf2)] "pppp".

(** A header file that ends after three bytes of every area. *)
Definition truncated_file : grub_file :=
  mk_file (fun _ => None) (fun _ _ => ([1; 2; 3], None)).

(** The digest of the sample metadata, decoded. *)
Definition sample_digest_record : grub_luks2_digest_t :=
  mk_digest 3 1 "c2FsdA==" "pppp" "sha256" 1000.








(* ================================================================== *)
(** * Properties *)

(** ** Bytes and header checks *)

Lemma bytes_eqb_eq (a b : list byte) : bytes_eqb a b = true <-> a = b.
Proof.
  revert b; induction a as [|x a IH]; intros [|y b]; simpl;
    try (split; [discriminate | discriminate]); try tauto.
  rewrite andb_true_iff, Z.eqb_eq, IH.
  split; [intros [-> ->]; reflexivity | intros H; inversion H; auto].
Qed.

Lemma field_firstn_idem (h : list byte) (off len : nat) :
  firstn len (field h off len) = field h off len.
Proof.
  unfold field. rewrite firstn_firstn, Nat.min_id. reflexivity.
Qed.

(** The test of the source, [grub_memcmp (magic) || version != 2], is
    false exactly on the headers that are valid for that magic. *)
Lemma signature_check (magic h : list byte) :
  List.length magic = 6%nat ->
  (grub_memcmp (hdr_magic h) magic 6 || negb (hdr_version h =? 2)) = false
  <-> valid_header magic h.
Proof.
  intros Hlen. unfold valid_header, grub_memcmp, hdr_magic.
  rewrite orb_false_iff, negb_false_iff, negb_false_iff, bytes_eqb_eq, Z.eqb_eq.
  rewrite field_firstn_idem.
  rewrite (@firstn_all2 _ 6 magic) by lia.
  tauto.
Qed.

Lemma luks2_read_trace (disk : grub_disk) (hdr_file : option grub_file)
    (ret : grub_err_t) (off size : Z) (buf : list byte) (w : world) :
  Forall (reads_only_at off) (trace_of (luks2_read disk hdr_file ret off size buf w)).
Proof.
  unfold luks2_read, bind, emit, get_world, put_world, pure, trace_of.
  destruct hdr_file as [f|].
  - destruct (file_seek_result f off); simpl.
    + repeat constructor.
    + destruct (file_read_result f off size) as [data [e|]]; simpl.
      * repeat constructor.
      * destruct (Z.of_nat (List.length data) =? size); simpl; repeat constructor.
  - destruct (disk_read_result disk off size) as [e data].
    destruct (is_err e); simpl; repeat constructor.
Qed.

(** ** Encryption strings that fit the cipher array *)

Lemma string_firstn_fits (n : nat) (s : string) :
  (String.length s <= n)%nat -> string_firstn n s = s.
Proof.
  revert n. induction s as [|c s IH]; intros [|n] H; simpl in *; try reflexivity.
  - lia.
  - rewrite IH by lia. reflexivity.
Qed.

Lemma cipher_array_fits (enc : string) :
  fits_cipher enc -> string_firstn 32 enc = enc.
Proof. unfold fits_cipher. intros H. apply string_firstn_fits. lia. Qed.

(** ** C1: header selection *)

(** C1.  Once the primary header has been read: if it fails the magic or
    version check, [luks2_read_header] fails with BadSignature "Bad primary
    signature", leaves the out header alone and touches the device at
    offset 0 only (the secondary is not read).  If it is valid and the
    secondary, read at the primary's [hdr_size], is valid too, the
    function succeeds with the secondary when its sequence id is
    strictly greater and with the primary otherwise. *)
Theorem read_header_selection (P : providers) (disk : grub_disk)
    (hdr_file : option grub_file) (outhdr : list byte) (w w1 : world)
    (p : list byte) (t1 : list event) :
  luks2_read disk hdr_file GRUB_ERR_NONE 0 sizeof_header (uninit_header P) w
    = (GRUB_ERR_NONE, p, w1, t1) ->
  (~ valid_header LUKS_MAGIC_1ST p ->
     let r := luks2_read_header P disk hdr_file outhdr w in
     value_of r = (GRUB_ERR_BAD_SIGNATURE, outhdr)
     /\ grub_errno (world_of r) = GRUB_ERR_BAD_SIGNATURE
     /\ grub_errmsg (world_of r) = "Bad primary signature"
     /\ trace_of r = t1 ++ [EvError GRUB_ERR_BAD_SIGNATURE "Bad primary signature"]
     /\ Forall (reads_only_at 0) (trace_of r))
  /\ (forall (s : list byte) (w2 : world) (t2 : list event),
        valid_header LUKS_MAGIC_1ST p ->
        luks2_read disk hdr_file GRUB_ERR_NONE (hdr_size p) sizeof_header
          (uninit_header P) w1 = (GRUB_ERR_NONE, s, w2, t2) ->
        valid_header LUKS_MAGIC_2ND s ->
        let r := luks2_read_header P disk hdr_file outhdr w in
        fst (value_of r) = GRUB_ERR_NONE
        /\ world_of r = w2
        /\ (hdr_seqid p < hdr_seqid s -> snd (value_of r) = s)
        /\ (hdr_seqid s <= hdr_seqid p -> snd (value_of r) = p)).
Proof.
  intros Hp. split.
  - intros Hbad.
    assert (Hc : (grub_memcmp (hdr_magic p) LUKS_MAGIC_1ST 6
                  || negb (hdr_version p =? 2)) = true).
    { destruct (grub_memcmp (hdr_magic p) LUKS_MAGIC_1ST 6
                || negb (hdr_version p =? 2)) eqn:E; auto.
      exfalso. apply Hbad. apply signature_check; auto. }
    pose proof (luks2_read_trace disk hdr_file GRUB_ERR_NONE 0 sizeof_header
                  (uninit_header P) w) as Ht.
    rewrite Hp in Ht. unfold trace_of in Ht. simpl in Ht.
    cbv zeta. unfold luks2_read_header, bind. rewrite Hp. simpl. rewrite Hc.
    unfold grub_error, pure, value_of, world_of, trace_of. simpl.
    repeat split; auto.
    apply Forall_app. split; auto. repeat constructor.
  - intros s w2 t2 Hvp Hs Hvs.
    apply signature_check in Hvp; [|reflexivity].
    apply signature_check in Hvs; [|reflexivity].
    cbv zeta. unfold luks2_read_header, bind. rewrite Hp. simpl. rewrite Hvp.
    rewrite Hs. simpl. rewrite Hvs.
    unfold pure, value_of, world_of. simpl.
    repeat split.
    + intros Hlt. apply Z.ltb_lt in Hlt. rewrite Hlt. reflexivity.
    + intros Hle. apply Z.ltb_ge in Hle. rewrite Hle. reflexivity.
Qed.

(** ** The decoders: what a rejection and a success leave behind *)

Ltac break_getter :=
  match goal with
  | |- context [grub_json_getstring ?a ?b] =>
      destruct (grub_json_getstring a b) eqn:?
  | |- context [grub_json_getuint64 ?a ?b] =>
      destruct (grub_json_getuint64 a b) eqn:?
  | |- context [grub_json_getint64 ?a ?b] =>
      destruct (grub_json_getint64 a b) eqn:?
  | |- context [grub_json_getvalue ?a ?b] =>
      destruct (grub_json_getvalue a b) eqn:?
  | |- context [grub_json_getsize ?a] =>
      destruct (grub_json_getsize a) eqn:?
  | |- context [grub_strcmp ?a ?b] =>
      destruct (grub_strcmp a b) eqn:?
  end.

Ltac run_decoder :=
  unfold reject, luks2_derror, grub_error, bind, pure, into, orelse,
    value_of, world_of, trace_of;
  repeat (break_getter; simpl).


Ltac decoder_leaf :=
  unfold decoder_agrees, value_of, world_of, trace_of; simpl;
  repeat split; try congruence; try (intros; discriminate).

Lemma parse_segment_agrees (s1 s2 : grub_luks2_segment_t) (j : grub_json_t)
    (w : world) :
  decoder_agrees eq w (luks2_parse_segment s1 j w) (luks2_parse_segment s2 j w).
Proof.
  unfold luks2_parse_segment. run_decoder; decoder_leaf.
Qed.

Lemma parse_keyslot_agrees (k1 k2 : grub_luks2_keyslot_t) (j : grub_json_t)
    (w : world) :
  decoder_agrees keyslot_same w
    (luks2_parse_keyslot k1 j w) (luks2_parse_keyslot k2 j w).
Proof.
  unfold luks2_parse_keyslot. run_decoder; decoder_leaf.
Qed.

Lemma parse_digest_agrees (P : providers) (d1 d2 : grub_luks2_digest_t)
    (j : grub_json_t) (w : world) :
  decoder_agrees eq w (luks2_parse_digest P d1 j w) (luks2_parse_digest P d2 j w).
Proof.
  unfold luks2_parse_digest. run_decoder; try solve [decoder_leaf].
  all: repeat match goal with
       | |- context [collect_bits ?p ?a ?n ?i ?m] =>
           destruct (collect_bits p a n i m) as [[|] ?] eqn:?; simpl
       end; decoder_leaf.
Qed.

(** ** C8: atomicity of the decoders *)

Ltac assigned_leaf :=
  simpl; repeat split; try reflexivity; try discriminate; try congruence.

Lemma parse_segment_assigned (s0 : grub_luks2_segment_t) (j : grub_json_t)
    (w : world) :
  let r := luks2_parse_segment s0 j w in
  segment_assigned s0 j (snd (value_of r)) (negb (is_err (fst (value_of r)))).
Proof.
  unfold segment_assigned, has_type, luks2_parse_segment. cbv zeta.
  run_decoder; assigned_leaf.
Qed.

Lemma parse_keyslot_assigned (k0 : grub_luks2_keyslot_t) (j : grub_json_t)
    (w : world) :
  let r := luks2_parse_keyslot k0 j w in
  keyslot_assigned k0 j (snd (value_of r)) (negb (is_err (fst (value_of r)))).
Proof.
  unfold keyslot_assigned, has_type, typed_member, of_member, kdf_type_of,
    luks2_parse_keyslot. cbv zeta.
  destruct (grub_json_getstring j (Some "type")) as [t|]; [|run_decoder; assigned_leaf].
  destruct (grub_strcmp t "luks2"); [run_decoder; assigned_leaf|].
  destruct (grub_json_getint64 j (Some "key_size")) as [ks|];
    [|run_decoder; assigned_leaf].
  destruct (grub_json_getvalue j "area") as [area|]; [|run_decoder; assigned_leaf].
  destruct (grub_json_getstring area (Some "type")) as [ta|];
    [|run_decoder; assigned_leaf].
  destruct (grub_strcmp ta "raw"); [run_decoder; assigned_leaf|].
  destruct (grub_json_getuint64 area (Some "offset")) as [ao|];
    [|run_decoder; assigned_leaf].
  destruct (grub_json_getuint64 area (Some "size")) as [asz|];
    [|run_decoder; assigned_leaf].
  destruct (grub_json_getstring area (Some "encryption")) as [ae|];
    [|run_decoder; assigned_leaf].
  destruct (grub_json_getint64 area (Some "key_size")) as [ak|];
    [|run_decoder; assigned_leaf].
  destruct (grub_json_getvalue j "kdf") as [kdf|]; [|run_decoder; assigned_leaf].
  destruct (grub_json_getstring kdf (Some "type")) as [tk|];
    [|run_decoder; assigned_leaf].
  destruct (grub_json_getstring kdf (Some "salt")) as [sl|];
    [|run_decoder; assigned_leaf].
  destruct (grub_strcmp tk "argon2i"), (grub_strcmp tk "argon2id"),
    (grub_strcmp tk "pbkdf2"); cbn [negb orb].
  all: run_decoder; assigned_leaf.
Qed.

Lemma parse_digest_assigned (P : providers) (d0 : grub_luks2_digest_t)
    (j : grub_json_t) (w : world) :
  let r := luks2_parse_digest P d0 j w in
  digest_assigned P d0 j (snd (value_of r)) (negb (is_err (fst (value_of r)))).
Proof.
  unfold digest_assigned, has_type, of_member, luks2_parse_digest. cbv zeta.
  run_decoder; try solve [assigned_leaf].
  all: repeat match goal with
       | |- context [collect_bits ?p ?a ?n ?i ?m] =>
           destruct (collect_bits p a n i m) as [[|] ?] eqn:?; simpl
       end; assigned_leaf.
Qed.

(** C8, as the code has it.  For every JSON object each of the three
    decoders either succeeds or is rejected with BadArgument, which it
    records in [grub_errno].  On success every field that the decoded
    structure defines is set from the JSON, whatever the record held
    before, and no error is recorded.  On rejection the record is not
    put back: whatever it held, every field whose assignment comes before
    the failing check holds the value of its JSON member, and every other
    field holds what it held before. *)
Theorem decoders_populate_or_reject (P : providers) (j : grub_json_t) (w : world) :
  (forall k1 k2, decoder_agrees keyslot_same w
                   (luks2_parse_keyslot k1 j w) (luks2_parse_keyslot k2 j w))
  /\ (forall s1 s2, decoder_agrees eq w
                      (luks2_parse_segment s1 j w) (luks2_parse_segment s2 j w))
  /\ (forall d1 d2, decoder_agrees eq w
                      (luks2_parse_digest P d1 j w) (luks2_parse_digest P d2 j w))
  /\ (forall k0,
        let r := luks2_parse_keyslot k0 j w in
        keyslot_assigned k0 j (snd (value_of r)) (negb (is_err (fst (value_of r)))))
  /\ (forall s0,
        let r := luks2_parse_segment s0 j w in
        segment_assigned s0 j (snd (value_of r)) (negb (is_err (fst (value_of r)))))
  /\ (forall d0,
        let r := luks2_parse_digest P d0 j w in
        digest_assigned P d0 j (snd (value_of r)) (negb (is_err (fst (value_of r))))).
Proof.
  split; [|split; [|split; [|split; [|split]]]]; intros.
  - apply parse_keyslot_agrees.
  - apply parse_segment_agrees.
  - apply parse_digest_agrees.
  - apply parse_keyslot_assigned.
  - apply parse_segment_assigned.
  - apply parse_digest_assigned.
Qed.

(** C8, counterexample to the statement of the specification.  A keyslot
    object with a type and a key size but no area is rejected with
    BadArgument, and the out record comes back with [key_size] and
    [priority] overwritten. *)
Lemma parse_keyslot_reject_is_partial :
  let r := luks2_parse_keyslot blank_keyslot keyslot_without_area blank_world in
  fst (value_of r) = GRUB_ERR_BAD_ARGUMENT
  /\ snd (value_of r) <> blank_keyslot
  /\ key_size (snd (value_of r)) = 32
  /\ priority (snd (value_of r)) = 1.
Proof.
  vm_compute. repeat split. discriminate.
Qed.

(** ** C3: bitmap references *)

Lemma decimal_roundtrip (a : Z) : 0 <= a < 64 -> grub_strtoull (decimal a) = a.
Proof.
  intros H.
  assert (E : forallb (fun n => grub_strtoull (decimal n) =? n) (indices 64 0) = true)
    by (vm_compute; reflexivity).
  rewrite forallb_forall in E.
  apply Z.eqb_eq, E.
  replace a with (Z.of_nat (Z.to_nat a)) by lia.
  assert (Hn : (Z.to_nat a < 64)%nat) by lia.
  generalize (Z.to_nat a) Hn. clear.
  intros n Hn.
  do 64 (destruct n as [|n]; [vm_compute; tauto|]).
  lia.
Qed.

(** Whatever a target makes of [1 << bit] for a bit from 31 on, it is a
    32-bit [int], and its conversion to 64 bits is never the single bit. *)
Lemma int_shift_misses_bit (P : providers) (a : Z) :
  31 <= a < 64 -> u64 (int_shl1 P a) <> 2 ^ a.
Proof.
  intros H. unfold int_shl1, u64, sint32.
  destruct (a <? 31) eqn:E; [apply Z.ltb_lt in E; lia|].
  set (v := (shl_undefined P a + 2 ^ 31) mod 2 ^ 32 - 2 ^ 31).
  assert (Hv : - 2 ^ 31 <= v < 2 ^ 31).
  { unfold v. pose proof (Z.mod_pos_bound (shl_undefined P a + 2 ^ 31) (2 ^ 32)).
    lia. }
  assert (Hlo : 2 ^ 31 <= 2 ^ a) by (apply Z.pow_le_mono_r; lia).
  assert (Hhi : 2 ^ a <= 2 ^ 63) by (apply Z.pow_le_mono_r; lia).
  destruct (Z_lt_le_dec v 0).
  - replace (v mod 2 ^ 64) with (v + 2 ^ 64).
    + lia.
    + rewrite <- (Z.mod_add v 1 (2 ^ 64)) by lia.
      rewrite Z.mod_small; lia.
  - rewrite Z.mod_small; lia.
Qed.

Lemma int_shift_low_bit (P : providers) (a : Z) :
  0 <= a < 31 -> u64 (int_shl1 P a) = 2 ^ a.
Proof.
  intros H. unfold int_shl1, u64.
  destruct (a <? 31) eqn:E; [|apply Z.ltb_ge in E; lia].
  apply Z.mod_small. split; [apply Z.pow_nonneg; lia|].
  apply Z.pow_lt_mono_r; lia.
Qed.

(** C3, the code at keyslot 31, the last of the 32 keyslots of LUKS2.  A
    digest whose [keyslots] array is ["31"] is decoded without error, and
    on every target the 64-bit mask differs from the one with exactly bit
    31 set: the shifted 1 is an [int]. *)
Theorem parse_digest_keyslot_31 (P : providers) (out : grub_luks2_digest_t)
    (w : world) :
  let r := luks2_parse_digest P out (sample_digest [31] [0] "cHBwcA==") w in
  fst (value_of r) = GRUB_ERR_NONE
  /\ dg_keyslots (snd (value_of r)) = u64 (int_shl1 P 31)
  /\ dg_keyslots (snd (value_of r)) <> 2 ^ 31
  /\ dg_segments (snd (value_of r)) = 2 ^ 0.
Proof.
  cbv zeta.
  assert (E : luks2_parse_digest P out (sample_digest [31] [0] "cHBwcA==") w
              = (GRUB_ERR_NONE,
                 mk_digest (u64 (int_shl1 P 31)) 1
                   "c2FsdA==" "cHBwcA==" "sha256" 1000, w, [])).
  { reflexivity. }
  rewrite E. unfold value_of. simpl.
  repeat split. apply int_shift_misses_bit. lia.
Qed.

(** On a target whose shift instruction keeps the sign bit, keyslot 31
    sets the bits 31 to 63 of the mask. *)
Lemma parse_digest_keyslot_31_sample :
  dg_keyslots (snd (value_of
    (luks2_parse_digest (sample_providers two_slots []) blank_digest
       (sample_digest [31] [0] "cHBwcA==") blank_world)))
  = 2 ^ 64 - 2 ^ 31.
Proof. vm_compute. reflexivity. Qed.

(** Below bit 31 the masks are the ones the specification describes. *)
Lemma parse_digest_low_bits (P : providers) (out : grub_luks2_digest_t)
    (w : world) (a b c : Z) :
  0 <= a < 31 -> 0 <= b < 31 -> 0 <= c < 31 ->
  let r := luks2_parse_digest P out (sample_digest [a; b; c] [a; b; c] "") w in
  fst (value_of r) = GRUB_ERR_NONE
  /\ dg_keyslots (snd (value_of r)) = Z.lor (Z.lor (2 ^ a) (2 ^ b)) (2 ^ c)
  /\ dg_segments (snd (value_of r)) = Z.lor (Z.lor (2 ^ a) (2 ^ b)) (2 ^ c).
Proof.
  intros Ha Hb Hc. cbv zeta.
  unfold luks2_parse_digest, sample_digest. simpl.
  unfold grub_json_getuint64. simpl.
  rewrite !decimal_roundtrip by lia.
  unfold or_bit. rewrite !int_shift_low_bit by lia.
  unfold value_of. simpl. auto.
Qed.

(** ** Reasoning about runs: weakest preconditions *)

Lemma wp_bind {A B : Type} (m : M A) (f : A -> M B) (w : world)
    (Q : B -> world -> list event -> Prop) :
  wp m w (fun a w1 t1 => wp (f a) w1 (fun b w2 t2 => Q b w2 (t1 ++ t2))) ->
  wp (bind m f) w Q.
Proof.
  unfold wp, bind, value_of, world_of, trace_of.
  destruct (m w) as [[a w1] t1]. simpl.
  destruct (f a w1) as [[b w2] t2]. simpl. auto.
Qed.

Lemma wp_pure {A : Type} (a : A) (w : world)
    (Q : A -> world -> list event -> Prop) :
  Q a w [] -> wp (pure a) w Q.
Proof. auto. Qed.

Lemma wp_emit (e : event) (w : world) (Q : unit -> world -> list event -> Prop) :
  Q tt w [e] -> wp (emit e) w Q.
Proof. auto. Qed.

Lemma wp_get_world (w : world) (Q : world -> world -> list event -> Prop) :
  Q w w [] -> wp get_world w Q.
Proof. auto. Qed.

Lemma wp_put_world (w' w : world) (Q : unit -> world -> list event -> Prop) :
  Q tt w' [] -> wp (put_world w') w Q.
Proof. auto. Qed.

Lemma wp_update_crypt (f : grub_cryptodisk -> grub_cryptodisk) (w : world)
    (Q : unit -> world -> list event -> Prop) :
  Q tt (set_crypt w (f (crypt w))) [] -> wp (update_crypt f) w Q.
Proof. auto. Qed.

Lemma wp_grub_error (n : grub_err_t) (fmt : string) (w : world)
    (Q : grub_err_t -> world -> list event -> Prop) :
  Q n (set_error w n fmt) [EvError n fmt] -> wp (grub_error n fmt) w Q.
Proof. auto. Qed.

Lemma wp_run {A : Type} (m : M A) (w : world)
    (Q : A -> world -> list event -> Prop) :
  (forall a w' t, m w = (a, w', t) -> Q a w' t) -> wp m w Q.
Proof.
  intros H. unfold wp, value_of, world_of, trace_of.
  destruct (m w) as [[a w'] t] eqn:E. simpl. auto.
Qed.

Lemma wp_result {A : Type} (m : M A) (w : world)
    (Q : A -> world -> list event -> Prop) (a : A) (w' : world) (t : list event) :
  m w = (a, w', t) -> Q a w' t -> wp m w Q.
Proof.
  intros E H. unfold wp, value_of, world_of, trace_of. rewrite E. auto.
Qed.

Lemma wp_weaken {A : Type} (m : M A) (w : world)
    (Q Q' : A -> world -> list event -> Prop) :
  wp m w Q -> (forall a w' t, Q a w' t -> Q' a w' t) -> wp m w Q'.
Proof. unfold wp. auto. Qed.

(** Case analysis on the scrutinee at the head of a run.  A test or call
    whose outcome is already known from earlier in the run keeps it. *)
Ltac wp_case x :=
  first
    [ match goal with H : x = _ |- _ => rewrite H end
    | lazymatch x with
      | negb ?y => match goal with H : y = _ |- _ => rewrite H end
      end
    | destruct x eqn:? ].

(** One step of a run: the head of the computation decides. *)
Ltac wp_step :=
  lazymatch goal with
  | |- wp (bind _ _) _ _ => apply wp_bind
  | |- wp (pure _) _ _ => apply wp_pure
  | |- wp (emit _) _ _ => apply wp_emit
  | |- wp get_world _ _ => apply wp_get_world
  | |- wp (put_world _) _ _ => apply wp_put_world
  | |- wp (update_crypt _) _ _ => apply wp_update_crypt
  | |- wp (grub_error _ _) _ _ => apply wp_grub_error
  | |- wp (luks2_derror _ _) _ _ => unfold luks2_derror
  | |- wp (reject _ _ _) _ _ => unfold reject
  | |- wp (grub_dprintf _ _) _ _ => unfold grub_dprintf
  | |- wp (grub_printf_ _ _) _ _ => unfold grub_printf_
  | |- wp (match ?x with _ => _ end) _ _ => wp_case x
  | |- wp (let _ := _ in _) _ _ => cbv zeta
  end.

Ltac wp_norm := cbv beta iota; cbn [is_err negb].

Ltac wp_steps := wp_norm; repeat (wp_step; wp_norm).

(** Use the known result [H] of the computation at the head. *)
Ltac wp_with H :=
  first [ eapply wp_result; [exact H|]
        | apply wp_bind; eapply wp_result; [exact H|] ];
  cbv beta iota.

(** ** C4: the keyslot area is decrypted in 512-byte sectors from sector 0 *)

(** Every call of the sector decryption made by [luks2_decrypt_key] covers
    the keyslot area with sector counter 0 and logarithm 9, and a run that
    gets as far as merging the stripes has made that call. *)
Lemma decrypt_key_calls (P : providers) (out_key : list byte)
    (source : grub_disk) (hdr_file : option grub_file)
    (k : grub_luks2_keyslot_t) (passphrase : list byte) (passphraselen : Z)
    (w : world) :
  let r := luks2_decrypt_key P out_key source hdr_file k passphrase passphraselen w in
  Forall (decrypt_event_ok (area_size k)) (trace_of r)
  /\ (In (EvAFMerge (af_hash k) (key_size k) (af_stripes k)) (trace_of r) ->
      In (EvDecrypt (area_size k) 0 9) (trace_of r)).
Proof.
  cbv zeta. split.
  - change (wp (luks2_decrypt_key P out_key source hdr_file k passphrase passphraselen) w
              (fun _ _ t => Forall (decrypt_event_ok (area_size k)) t)).
    unfold luks2_decrypt_key, decrypt_key_err, grub_cryptodisk_setcipher,
      grub_cryptodisk_setkey, grub_cryptodisk_decrypt, luks2_read.
    wp_steps; repeat (apply Forall_cons || apply Forall_nil || apply Forall_app || split);
      simpl; auto.
  - change (wp (luks2_decrypt_key P out_key source hdr_file k passphrase passphraselen) w
              (fun _ _ t =>
                 In (EvAFMerge (af_hash k) (key_size k) (af_stripes k)) t ->
                 In (EvDecrypt (area_size k) 0 9) t)).
    unfold luks2_decrypt_key, decrypt_key_err, grub_cryptodisk_setcipher,
      grub_cryptodisk_setkey, grub_cryptodisk_decrypt, luks2_read.
    wp_steps; simpl; intros Hin;
      repeat (destruct Hin as [Hin|Hin]; try discriminate Hin);
      try contradiction; auto 20.
Qed.

(** C4.  Whatever sector size the trial loop has put into the crypto
    disk from the resolved segment ([segment_log] is its logarithm), in
    every run of [luks2_decrypt_key] each call of the sector decryption
    covers the keyslot area with sector counter 0 and
    [LUKS_LOG_SECTOR_SIZE] = 9, that is 512-byte sectors; and a run that
    gets as far as merging the stripes has made that call. *)
Theorem decrypt_key_sector_size (P : providers) (out_key : list byte)
    (source : grub_disk) (hdr_file : option grub_file)
    (k : grub_luks2_keyslot_t) (passphrase : list byte) (passphraselen : Z)
    (w : world) (segment_log : Z) :
  let r := luks2_decrypt_key P out_key source hdr_file k passphrase passphraselen
             (set_crypt w (set_cd_log_sector_size (crypt w) segment_log)) in
  Forall (decrypt_event_ok (area_size k)) (trace_of r)
  /\ (In (EvAFMerge (af_hash k) (key_size k) (af_stripes k)) (trace_of r) ->
      In (EvDecrypt (area_size k) 0 9) (trace_of r))
  /\ 2 ^ LUKS_LOG_SECTOR_SIZE = 512.
Proof.
  cbv zeta.
  destruct (decrypt_key_calls P out_key source hdr_file k passphrase
              passphraselen
              (set_crypt w (set_cd_log_sector_size (crypt w) segment_log)))
    as [A B].
  split; [exact A|]. split; [exact B|reflexivity].
Qed.

(** ** C6 and C10: the JSON area *)

Lemma has_nul_false (buf : list byte) (n : Z) :
  (forall b, In b (firstn (Z.to_nat n) buf) -> b <> 0) -> has_nul buf n = false.
Proof.
  intros H. unfold has_nul.
  destruct (existsb (fun b => b =? 0) (firstn (Z.to_nat n) buf)) eqn:E; auto.
  apply existsb_exists in E. destruct E as [b [Hin Hb]].
  apply Z.eqb_eq in Hb. exfalso. exact (H b Hin Hb).
Qed.

(** C6.  When the header has been selected, the JSON buffer allocated and
    the JSON area read without error, and no byte of the area of
    [hdr_size - 4096] bytes is NUL, [luks2_recover_key] frees the buffer
    and returns.  It returns [GRUB_ERR_NONE], the status left by the
    read; it records no error, does not call the JSON parser and tries
    no keyslot: the state is the one the read left and the trace holds
    only the reads, the allocation and the two frees. *)
Theorem unterminated_json_returns_without_error (P : providers)
    (source : grub_disk) (hdr_file : option grub_file)
    (key : option (list byte)) (keyfile_size : Z) (w w1 w2 : world)
    (header buf : list byte) (t1 t2 : list event) :
  luks2_read_header P source hdr_file (uninit_header P) w
    = (GRUB_ERR_NONE, header, w1, t1) ->
  alloc_ok P (u64 (hdr_size header - sizeof_header)) = true ->
  luks2_read source hdr_file GRUB_ERR_NONE
    (u64 (hdr_offset header + sizeof_header))
    (u64 (hdr_size header - sizeof_header))
    (repeat 0 (Z.to_nat (u64 (hdr_size header - sizeof_header)))) w1
    = (GRUB_ERR_NONE, buf, w2, t2) ->
  (forall b,
      In b (firstn (Z.to_nat (u64 (hdr_size header - sizeof_header))) buf) ->
      b <> 0) ->
  let r := luks2_recover_key P source hdr_file key keyfile_size w in
  value_of r = GRUB_ERR_NONE
  /\ world_of r = w2
  /\ trace_of r
     = t1 ++ EvZalloc (u64 (hdr_size header - sizeof_header))
          :: t2 ++ [EvFree buf; EvJsonFree].
Proof.
  intros Hhdr Halloc Hread Hnul. apply has_nul_false in Hnul.
  cbv zeta.
  change (wp (luks2_recover_key P source hdr_file key keyfile_size) w
            (fun a w' t =>
               a = GRUB_ERR_NONE /\ w' = w2
               /\ t = t1 ++ EvZalloc (u64 (hdr_size header - sizeof_header))
                          :: t2 ++ [EvFree buf; EvJsonFree])).
  unfold luks2_recover_key, luks2_recover_key_frame, recover_key_err.
  apply wp_bind. wp_with Hhdr. cbn [is_err].
  apply wp_bind. apply wp_emit. rewrite Halloc. cbn [negb].
  wp_with Hread. cbn [is_err]. rewrite Hnul. cbn [negb].
  wp_steps. repeat split.
  rewrite <- !app_assoc. simpl. reflexivity.
Qed.

(** C10.  With a header whose [hdr_size] exceeds 4096, a JSON buffer of
    [hdr_size - 4096] bytes is allocated and filled, and when the area
    holds a NUL the JSON parser is called on that buffer with the length
    [hdr_size]: 4096 more than the buffer holds. *)
Theorem json_parse_length_exceeds_buffer (P : providers)
    (source : grub_disk) (hdr_file : option grub_file)
    (key : option (list byte)) (keyfile_size : Z) (w w1 w2 : world)
    (header buf : list byte) (t1 t2 : list event) :
  luks2_read_header P source hdr_file (uninit_header P) w
    = (GRUB_ERR_NONE, header, w1, t1) ->
  4096 < hdr_size header < 2 ^ 64 ->
  alloc_ok P (hdr_size header - 4096) = true ->
  luks2_read source hdr_file GRUB_ERR_NONE
    (u64 (hdr_offset header + sizeof_header))
    (hdr_size header - 4096)
    (repeat 0 (Z.to_nat (hdr_size header - 4096))) w1
    = (GRUB_ERR_NONE, buf, w2, t2) ->
  Z.of_nat (List.length buf) = hdr_size header - 4096 ->
  has_nul buf (hdr_size header - 4096) = true ->
  exists (allocated declared : Z) (rest : list event),
    trace_of (luks2_recover_key P source hdr_file key keyfile_size w)
    = t1 ++ EvZalloc allocated :: t2 ++ EvJsonParse allocated declared :: rest
    /\ allocated = hdr_size header - 4096
    /\ declared = hdr_size header
    /\ declared = allocated + 4096.
Proof.
  intros Hhdr Hsize Halloc Hread Hlen Hnul.
  assert (Hu : u64 (hdr_size header - sizeof_header) = hdr_size header - 4096).
  { unfold u64, sizeof_header. apply Z.mod_small. lia. }
  change (wp (luks2_recover_key P source hdr_file key keyfile_size) w
            (fun _ _ t =>
               exists allocated declared rest,
                 t = t1 ++ EvZalloc allocated :: t2
                        ++ EvJsonParse allocated declared :: rest
                 /\ allocated = hdr_size header - 4096
                 /\ declared = hdr_size header
                 /\ declared = allocated + 4096)).
  unfold luks2_recover_key, luks2_recover_key_frame.
  apply wp_bind. wp_with Hhdr. cbn [is_err]. rewrite Hu.
  apply wp_bind. apply wp_emit. rewrite Halloc. cbn [negb].
  wp_with Hread. cbn [is_err]. rewrite Hnul. cbn [negb]. rewrite Hlen.
  apply wp_bind. apply wp_emit.
  apply wp_run. intros [ret fr] w' t _.
  apply wp_pure.
  exists (hdr_size header - 4096), (hdr_size header), t.
  repeat split; try lia.
  rewrite <- !app_assoc. simpl. rewrite app_nil_r. reflexivity.
Qed.

(** ** The trial loop *)

(** Like [wp_step], and a call that is not a primitive is named by its
    result. *)
Ltac wp_call :=
  wp_norm;
  first [ wp_step
        | lazymatch goal with
          | |- wp _ _ _ => apply wp_run; intros ? ? ? ?
          end ].

Section Loop.

Variable P : providers.
Variable source : grub_disk.
Variable hdr_file : option grub_file.
Variable json : grub_json_t.
Variable passphrase : list byte.
Variable passphrase_len : Z.

Local Notation body := (trial_body P source hdr_file json passphrase passphrase_len).
Local Notation loop := (trial_loop P source hdr_file json passphrase passphrase_len).
Local Notation failed := (failed_rounds P source hdr_file json passphrase passphrase_len).

(** After rounds that all end in [continue], the loop goes on from the
    state they leave. *)
Lemma trial_loop_after_failures (m n : nat) :
  forall (i : Z) (l l1 : locals) (w w1 : world) (t1 : list event),
    failed m i l w = Some (l1, w1, t1) ->
    loop (m + n)%nat i l w
    = (value_of (loop n (i + Z.of_nat m) l1 w1),
       world_of (loop n (i + Z.of_nat m) l1 w1),
       t1 ++ trace_of (loop n (i + Z.of_nat m) l1 w1)).
Proof.
  induction m as [|m IH]; intros i l l1 w w1 t1 H.
  - simpl in H. inversion H; subst. simpl.
    replace (i + 0) with i by lia.
    destruct (loop n i l1 w1) as [[a w'] t]. reflexivity.
  - simpl in H.
    destruct (body i l w) as [[[stop l0] w0] t0] eqn:Eb.
    destruct stop; [discriminate|].
    destruct (failed m (i + 1) l0 w0) as [[[l2 w2] t2]|] eqn:Ef; [|discriminate].
    inversion H; subst.
    change (loop (S m + n)%nat i l w)
      with (bind (body i l)
              (fun '(stop, l) =>
                 if (stop : bool) then pure l else loop (m + n)%nat (i + 1) l) w).
    unfold bind. rewrite Eb. rewrite (IH _ _ _ _ _ _ Ef).
    replace (i + 1 + Z.of_nat m) with (i + Z.of_nat (S m)) by lia.
    unfold value_of, world_of, trace_of. simpl.
    rewrite app_assoc. reflexivity.
Qed.

(** A round that ends in [break] resolved its keyslot, whose priority is
    not 0, and leaves that keyslot's [key_size] as the key length. *)
Lemma trial_body_break (i : Z) (l l' : locals) (w w' : world) (t' : list event) :
  body i l w = (true, l', w', t') ->
  value_of (luks2_get_keyslot P (l_keyslot l) (l_digest l) (l_segment l) json i w)
    = (GRUB_ERR_NONE, l_keyslot l', l_digest l', l_segment l')
  /\ priority (l_keyslot l') <> 0
  /\ l_candidate_key_len l' = u64 (key_size (l_keyslot l'))
  /\ l_ret l' = GRUB_ERR_NONE
  /\ In (EvPrintf "Slot %lu opened\n" [i]) t'.
Proof.
  intros H.
  assert (G : wp (body i l) w
                (fun a _ t =>
                   fst a = true ->
                   value_of (luks2_get_keyslot P (l_keyslot l) (l_digest l)
                               (l_segment l) json i w)
                   = (GRUB_ERR_NONE, l_keyslot (snd a), l_digest (snd a),
                      l_segment (snd a))
                   /\ priority (l_keyslot (snd a)) <> 0
                   /\ l_candidate_key_len (snd a) = u64 (key_size (l_keyslot (snd a)))
                   /\ l_ret (snd a) = GRUB_ERR_NONE
                   /\ In (EvPrintf "Slot %lu opened\n" [i]) t)).
  { unfold trial_body. apply wp_bind. apply wp_run.
    intros [[[e k] d] s] w0 t0 E. cbv beta iota zeta.
    repeat wp_call; simpl; intros Hstop; try discriminate Hstop.
    all: rewrite E; unfold value_of; simpl.
    all: repeat match goal with
           | H : is_err ?x = false |- _ =>
               destruct x; try discriminate H; clear H
           end.
    all: repeat split; auto;
      [ apply Z.eqb_neq; assumption
      | rewrite !in_app_iff; simpl; rewrite !in_app_iff; simpl; auto 20 ]. }
  unfold wp in G. rewrite H in G. apply G. reflexivity.
Qed.

(** A round that ends in [continue] leaves the key length as it was. *)
Lemma trial_body_continue (i : Z) (l l' : locals) (w w' : world) (t' : list event) :
  body i l w = (false, l', w', t') ->
  l_candidate_key_len l' = l_candidate_key_len l.
Proof.
  intros H.
  assert (G : wp (body i l) w
                (fun a _ _ =>
                   fst a = false ->
                   l_candidate_key_len (snd a) = l_candidate_key_len l)).
  { unfold trial_body. apply wp_bind. apply wp_run.
    intros [[[e k] d] s] w0 t0 E. cbv beta iota zeta.
    repeat wp_call; simpl; intros Hstop; try discriminate Hstop; reflexivity. }
  unfold wp in G. rewrite H in G. apply G. reflexivity.
Qed.

Lemma failed_rounds_key_len (n : nat) :
  forall (i : Z) (l l1 : locals) (w w1 : world) (t1 : list event),
    failed n i l w = Some (l1, w1, t1) ->
    l_candidate_key_len l1 = l_candidate_key_len l.
Proof.
  induction n as [|n IH]; intros i l l1 w w1 t1 H; simpl in H.
  - inversion H; subst. reflexivity.
  - destruct (body i l w) as [[[stop l0] w0] t0] eqn:Eb.
    destruct stop; [discriminate|].
    destruct (failed n (i + 1) l0 w0) as [[[l2 w2] t2]|] eqn:Ef; [|discriminate].
    inversion H; subst.
    rewrite (IH _ _ _ _ _ _ Ef). eapply trial_body_continue; eauto.
Qed.



End Loop.

(** ** From the entry of [luks2_recover_key] to the trial loop *)

Lemma recover_key_with_json_trials (P : providers) (source : grub_disk)
    (hdr_file : option grub_file) (key : option (list byte)) (keyfile_size : Z)
    (json_header : list byte) (json : grub_json_t) (w : world) :
  passphrase_supplied P key = true ->
  let r := recover_key_trials P source hdr_file json_header json
             (passphrase_buffer P key) (passphrase_bytes P key)
             (passphrase_length P key keyfile_size) w in
  recover_key_with_json P source hdr_file key keyfile_size json_header json w
  = (value_of r, world_of r, passphrase_trace key ++ trace_of r).
Proof.
  intros Hs. cbv zeta. unfold recover_key_with_json.
  destruct key as [kb|]; simpl in *.
  - destruct (recover_key_trials _ _ _ _ _ _ _ _ _) as [[a w'] t]. reflexivity.
  - unfold bind, grub_printf_, emit.
    destruct (grub_password_get P) as [supplied typed]. simpl in Hs. subst.
    simpl.
    destruct (recover_key_trials _ _ _ _ _ _ _ _ _) as [[a w'] t]. reflexivity.
Qed.

Lemma recover_key_reaches_trials (P : providers) (source : grub_disk)
    (hdr_file : option grub_file) (key : option (list byte)) (keyfile_size : Z)
    (w w2 : world) (header buf : list byte) (json : grub_json_t)
    (t : list event) :
  json_area_parsed P source hdr_file w header buf json w2 t ->
  passphrase_supplied P key = true ->
  let r := recover_key_trials P source hdr_file buf json
             (passphrase_buffer P key) (passphrase_bytes P key)
             (passphrase_length P key keyfile_size) w2 in
  luks2_recover_key_frame P source hdr_file key keyfile_size w
  = (value_of r, world_of r, t ++ passphrase_trace key ++ trace_of r).
Proof.
  intros (w1 & t1 & t2 & Hhdr & Halloc & Hread & Hnul & Hparse & Ht) Hs.
  cbv zeta. subst t.
  pose proof (recover_key_with_json_trials P source hdr_file key keyfile_size
                buf json w2 Hs) as Hj. cbv zeta in Hj.
  unfold luks2_recover_key_frame.
  unfold bind at 1. rewrite Hhdr. cbn [is_err].
  unfold bind at 1. unfold emit at 1. rewrite Halloc. cbn [negb].
  unfold bind at 1. rewrite Hread. cbn [is_err]. rewrite Hnul. cbn [negb].
  unfold bind at 1. unfold emit at 1. rewrite Hparse. rewrite Hj.
  f_equal. simpl. rewrite <- !app_assoc. simpl. rewrite <- !app_assoc.
  reflexivity.
Qed.

(** ** C5: every trial fails *)

Lemma failed_rounds_loop (P : providers) (source : grub_disk)
    (hdr_file : option grub_file) (json : grub_json_t)
    (passphrase : list byte) (passphrase_len : Z) (n : nat) (i : Z)
    (l ln : locals) (w wn : world) (tn : list event) :
  failed_rounds P source hdr_file json passphrase passphrase_len n i l w
    = Some (ln, wn, tn) ->
  trial_loop P source hdr_file json passphrase passphrase_len n i l w
    = (ln, wn, tn).
Proof.
  intros H.
  pose proof (trial_loop_after_failures P source hdr_file json passphrase
                passphrase_len n 0 i l ln w wn tn H) as E.
  rewrite Nat.add_0_r in E. rewrite E. simpl.
  unfold pure, value_of, world_of, trace_of. simpl.
  rewrite app_nil_r. reflexivity.
Qed.

Lemma trials_all_fail (P : providers) (source : grub_disk)
    (hdr_file : option grub_file) (json_header : list byte)
    (json keyslots : grub_json_t) (buf passphrase : list byte)
    (passphrase_len size : Z) (w wn : world) (ln : locals) (tn : list event) :
  grub_json_getvalue json "keyslots" = Some keyslots ->
  grub_json_getsize keyslots = Some size ->
  failed_rounds P source hdr_file json passphrase passphrase_len
    (Z.to_nat size) 0 (initial_locals P) w = Some (ln, wn, tn) ->
  recover_key_trials P source hdr_file json_header json buf passphrase
    passphrase_len w
  = (GRUB_ERR_ACCESS_DENIED, mk_frame buf (l_candidate_key ln),
     set_error wn GRUB_ERR_ACCESS_DENIED "Invalid passphrase",
     tn ++ [EvError GRUB_ERR_ACCESS_DENIED "Invalid passphrase";
            EvFree json_header; EvJsonFree]).
Proof.
  intros Hks Hsize Hfail.
  pose proof (failed_rounds_key_len _ _ _ _ _ _ _ _ _ _ _ _ _ Hfail) as Hlen.
  simpl in Hlen.
  apply failed_rounds_loop in Hfail.
  unfold recover_key_trials. rewrite Hks, Hsize.
  unfold bind at 1. rewrite Hfail.
  unfold recover_key_finish. rewrite Hlen. simpl (0 =? 0).
  unfold recover_key_err, bind, grub_error, emit, pure. simpl.
  reflexivity.
Qed.

(** C5, as the code has it.  When the first part of [luks2_recover_key]
    went through, a passphrase is at hand and every round of the trial
    loop ends in [continue], the function returns AccessDenied and
    records "Invalid passphrase".  Nothing is installed after the loop:
    the crypto disk is left as the last trial left it; it is not put back
    to what it was before the attempt. *)
Theorem all_trials_fail_access_denied (P : providers) (source : grub_disk)
    (hdr_file : option grub_file) (key : option (list byte)) (keyfile_size : Z)
    (w w2 wn : world) (header buf : list byte) (json keyslots : grub_json_t)
    (size : Z) (ln : locals) (t tn : list event) :
  json_area_parsed P source hdr_file w header buf json w2 t ->
  passphrase_supplied P key = true ->
  grub_json_getvalue json "keyslots" = Some keyslots ->
  grub_json_getsize keyslots = Some size ->
  failed_rounds P source hdr_file json (passphrase_bytes P key)
    (passphrase_length P key keyfile_size) (Z.to_nat size) 0
    (initial_locals P) w2 = Some (ln, wn, tn) ->
  let r := luks2_recover_key P source hdr_file key keyfile_size w in
  value_of r = GRUB_ERR_ACCESS_DENIED
  /\ grub_errno (world_of r) = GRUB_ERR_ACCESS_DENIED
  /\ grub_errmsg (world_of r) = "Invalid passphrase"
  /\ crypt (world_of r) = crypt wn
  /\ trace_of r
     = t ++ passphrase_trace key ++ tn
         ++ [EvError GRUB_ERR_ACCESS_DENIED "Invalid passphrase";
             EvFree buf; EvJsonFree].
Proof.
  intros Hpre Hs Hks Hsize Hfail. cbv zeta.
  change (wp (luks2_recover_key P source hdr_file key keyfile_size) w
            (fun a w' t' =>
               a = GRUB_ERR_ACCESS_DENIED
               /\ grub_errno w' = GRUB_ERR_ACCESS_DENIED
               /\ grub_errmsg w' = "Invalid passphrase"
               /\ crypt w' = crypt wn
               /\ t' = t ++ passphrase_trace key ++ tn
                         ++ [EvError GRUB_ERR_ACCESS_DENIED "Invalid passphrase";
                             EvFree buf; EvJsonFree])).
  unfold luks2_recover_key. apply wp_bind.
  eapply wp_result.
  { apply (recover_key_reaches_trials P source hdr_file key keyfile_size
             w w2 header buf json t Hpre Hs). }
  rewrite (trials_all_fail P source hdr_file buf json keyslots _ _ _ size
             w2 wn ln tn Hks Hsize Hfail).
  unfold value_of, world_of, trace_of. simpl. apply wp_pure.
  repeat split. rewrite app_nil_r. reflexivity.
Qed.

(** C5, counterexample to the statement of the specification.  On the
    sample volume with a passphrase that opens no keyslot the function
    returns AccessDenied, and the crypto disk keeps the cipher of the
    keyslot area, the area key and the sector layout of the last trial. *)
Lemma wrong_passphrase_leaves_area_cipher :
  let r := luks2_recover_key
             (sample_providers two_slots (bytes_of_string "wrong"))
             (sample_disk sample_primary sample_secondary 0)
             None None 0 blank_world in
  value_of r = GRUB_ERR_ACCESS_DENIED
  /\ cipher (crypt (world_of r)) = Some ("aes", "xts-plain64")
  /\ key (crypt (world_of r)) = Some [119; 114; 111; 110]
  /\ log_sector_size (crypt (world_of r)) = 12
  /\ crypt (world_of r) <> crypt blank_world.
Proof.
  vm_compute. repeat split. discriminate.
Qed.

(** ** C9: secret buffers at their release *)

Lemma freed_buffers_app (a b : list event) :
  freed_buffers (a ++ b) = freed_buffers a ++ freed_buffers b.
Proof.
  induction a as [|e a IH]; simpl; auto.
  destruct e; simpl; auto. rewrite IH. reflexivity.
Qed.

Lemma luks2_read_frees_nothing (disk : grub_disk) (hdr_file : option grub_file)
    (ret : grub_err_t) (off size : Z) (buf : list byte) (w : world) :
  freed_buffers (trace_of (luks2_read disk hdr_file ret off size buf w)) = [].
Proof.
  unfold luks2_read, bind, emit, get_world, put_world, pure, trace_of.
  destruct hdr_file as [f|].
  - destruct (file_seek_result f off); simpl; auto.
    destruct (file_read_result f off size) as [data [e|]]; simpl; auto.
    destruct (Z.of_nat (List.length data) =? size); simpl; auto.
  - destruct (disk_read_result disk off size) as [e data].
    destruct (is_err e); simpl; auto.
Qed.

(** C9, as the code has it.  Nothing is wiped.  Every buffer that
    [luks2_decrypt_key] hands to [grub_free] holds the bytes of the key
    area as they were read or as they were decrypted; and when the
    passphrase is asked for, the 256-byte buffer holds on every return of
    [luks2_recover_key] after the prompt what was typed, padded with
    NULs. *)
Theorem secret_buffers_released_unwiped (P : providers) (source : grub_disk)
    (hdr_file : option grub_file) :
  (forall (out_key : list byte) (k : grub_luks2_keyslot_t)
          (passphrase : list byte) (passphraselen : Z) (w : world),
      Forall
        (fun c =>
           exists (w1 : world) (c1 : grub_cryptodisk),
             let area :=
               snd (value_of
                      (luks2_read source hdr_file GRUB_ERR_NONE
                         (area_offset k) (area_size k)
                         (malloc_contents P (area_size k)) w1)) in
             c = area
             \/ c = snd (decrypt_result P c1 area (area_size k) 0
                           LUKS_LOG_SECTOR_SIZE))
        (freed_buffers
           (trace_of (luks2_decrypt_key P out_key source hdr_file k
                        passphrase passphraselen w))))
  /\ (forall (keyfile_size : Z) (json_header : list byte) (json : grub_json_t)
             (w : world),
         interactive_passphrase
           (snd (value_of (recover_key_with_json P source hdr_file None
                             keyfile_size json_header json w)))
         = overwrite (repeat 0 (Z.to_nat MAX_PASSPHRASE))
             (snd (grub_password_get P) ++ [0])).
Proof.
  split.
  - intros out_key k passphrase passphraselen w.
    change (wp (luks2_decrypt_key P out_key source hdr_file k passphrase
                  passphraselen) w
              (fun _ _ t =>
                 Forall
                   (fun c =>
                      exists (w1 : world) (c1 : grub_cryptodisk),
                        let area :=
                          snd (value_of
                                 (luks2_read source hdr_file GRUB_ERR_NONE
                                    (area_offset k) (area_size k)
                                    (malloc_contents P (area_size k)) w1)) in
                        c = area
                        \/ c = snd (decrypt_result P c1 area (area_size k) 0
                                      LUKS_LOG_SECTOR_SIZE))
                   (freed_buffers t))).
    unfold luks2_decrypt_key, decrypt_key_err, grub_cryptodisk_setcipher,
      grub_cryptodisk_setkey, grub_cryptodisk_decrypt.
    wp_steps; try solve [simpl; repeat constructor].
    lazymatch goal with
    | |- wp (luks2_read ?d ?h ?r ?o ?sz ?b) ?w0 _ =>
        apply wp_run; intros [e area] w1 t1 Hread;
        pose proof (luks2_read_frees_nothing d h r o sz b w0) as Hfree;
        assert (Harea : area = snd (value_of (luks2_read d h r o sz b w0)))
          by (rewrite Hread; reflexivity);
        rewrite Hread in Hfree; unfold trace_of in Hfree; simpl in Hfree
    end.
    wp_steps; simpl; rewrite ?freed_buffers_app; simpl;
      rewrite ?freed_buffers_app; simpl; rewrite Hfree; simpl;
      repeat constructor.
    all: match type of Harea with
         | _ = snd (value_of (luks2_read _ _ _ _ _ _ ?w0)) =>
             first [ exists w0, (crypt w0); left; exact Harea
                   | match goal with
                     | H : decrypt_result _ ?c _ _ _ _ = (_, _) |- _ =>
                         exists w0, c; right; rewrite <- Harea, H; reflexivity
                     end ]
         end.
  - intros keyfile_size json_header json w.
    change (wp (recover_key_with_json P source hdr_file None keyfile_size
                  json_header json) w
              (fun a _ _ =>
                 interactive_passphrase (snd a)
                 = overwrite (repeat 0 (Z.to_nat MAX_PASSPHRASE))
                     (snd (grub_password_get P) ++ [0]))).
    unfold recover_key_with_json, recover_key_trials, recover_key_finish,
      recover_key_err.
    destruct (grub_password_get P) as [supplied typed].
    repeat wp_call; reflexivity.
Qed.

(** C9, counterexample to the statement of the specification.  On the
    sample volume, opened with the passphrase "password", the split-key
    buffer is freed holding the sixteen decrypted bytes 112, the
    passphrase buffer holds the passphrase when the function returns, and
    so does the candidate key buffer its key. *)
Lemma secrets_not_zeroed_at_release :
  let r := luks2_recover_key_frame
             (sample_providers two_slots (bytes_of_string "password"))
             (sample_disk sample_primary sample_secondary 0)
             None None 0 blank_world in
  fst (value_of r) = GRUB_ERR_NONE
  /\ hd [] (freed_buffers (trace_of r)) = repeat 112 16
  /\ existsb (fun c => negb (all_zero c)) (freed_buffers (trace_of r)) = true
  /\ firstn 8 (interactive_passphrase (snd (value_of r)))
     = bytes_of_string "password"
  /\ all_zero (interactive_passphrase (snd (value_of r))) = false
  /\ candidate_key (snd (value_of r)) = [112; 112; 112; 112].
Proof.
  vm_compute. repeat split.
Qed.

(** ** C7: a keyslot of priority 0 *)

Lemma nth_error_remove_nth {A : Type} (p : nat) (xs : list A) (i : nat) :
  nth_error (remove_nth p xs) i
  = nth_error xs (if (i <? p)%nat then i else S i).
Proof.
  revert xs i. induction p as [|p IH]; intros [|x xs] i; simpl.
  - destruct i; reflexivity.
  - reflexivity.
  - destruct (i <? S p)%nat; destruct i; reflexivity.
  - destruct i as [|i]; simpl; [reflexivity|].
    rewrite IH.
    change (S i <? S p)%nat with (i <? p)%nat.
    destruct (i <? p)%nat; reflexivity.
Qed.

Lemma remove_nth_length {A : Type} (p : nat) (xs : list A) :
  (p < List.length xs)%nat ->
  List.length (remove_nth p xs) = (List.length xs - 1)%nat.
Proof.
  revert xs. induction p as [|p IH]; intros [|x xs] H; simpl in *; try lia.
  rewrite IH by lia. lia.
Qed.


Lemma getchild_remove_nth (ks : list (string * grub_json_t)) (p : nat) (i : Z) :
  grub_json_getchild (JObject (remove_nth p ks)) i
  = grub_json_getchild (JObject ks) (shift_index p i).
Proof.
  unfold grub_json_getchild, shift_index.
  destruct (i <? 0) eqn:Hneg.
  - apply Z.ltb_lt in Hneg.
    replace (i <? Z.of_nat p) with true by (symmetry; apply Z.ltb_lt; lia).
    replace (i <? 0) with true by (symmetry; apply Z.ltb_lt; lia).
    reflexivity.
  - apply Z.ltb_ge in Hneg.
    rewrite nth_error_remove_nth.
    destruct (i <? Z.of_nat p) eqn:E.
    + apply Z.ltb_lt in E.
      replace (i <? 0) with false by (symmetry; apply Z.ltb_ge; lia).
      replace (Z.to_nat i <? p)%nat with true
        by (symmetry; apply Nat.ltb_lt; lia).
      reflexivity.
    + apply Z.ltb_ge in E.
      replace (i + 1 <? 0) with false by (symmetry; apply Z.ltb_ge; lia).
      replace (Z.to_nat i <? p)%nat with false
        by (symmetry; apply Nat.ltb_ge; lia).
      replace (Z.to_nat (i + 1)) with (S (Z.to_nat i)) by lia.
      reflexivity.
Qed.

Lemma member_lookup_remove_other (ms : list (string * grub_json_t)) (p : nat)
    (name : string) :
  String.eqb name "keyslots" = false ->
  member_lookup (members_remove_keyslot ms p) name = member_lookup ms name.
Proof.
  intros Hne. induction ms as [|[k v] ms IH]; simpl; [reflexivity|].
  destruct (String.eqb k "keyslots") eqn:Ek; simpl.
  - apply String.eqb_eq in Ek. subst k.
    rewrite String.eqb_sym, Hne. reflexivity.
  - rewrite IH. reflexivity.
Qed.

Lemma member_lookup_remove_keyslots (ms ks : list (string * grub_json_t))
    (p : nat) :
  member_lookup ms "keyslots" = Some (JObject ks) ->
  member_lookup (members_remove_keyslot ms p) "keyslots"
  = Some (JObject (remove_nth p ks)).
Proof.
  induction ms as [|[k v] ms IH]; simpl; [discriminate|].
  destruct (String.eqb k "keyslots") eqn:Ek; simpl; rewrite Ek.
  - intros H. inversion H. reflexivity.
  - exact IH.
Qed.

(** Resolving the keyslot at index [i] of the reduced metadata is
    resolving the keyslot at the shifted index of the full metadata. *)
Lemma get_keyslot_removed (P : providers) (root : grub_json_t)
    (ks : list (string * grub_json_t)) (p : nat)
    (k : grub_luks2_keyslot_t) (d : grub_luks2_digest_t)
    (s : grub_luks2_segment_t) (i : Z) :
  grub_json_getvalue root "keyslots" = Some (JObject ks) ->
  luks2_get_keyslot P k d s (remove_keyslot root p) i
  = luks2_get_keyslot P k d s root (shift_index p i).
Proof.
  intros Hks. destruct root as [ms| | | |]; try discriminate Hks.
  simpl in Hks.
  unfold luks2_get_keyslot, remove_keyslot, grub_json_getvalue.
  rewrite (member_lookup_remove_keyslots ms ks p Hks), Hks.
  rewrite getchild_remove_nth.
  rewrite !(member_lookup_remove_other ms p) by reflexivity.
  reflexivity.
Qed.


Lemma scan_digests_agrees (P : providers) (digests : grub_json_t)
    (keyslot_key : Z) (n : nat) :
  forall (i : Z) (d1 d2 : grub_luks2_digest_t) (dk1 dk2 : Z) (w : world),
    scan_agrees w (scan_digests P digests keyslot_key n i d1 dk1 w)
                  (scan_digests P digests keyslot_key n i d2 dk2 w).
Proof.
  induction n as [|n IH]; intros i d1 d2 dk1 dk2 w.
  - simpl. unfold scan_agrees, pure, value_of, world_of, trace_of; simpl; repeat split; auto.
  - simpl.
    destruct (grub_json_getchild digests i) as [digest|];
      [|unfold scan_agrees, pure, value_of, world_of, trace_of; simpl; repeat split; auto].
    destruct (grub_json_getuint64 digest None) as [digest_key|];
      [|unfold scan_agrees, pure, value_of, world_of, trace_of; simpl; repeat split; auto].
    destruct (grub_json_getchild digest 0) as [digest'|];
      [|unfold scan_agrees, pure, value_of, world_of, trace_of; simpl; repeat split; auto].
    pose proof (parse_digest_agrees P d1 d2 digest' w) as Hd.
    unfold bind.
    destruct (luks2_parse_digest P d1 digest' w) as [[[e1 d1'] w1] t1].
    destruct (luks2_parse_digest P d2 digest' w) as [[[e2 d2'] w2] t2].
    unfold decoder_agrees, value_of, world_of, trace_of in Hd. simpl in Hd.
    destruct Hd as (Hw & Ht & He & Hok & _). subst w2 t2 e2.
    destruct (is_err e1) eqn:Ee.
    + unfold scan_agrees, pure, value_of, world_of, trace_of; simpl; repeat split; auto.
    + assert (e1 = GRUB_ERR_NONE) by (destruct e1; try discriminate Ee; reflexivity).
      destruct (Hok H) as (Hdd & Hw1 & Ht1). subst d2' w1 t1.
      destruct (test_bit P (dg_keyslots d1') keyslot_key).
      * unfold scan_agrees, pure, value_of, world_of, trace_of; simpl; repeat split; auto.
      * specialize (IH (i + 1) d1' d1' digest_key digest_key w).
        destruct (scan_digests P digests keyslot_key n (i + 1) d1' digest_key w)
          as [[r w'] t'].
        exact IH.
Qed.

Lemma scan_segments_agrees (P : providers) (segments : grub_json_t)
    (d : grub_luks2_digest_t) (n : nat) :
  forall (i : Z) (s1 s2 : grub_luks2_segment_t) (sk1 sk2 : Z) (w : world),
    scan_agrees w (scan_segments P segments d n i s1 sk1 w)
                  (scan_segments P segments d n i s2 sk2 w).
Proof.
  induction n as [|n IH]; intros i s1 s2 sk1 sk2 w.
  - simpl. unfold scan_agrees, pure, value_of, world_of, trace_of; simpl; repeat split; auto.
  - simpl.
    destruct (grub_json_getchild segments i) as [segment|];
      [|unfold scan_agrees, pure, value_of, world_of, trace_of; simpl; repeat split; auto].
    destruct (grub_json_getuint64 segment None) as [segment_key|];
      [|unfold scan_agrees, pure, value_of, world_of, trace_of; simpl; repeat split; auto].
    destruct (grub_json_getchild segment 0) as [segment'|];
      [|unfold scan_agrees, pure, value_of, world_of, trace_of; simpl; repeat split; auto].
    pose proof (parse_segment_agrees s1 s2 segment' w) as Hd.
    unfold bind.
    destruct (luks2_parse_segment s1 segment' w) as [[[e1 s1'] w1] t1].
    destruct (luks2_parse_segment s2 segment' w) as [[[e2 s2'] w2] t2].
    unfold decoder_agrees, value_of, world_of, trace_of in Hd. simpl in Hd.
    destruct Hd as (Hw & Ht & He & Hok & _). subst w2 t2 e2.
    destruct (is_err e1) eqn:Ee.
    + unfold scan_agrees, pure, value_of, world_of, trace_of; simpl; repeat split; auto.
    + assert (e1 = GRUB_ERR_NONE) by (destruct e1; try discriminate Ee; reflexivity).
      destruct (Hok H) as (Hdd & Hw1 & Ht1). subst s2' w1 t1.
      destruct (test_bit P (dg_segments d) segment_key).
      * unfold scan_agrees, pure, value_of, world_of, trace_of; simpl; repeat split; auto.
      * specialize (IH (i + 1) s1' s1' segment_key segment_key w).
        destruct (scan_segments P segments d n (i + 1) s1' segment_key w)
          as [[r w'] t'].
        exact IH.
Qed.


Lemma bind_result {A B : Type} (m : M A) (f : A -> M B) (w w1 : world)
    (a : A) (t1 : list event) :
  m w = (a, w1, t1) ->
  bind m f w = (value_of (f a w1), world_of (f a w1), t1 ++ trace_of (f a w1)).
Proof.
  intros E. unfold bind. rewrite E.
  destruct (f a w1) as [[b w2] t2]. reflexivity.
Qed.

Ltac resolve_leaf :=
  unfold resolve_agrees, luks2_derror, grub_error, bind, pure,
    value_of, world_of, trace_of;
  simpl; repeat split; auto; try (intros; discriminate).

Lemma get_keyslot_agrees (P : providers) (root : grub_json_t) (i : Z)
    (k1 k2 : grub_luks2_keyslot_t) (d1 d2 : grub_luks2_digest_t)
    (s1 s2 : grub_luks2_segment_t) (w : world) :
  resolve_agrees w (luks2_get_keyslot P k1 d1 s1 root i w)
                   (luks2_get_keyslot P k2 d2 s2 root i w).
Proof.
  unfold luks2_get_keyslot.
  destruct (grub_json_getvalue root "keyslots") as [keyslots|]; [|resolve_leaf].
  destruct (grub_json_getchild keyslots i) as [keyslot|]; [|resolve_leaf].
  destruct (grub_json_getuint64 keyslot None) as [keyslot_key|]; [|resolve_leaf].
  destruct (grub_json_getchild keyslot 0) as [keyslot'|]; [|resolve_leaf].
  pose proof (parse_keyslot_agrees k1 k2 keyslot' w) as Hk.
  destruct (luks2_parse_keyslot k1 keyslot' w) as [[[e1 k1'] w1] t1] eqn:E1.
  destruct (luks2_parse_keyslot k2 keyslot' w) as [[[e2 k2'] w2] t2] eqn:E2.
  rewrite (bind_result _ _ _ _ _ _ E1), (bind_result _ _ _ _ _ _ E2).
  clear E1 E2.
  unfold decoder_agrees, value_of, world_of, trace_of in Hk. simpl in Hk.
  destruct Hk as (Hw & Ht & He & Hok & _). subst w2 t2 e2.
  cbv beta iota.
  destruct (is_err e1) eqn:Ee.
  { resolve_leaf. }
  assert (He1 : e1 = GRUB_ERR_NONE)
    by (destruct e1; try discriminate Ee; reflexivity).
  destruct (Hok He1) as (Hsame & Hw1 & Ht1). subst w1 t1.
  destruct (grub_json_getvalue root "digests") as [digests|]; [|resolve_leaf].
  destruct (grub_json_getsize digests) as [dsize|]; [|resolve_leaf].
  pose proof (scan_digests_agrees P digests keyslot_key (Z.to_nat dsize)
                0 d1 d2 0 0 w) as Hd.
  destruct (scan_digests P digests keyslot_key (Z.to_nat dsize) 0 d1 0 w)
    as [[r1 wd1] td1] eqn:E1.
  destruct (scan_digests P digests keyslot_key (Z.to_nat dsize) 0 d2 0 w)
    as [[r2 wd2] td2] eqn:E2.
  rewrite (bind_result _ _ _ _ _ _ E1), (bind_result _ _ _ _ _ _ E2).
  clear E1 E2. cbv beta iota.
  unfold scan_agrees, value_of, world_of, trace_of in Hd. simpl in Hd.
  destruct Hd as (Hw & Ht & Hd). subst wd2 td2.
  destruct r1 as [d1' dk1|d1' dk1|d1']; destruct r2 as [d2' dk2|d2' dk2|d2'];
    try contradiction; try solve [resolve_leaf].
  destruct Hd as (Hdd & Hdk & Hwd & Htd). subst d2' dk2 wd1 td1.
  destruct (grub_json_getvalue root "segments") as [segments|]; [|resolve_leaf].
  destruct (grub_json_getsize segments) as [ssize|]; [|resolve_leaf].
  pose proof (scan_segments_agrees P segments d1' (Z.to_nat ssize)
                0 s1 s2 0 0 w) as Hs.
  destruct (scan_segments P segments d1' (Z.to_nat ssize) 0 s1 0 w)
    as [[q1 ws1] ts1] eqn:E1.
  destruct (scan_segments P segments d1' (Z.to_nat ssize) 0 s2 0 w)
    as [[q2 ws2] ts2] eqn:E2.
  rewrite (bind_result _ _ _ _ _ _ E1), (bind_result _ _ _ _ _ _ E2).
  clear E1 E2. cbv beta iota.
  unfold scan_agrees, value_of, world_of, trace_of in Hs. simpl in Hs.
  destruct Hs as (Hw & Ht & Hs). subst ws2 ts2.
  destruct q1 as [s1' sk1|s1' sk1|s1']; destruct q2 as [s2' sk2|s2' sk2|s2'];
    try contradiction; try solve [resolve_leaf].
  destruct Hs as (Hss & Hsk & Hws & Hts). subst s2' sk2 ws1 ts1.
  resolve_leaf; apply Hsame.
Qed.

Lemma keyslot_same_u2 (a b : grub_luks2_keyslot_t) :
  keyslot_same a b -> b = set_kdf_u2 a (kdf_u2 b).
Proof.
  intros [H _]. destruct a, b. unfold set_kdf_u2 in *. simpl in *.
  inversion H. subst. reflexivity.
Qed.

Lemma decrypt_key_ignores_u2 (P : providers) (out_key : list byte)
    (source : grub_disk) (hdr_file : option grub_file)
    (k : grub_luks2_keyslot_t) (c : cell)
    (passphrase : list byte) (passphraselen : Z) :
  luks2_decrypt_key P out_key source hdr_file (set_kdf_u2 k c)
    passphrase passphraselen
  = luks2_decrypt_key P out_key source hdr_file k passphrase passphraselen.
Proof. destruct k. reflexivity. Qed.

(** The candidate key that [luks2_decrypt_key] leaves on success does not
    depend on what the buffer held, when the conversion of a libgcrypt
    failure is a failure. *)
Lemma decrypt_key_out_independent (P : providers) (out1 out2 : list byte)
    (source : grub_disk) (hdr_file : option grub_file)
    (k : grub_luks2_keyslot_t) (passphrase : list byte) (passphraselen : Z)
    (w : world) :
  (forall c, c <> 0 -> grub_crypto_gcry_error P c <> GRUB_ERR_NONE) ->
  let r1 := luks2_decrypt_key P out1 source hdr_file k passphrase passphraselen w in
  let r2 := luks2_decrypt_key P out2 source hdr_file k passphrase passphraselen w in
  fst (value_of r1) = fst (value_of r2)
  /\ world_of r1 = world_of r2
  /\ trace_of r1 = trace_of r2
  /\ (fst (value_of r1) = GRUB_ERR_NONE -> snd (value_of r1) = snd (value_of r2)).
Proof.
  intros Hg. cbv zeta.
  change (wp (luks2_decrypt_key P out1 source hdr_file k passphrase passphraselen) w
            (fun a1 w1 t1 =>
               wp (luks2_decrypt_key P out2 source hdr_file k passphrase
                     passphraselen) w
                 (fun a2 w2 t2 =>
                    fst a1 = fst a2 /\ w1 = w2 /\ t1 = t2
                    /\ (fst a1 = GRUB_ERR_NONE -> snd a1 = snd a2)))).
  unfold luks2_decrypt_key, decrypt_key_err, grub_cryptodisk_setcipher,
    grub_cryptodisk_setkey, grub_cryptodisk_decrypt, luks2_read.
  wp_steps.
  all: simpl; repeat split; auto.
  all: try (intros; discriminate).
  all: try (intros Hn; exfalso;
            match goal with
            | H : is_err ?e = true |- _ => rewrite Hn in H; discriminate H
            | H : negb (?g =? 0) = true |- _ =>
                apply negb_true_iff, Z.eqb_neq in H; exact (Hg g H Hn)
            end).
  intros Hn. exfalso.
  match goal with
  | H : (_ =? 0) = false |- _ =>
      simpl in H; apply Z.eqb_neq in H; exact (Hg _ H Hn)
  end.
Qed.

(** Both runs of [luks2_decrypt_key], side by side. *)
Lemma decrypt_key_two_buffers (P : providers) (out1 out2 : list byte)
    (source : grub_disk) (hdr_file : option grub_file)
    (k : grub_luks2_keyslot_t) (passphrase : list byte) (passphraselen : Z)
    (w : world) :
  (forall c, c <> 0 -> grub_crypto_gcry_error P c <> GRUB_ERR_NONE) ->
  exists (e : grub_err_t) (o1 o2 : list byte) (w' : world) (t : list event),
    luks2_decrypt_key P out1 source hdr_file k passphrase passphraselen w
      = (e, o1, w', t)
    /\ luks2_decrypt_key P out2 source hdr_file k passphrase passphraselen w
       = (e, o2, w', t)
    /\ (e = GRUB_ERR_NONE -> o1 = o2).
Proof.
  intros Hg.
  pose proof (decrypt_key_out_independent P out1 out2 source hdr_file k
                passphrase passphraselen w Hg) as H.
  cbv zeta in H.
  destruct (luks2_decrypt_key P out1 source hdr_file k passphrase passphraselen w)
    as [[[e1 o1] w1] t1].
  destruct (luks2_decrypt_key P out2 source hdr_file k passphrase passphraselen w)
    as [[[e2 o2] w2] t2].
  unfold value_of, world_of, trace_of in H. simpl in H.
  destruct H as (He & Hw & Ht & Ho). subst e2 w2 t2.
  exists e1, o1, o2, w1, t1. auto.
Qed.


(** A call whose result is known takes it; any other call is named by its
    result.  The key pipeline is left to the caller. *)
Ltac wp_round :=
  wp_norm;
  cbn [priority key_size set_kdf_u2 l_candidate_key l_candidate_key_len
       l_keyslot l_digest l_segment];
  lazymatch goal with
  | |- wp (luks2_decrypt_key _ _ _ _ _ _ _) _ _ => fail
  | |- wp ?m ?w0 _ =>
      first [ wp_step
            | match goal with
              | H : m w0 = _ |- _ => eapply wp_result; [exact H|]
              end
            | apply wp_run; intros ? ? ? ? ]
  end.

Lemma trial_body_agrees (P : providers) (source : grub_disk)
    (hdr_file : option grub_file) (json1 json2 : grub_json_t)
    (passphrase : list byte) (passphrase_len : Z) (i1 i2 : Z)
    (l1 l2 : locals) (w : world) :
  (forall c, c <> 0 -> grub_crypto_gcry_error P c <> GRUB_ERR_NONE) ->
  (forall k d s,
      luks2_get_keyslot P k d s json1 i1 = luks2_get_keyslot P k d s json2 i2) ->
  round_agrees l1 l2
    (trial_body P source hdr_file json1 passphrase passphrase_len i1 l1 w)
    (trial_body P source hdr_file json2 passphrase passphrase_len i2 l2 w).
Proof.
  intros Hg Hsame.
  pose proof (get_keyslot_agrees P json2 i2 (l_keyslot l1) (l_keyslot l2)
                (l_digest l1) (l_digest l2) (l_segment l1) (l_segment l2) w) as Ha.
  destruct (luks2_get_keyslot P (l_keyslot l1) (l_digest l1) (l_segment l1)
              json2 i2 w) as [[[[[e1 k1] d1] s1] w1] t1] eqn:E1.
  destruct (luks2_get_keyslot P (l_keyslot l2) (l_digest l2) (l_segment l2)
              json2 i2 w) as [[[[[e2 k2] d2] s2] w2] t2] eqn:E2.
  unfold resolve_agrees, value_of, world_of, trace_of in Ha. simpl in Ha.
  destruct Ha as (Hw & Ht & He & Hok). subst w2 t2 e2.
  change (wp (trial_body P source hdr_file json1 passphrase passphrase_len i1 l1) w
            (fun a1 w1 _ =>
               wp (trial_body P source hdr_file json2 passphrase passphrase_len
                     i2 l2) w
                 (fun a2 w2 _ =>
                    fst a1 = fst a2 /\ w1 = w2
                    /\ (fst a1 = true ->
                        l_candidate_key_len (snd a1) = l_candidate_key_len (snd a2)
                        /\ l_candidate_key (snd a1) = l_candidate_key (snd a2)
                        /\ l_segment (snd a1) = l_segment (snd a2))
                    /\ (fst a1 = false ->
                        l_candidate_key_len (snd a1) = l_candidate_key_len l1
                        /\ l_candidate_key_len (snd a2) = l_candidate_key_len l2)))).
  unfold trial_body. rewrite Hsame.
  wp_with E1.
  destruct (is_err e1) eqn:Ee.
  { wp_steps. wp_with E2. wp_steps. simpl.
    repeat split; auto; intros; discriminate. }
  assert (He1 : e1 = GRUB_ERR_NONE)
    by (destruct e1; try discriminate Ee; reflexivity).
  destruct (Hok He1) as (Hks & Hd & Hs & Hw1 & Ht1). subst d2 s2 w1 t1.
  rewrite (keyslot_same_u2 _ _ Hks) in E2.
  destruct (priority k1 =? 0) eqn:Ep.
  { wp_steps. wp_with E2. cbn [priority set_kdf_u2]. wp_steps. simpl.
    repeat split; auto; intros; discriminate. }
  repeat wp_round.
  all: lazymatch goal with
       | |- wp (luks2_decrypt_key ?P0 ?o1 ?src ?h ?k ?pp ?pl) ?w' _ =>
           destruct (decrypt_key_two_buffers P0 o1 (l_candidate_key l2)
                       src h k pp pl w' Hg)
             as (e' & o1' & o2' & w'' & t' & Hd1 & Hd2 & Ho);
           wp_with Hd1
       end.
  all: destruct (is_err e') eqn:Ee'.
  all: try (assert (He' : e' = GRUB_ERR_NONE)
              by (destruct e'; try discriminate Ee'; reflexivity);
            specialize (Ho He'); subst o2').
  all: repeat wp_round.
  all: rewrite ?decrypt_key_ignores_u2.
  all: wp_with Hd2.
  all: repeat wp_round.
  all: simpl; repeat split; auto; intros; discriminate.
Qed.

Lemma trial_loop_run_rounds (P : providers) (source : grub_disk)
    (hdr_file : option grub_file) (json : grub_json_t)
    (passphrase : list byte) (passphrase_len : Z) (n : nat) :
  forall (i : Z) (l : locals) (w : world),
    trial_loop P source hdr_file json passphrase passphrase_len n i l w
    = run_rounds P source hdr_file json passphrase passphrase_len
        (indices n i) l w.
Proof.
  induction n as [|n IH]; intros i l w; simpl; [reflexivity|].
  unfold bind.
  destruct (trial_body P source hdr_file json passphrase passphrase_len i l w)
    as [[[stop l1] w1] t1].
  destruct stop; [reflexivity|]. rewrite IH. reflexivity.
Qed.

Lemma indices_app (a b : nat) :
  forall i, indices (a + b) i = indices a i ++ indices b (i + Z.of_nat a).
Proof.
  induction a as [|a IH]; intros i; simpl.
  - replace (i + 0) with i by lia. reflexivity.
  - rewrite IH. replace (i + 1 + Z.of_nat a) with (i + Z.pos (Pos.of_succ_nat a)) by lia.
    reflexivity.
Qed.

Lemma map_shift_below (p : nat) (a : nat) :
  forall i, 0 <= i -> i + Z.of_nat a <= Z.of_nat p ->
            map (shift_index p) (indices a i) = indices a i.
Proof.
  induction a as [|a IH]; intros i Hi Hle; simpl; [reflexivity|].
  rewrite IH by lia. unfold shift_index.
  replace (i <? Z.of_nat p) with true by (symmetry; apply Z.ltb_lt; lia).
  reflexivity.
Qed.

Lemma map_shift_above (p : nat) (a : nat) :
  forall i, Z.of_nat p <= i ->
            map (shift_index p) (indices a i) = indices a (i + 1).
Proof.
  induction a as [|a IH]; intros i Hi; simpl; [reflexivity|].
  rewrite IH by lia. unfold shift_index.
  replace (i <? Z.of_nat p) with false by (symmetry; apply Z.ltb_ge; lia).
  reflexivity.
Qed.


Lemma locals_equiv_refl (l : locals) : locals_equiv l l.
Proof. unfold locals_equiv. auto. Qed.

Lemma loop_agrees_trans (r1 r2 r3 : locals * world * list event) :
  loop_agrees r1 r2 -> loop_agrees r2 r3 -> loop_agrees r1 r3.
Proof.
  unfold loop_agrees, locals_equiv.
  intros (Hw1 & Hl1 & Hk1) (Hw2 & Hl2 & Hk2).
  split; [congruence|]. split; [congruence|].
  intros Hn. destruct (Hk1 Hn) as [A B].
  assert (Hn2 : l_candidate_key_len (value_of r2) <> 0) by congruence.
  destruct (Hk2 Hn2) as [C D]. split; congruence.
Qed.

Section RoundsAgree.

Variable P : providers.
Variable source : grub_disk.
Variable hdr_file : option grub_file.
Variable passphrase : list byte.
Variable passphrase_len : Z.
Hypothesis gcry_error_is_error :
  forall c, c <> 0 -> grub_crypto_gcry_error P c <> GRUB_ERR_NONE.

Local Notation rounds json := (run_rounds P source hdr_file json passphrase passphrase_len).
Local Notation body json := (trial_body P source hdr_file json passphrase passphrase_len).

Lemma run_rounds_agrees (json1 json2 : grub_json_t) (is1 is2 : list Z) :
  Forall2 (fun i1 i2 =>
             forall k d s,
               luks2_get_keyslot P k d s json1 i1 = luks2_get_keyslot P k d s json2 i2)
          is1 is2 ->
  forall (l1 l2 : locals) (w : world),
    l_candidate_key_len l1 = 0 -> l_candidate_key_len l2 = 0 ->
    loop_agrees (rounds json1 is1 l1 w) (rounds json2 is2 l2 w).
Proof.
  induction 1 as [|i1 i2 is1 is2 Hi Hrest IH]; intros l1 l2 w H1 H2.
  - simpl. unfold loop_agrees, locals_equiv, pure, value_of, world_of. simpl.
    repeat split; try congruence.
  - simpl.
    pose proof (trial_body_agrees P source hdr_file json1 json2 passphrase
                  passphrase_len i1 i2 l1 l2 w gcry_error_is_error Hi) as Hb.
    unfold bind.
    destruct (body json1 i1 l1 w) as [[[stop1 l1'] w1] t1].
    destruct (body json2 i2 l2 w) as [[[stop2 l2'] w2] t2].
    unfold round_agrees, value_of, world_of in Hb. simpl in Hb.
    destruct Hb as (Hs & Hw & Ht & Hf). subst stop2 w2.
    destruct stop1.
    + destruct (Ht eq_refl) as (A & B & C).
      unfold loop_agrees, locals_equiv, pure, value_of, world_of. simpl. auto.
    + destruct (Hf eq_refl) as (A & B).
      specialize (IH l1' l2' w1 ltac:(congruence) ltac:(congruence)).
      destruct (rounds json1 is1 l1' w1) as [[a1 v1] u1].
      destruct (rounds json2 is2 l2' w1) as [[a2 v2] u2].
      exact IH.
Qed.

Lemma forall2_same_index (json : grub_json_t) (idxs : list Z) :
  Forall2 (fun i1 i2 =>
             forall k d s,
               luks2_get_keyslot P k d s json i1 = luks2_get_keyslot P k d s json i2)
          idxs idxs.
Proof. induction idxs; constructor; auto. Qed.

(** A round that only says it ignores its keyslot can be left out. *)
Lemma run_rounds_skip (json : grub_json_t) (p : Z) (before after : list Z) :
  (forall l w, exists l' t,
      body json p l w = (false, l', w, t)) ->
  forall (l : locals) (w : world),
    l_candidate_key_len l = 0 ->
    loop_agrees (rounds json (before ++ p :: after) l w)
                (rounds json (before ++ after) l w).
Proof.
  intros Hp. induction before as [|i before IH]; intros l w Hl; simpl.
  - destruct (Hp l w) as (l' & t & Hb).
    unfold bind. rewrite Hb.
    pose proof (run_rounds_agrees json json after after
                  (forall2_same_index json after) l' l w
                  ltac:(rewrite (trial_body_continue _ _ _ _ _ _ _ _ _ _ _ _ Hb); exact Hl)
                  Hl) as H.
    destruct (rounds json after l' w) as [[a1 v1] u1].
    destruct (rounds json after l w) as [[a2 v2] u2].
    exact H.
  - unfold bind.
    destruct (body json i l w) as [[[stop l1] w1] t1] eqn:Eb.
    destruct stop.
    + unfold loop_agrees, pure, value_of, world_of. simpl.
      split; [reflexivity|apply locals_equiv_refl].
    + pose proof (trial_body_continue _ _ _ _ _ _ _ _ _ _ _ _ Eb) as Hc.
      specialize (IH l1 w1 ltac:(congruence)).
      destruct (rounds json (before ++ p :: after) l1 w1) as [[a1 v1] u1].
      destruct (rounds json (before ++ after) l1 w1) as [[a2 v2] u2].
      exact IH.
Qed.

End RoundsAgree.

Lemma recover_key_finish_agrees (P : providers) (json_header buf : list byte)
    (l1 l2 : locals) (w : world) :
  locals_equiv l1 l2 ->
  fst (value_of (recover_key_finish P json_header buf l1 w))
  = fst (value_of (recover_key_finish P json_header buf l2 w))
  /\ world_of (recover_key_finish P json_header buf l1 w)
     = world_of (recover_key_finish P json_header buf l2 w).
Proof.
  intros (Hlen & Hrest). unfold recover_key_finish. rewrite <- Hlen.
  destruct (l_candidate_key_len l1 =? 0) eqn:E.
  - split; reflexivity.
  - apply Z.eqb_neq in E. destruct (Hrest E) as (Hk & Hs).
    rewrite <- Hk, <- Hs.
    destruct (split_dash (string_firstn 32 (seg_encryption (l_segment l1))))
      as [[c md]|]; [|split; reflexivity].
    unfold bind.
    destruct (grub_cryptodisk_setcipher P c md w) as [[e w1] t1].
    destruct (is_err e); [split; reflexivity|].
    destruct (grub_cryptodisk_setkey P (l_candidate_key l1)
                (l_candidate_key_len l1) w1) as [[g w2] t2].
    destruct (negb (g =? 0)); split; reflexivity.
Qed.

Lemma forall2_shifted (P : providers) (root : grub_json_t)
    (ks : list (string * grub_json_t)) (p : nat) (idxs : list Z) :
  grub_json_getvalue root "keyslots" = Some (JObject ks) ->
  Forall2 (fun i1 i2 =>
             forall k d s,
               luks2_get_keyslot P k d s root i1
               = luks2_get_keyslot P k d s (remove_keyslot root p) i2)
          (map (shift_index p) idxs) idxs.
Proof.
  intros Hks. induction idxs as [|i idxs IH]; simpl; constructor; auto.
  intros k d s. symmetry. apply (get_keyslot_removed P root ks p k d s i Hks).
Qed.

Section PriorityZero.

Variable P : providers.
Variable source : grub_disk.
Variable hdr_file : option grub_file.
Variable root : grub_json_t.
Variable ks : list (string * grub_json_t).
Variable p : nat.

Hypothesis gcry_error_is_error :
  forall c, c <> 0 -> grub_crypto_gcry_error P c <> GRUB_ERR_NONE.
Hypothesis root_keyslots : grub_json_getvalue root "keyslots" = Some (JObject ks).
Hypothesis p_in_range : (p < List.length ks)%nat.
Hypothesis priority_zero :
  forall k d s w0, exists k' d' s',
    value_of (luks2_get_keyslot P k d s root (Z.of_nat p) w0)
    = (GRUB_ERR_NONE, k', d', s')
    /\ priority k' = 0.

Lemma trial_body_priority_zero (passphrase : list byte) (passphrase_len : Z)
    (l : locals) (w : world) :
  exists k' d' s',
    trial_body P source hdr_file root passphrase passphrase_len (Z.of_nat p) l w
    = (false,
       mk_locals k' d' s' (l_candidate_key l) (l_candidate_key_len l) GRUB_ERR_NONE,
       w, [EvDprintf "Ignoring keyslot %lu due to priority\n" [Z.of_nat p]]).
Proof.
  destruct (priority_zero (l_keyslot l) (l_digest l) (l_segment l) w)
    as (k' & d' & s' & Hv & Hp).
  pose proof (get_keyslot_agrees P root (Z.of_nat p) (l_keyslot l) (l_keyslot l)
                (l_digest l) (l_digest l) (l_segment l) (l_segment l) w) as Ha.
  destruct (luks2_get_keyslot P (l_keyslot l) (l_digest l) (l_segment l) root
              (Z.of_nat p) w) as [[[[[e k] d] s] w1] t1] eqn:E.
  unfold resolve_agrees, value_of, world_of, trace_of in Ha, Hv. simpl in Ha, Hv.
  inversion Hv; subst e k d s.
  destruct Ha as (_ & _ & _ & Hok).
  destruct (Hok eq_refl) as (_ & _ & _ & Hw & Ht). subst w1 t1.
  exists k', d', s'.
  unfold trial_body. rewrite (bind_result _ _ _ _ _ _ E).
  cbv beta iota zeta. cbn [is_err]. rewrite Hp. simpl (0 =? 0).
  reflexivity.
Qed.

Lemma recover_key_trials_without_keyslot (json_header buf passphrase : list byte)
    (passphrase_len : Z) (w : world) :
  let r := recover_key_trials P source hdr_file json_header root buf
             passphrase passphrase_len w in
  let r' := recover_key_trials P source hdr_file json_header
              (remove_keyslot root p) buf passphrase passphrase_len w in
  fst (value_of r) = fst (value_of r') /\ world_of r = world_of r'.
Proof.
  cbv zeta.
  assert (Hks' : grub_json_getvalue (remove_keyslot root p) "keyslots"
                 = Some (JObject (remove_nth p ks))).
  { pose proof root_keyslots as Hks.
    destruct root as [ms| | | |]; try discriminate Hks.
    simpl in *. apply member_lookup_remove_keyslots. exact Hks. }
  unfold recover_key_trials. rewrite root_keyslots, Hks'.
  cbn [grub_json_getsize]. rewrite remove_nth_length by exact p_in_range.
  rewrite !Nat2Z.id.
  set (n := List.length ks) in *.
  assert (Hloop :
            loop_agrees
              (trial_loop P source hdr_file root passphrase passphrase_len
                 n 0 (initial_locals P) w)
              (trial_loop P source hdr_file (remove_keyslot root p) passphrase
                 passphrase_len (n - 1) 0 (initial_locals P) w)).
  { rewrite !trial_loop_run_rounds.
    replace n with (p + S (n - 1 - p))%nat at 1 by lia.
    rewrite indices_app. cbn [indices].
    replace (0 + Z.of_nat p) with (Z.of_nat p) by lia.
    eapply loop_agrees_trans.
    - apply (run_rounds_skip P source hdr_file passphrase passphrase_len
               gcry_error_is_error root (Z.of_nat p)).
      + intros l0 w0.
        destruct (trial_body_priority_zero passphrase passphrase_len l0 w0)
          as (k' & d' & s' & Hb).
        eexists. eexists. exact Hb.
      + reflexivity.
    - assert (Hidx : indices p 0 ++ indices (n - 1 - p) (Z.of_nat p + 1)
                     = map (shift_index p) (indices (n - 1) 0)).
      { replace (n - 1)%nat with (p + (n - 1 - p))%nat at 2 by lia.
        rewrite indices_app, map_app.
        rewrite map_shift_below by lia.
        rewrite map_shift_above by lia.
        replace (0 + Z.of_nat p + 1) with (Z.of_nat p + 1) by lia.
        reflexivity. }
      rewrite Hidx.
      apply (run_rounds_agrees P source hdr_file passphrase passphrase_len
               gcry_error_is_error root (remove_keyslot root p)).
      + apply (forall2_shifted P root ks p _ root_keyslots).
      + reflexivity.
      + reflexivity. }
  unfold bind.
  destruct (trial_loop P source hdr_file root passphrase passphrase_len
              n 0 (initial_locals P) w) as [[l1 w1] t1].
  destruct (trial_loop P source hdr_file (remove_keyslot root p) passphrase
              passphrase_len (n - 1) 0 (initial_locals P) w) as [[l2 w2] t2].
  unfold loop_agrees, value_of, world_of in Hloop. simpl in Hloop.
  destruct Hloop as (Hw & Hl). subst w2.
  pose proof (recover_key_finish_agrees P json_header buf l1 l2 w1 Hl) as Hf.
  destruct (recover_key_finish P json_header buf l1 w1) as [[a1 v1] u1].
  destruct (recover_key_finish P json_header buf l2 w1) as [[a2 v2] u2].
  exact Hf.
Qed.

End PriorityZero.

(** C7.  Let the keyslot at position [p] of the metadata resolve with a
    parsed priority of 0 (and let the conversion of a libgcrypt failure be
    a failure).  Then its round of the trial loop does nothing but say
    that it ignores the keyslot: no decoding of a salt, no key derivation,
    no cipher or key set up, no read, no decryption, no merge and no
    verification, and the state and the candidate key stay as they were.
    And the unlock attempt on the parsed metadata returns the same status
    and leaves the same state as the attempt on the metadata without that
    keyslot entry. *)
Theorem priority_zero_keyslot_is_skipped (P : providers) (source : grub_disk)
    (hdr_file : option grub_file) (key : option (list byte)) (keyfile_size : Z)
    (json_header : list byte) (root : grub_json_t)
    (ks : list (string * grub_json_t)) (p : nat) :
  (forall c, c <> 0 -> grub_crypto_gcry_error P c <> GRUB_ERR_NONE) ->
  grub_json_getvalue root "keyslots" = Some (JObject ks) ->
  (p < List.length ks)%nat ->
  (forall k d s w0, exists k' d' s',
      value_of (luks2_get_keyslot P k d s root (Z.of_nat p) w0)
      = (GRUB_ERR_NONE, k', d', s')
      /\ priority k' = 0) ->
  (forall (passphrase : list byte) (passphrase_len : Z) (l : locals) (w : world),
      let r := trial_body P source hdr_file root passphrase passphrase_len
                 (Z.of_nat p) l w in
      fst (value_of r) = false
      /\ world_of r = w
      /\ trace_of r = [EvDprintf "Ignoring keyslot %lu due to priority\n" [Z.of_nat p]]
      /\ existsb is_attempt_event (trace_of r) = false
      /\ l_candidate_key (snd (value_of r)) = l_candidate_key l
      /\ l_candidate_key_len (snd (value_of r)) = l_candidate_key_len l)
  /\ (forall (w : world),
         let r := recover_key_with_json P source hdr_file key keyfile_size
                    json_header root w in
         let r' := recover_key_with_json P source hdr_file key keyfile_size
                     json_header (remove_keyslot root p) w in
         fst (value_of r) = fst (value_of r')
         /\ crypt (world_of r) = crypt (world_of r')
         /\ grub_errno (world_of r) = grub_errno (world_of r')).
Proof.
  intros Hg Hks Hp Hprio. split.
  - intros passphrase passphrase_len l w. cbv zeta.
    destruct (trial_body_priority_zero P source hdr_file root p Hprio
                passphrase passphrase_len l w) as (k' & d' & s' & Hb).
    rewrite Hb. unfold value_of, world_of, trace_of. simpl. auto 10.
  - intros w. cbv zeta.
    assert (Ht : forall buf passphrase passphrase_len w0,
               fst (value_of (recover_key_trials P source hdr_file json_header
                                root buf passphrase passphrase_len w0))
               = fst (value_of (recover_key_trials P source hdr_file json_header
                                  (remove_keyslot root p) buf passphrase
                                  passphrase_len w0))
               /\ world_of (recover_key_trials P source hdr_file json_header
                             root buf passphrase passphrase_len w0)
                  = world_of (recover_key_trials P source hdr_file json_header
                                (remove_keyslot root p) buf passphrase
                                passphrase_len w0)).
    { intros. apply (recover_key_trials_without_keyslot P source hdr_file root
                       ks p Hg Hks Hp Hprio). }
    unfold recover_key_with_json.
    destruct key as [kb|].
    + destruct (Ht (repeat 0 (Z.to_nat MAX_PASSPHRASE)) kb keyfile_size w)
        as (A & B).
      rewrite A, B. auto.
    + unfold bind, grub_printf_, emit.
      destruct (grub_password_get P) as [supplied typed].
      destruct supplied; cbn [negb].
      * match goal with
        | |- context [recover_key_trials P source hdr_file json_header root
                        ?b ?pp ?pl ?w0] =>
            destruct (Ht b pp pl w0) as (A & B);
            destruct (recover_key_trials P source hdr_file json_header root
                        b pp pl w0) as [[a1 v1] u1];
            destruct (recover_key_trials P source hdr_file json_header
                        (remove_keyslot root p) b pp pl w0) as [[a2 v2] u2]
        end.
        unfold value_of, world_of in *. simpl in *. subst. auto.
      * unfold value_of, world_of. simpl. auto.
Qed.

(** ** The statements at work on the sample volume *)

Lemma read_header_selection_witness :
  value_of (luks2_read_header (sample_providers two_slots [])
              (sample_disk damaged_primary sample_secondary 0) None []
              blank_world)
  = (GRUB_ERR_BAD_SIGNATURE, [])
  /\ snd (value_of (luks2_read_header (sample_providers two_slots [])
                      (sample_disk sample_primary newer_secondary 0) None []
                      blank_world))
     = newer_secondary.
Proof.
  split.
  - refine (proj1 (proj1 (read_header_selection (sample_providers two_slots [])
                     (sample_disk damaged_primary sample_secondary 0) None []
                     blank_world blank_world damaged_primary
                     [EvDiskRead 0 4096] _) _)).
    + vm_compute. reflexivity.
    + unfold valid_header. vm_compute. intros [H _]. discriminate H.
  - refine (proj1 (proj2 (proj2 (proj2 (read_header_selection
                     (sample_providers two_slots [])
                     (sample_disk sample_primary newer_secondary 0) None []
                     blank_world blank_world sample_primary
                     [EvDiskRead 0 4096] _) newer_secondary blank_world
                     [EvDiskRead 16384 4096] _ _ _))) _).
    + vm_compute. reflexivity.
    + unfold valid_header. vm_compute. split; reflexivity.
    + vm_compute. reflexivity.
    + unfold valid_header. vm_compute. split; reflexivity.
    + vm_compute. reflexivity.
Defined.

Lemma decrypt_key_sector_size_witness :
  In (EvDecrypt 16 0 9)
    (trace_of (luks2_decrypt_key
                 (sample_providers two_slots []) []
                 (sample_disk sample_primary sample_secondary 0) None
                 sample_keyslot_record (bytes_of_string "password") 8
                 (set_crypt blank_world
                    (set_cd_log_sector_size (crypt blank_world) 12)))).
Proof.
  refine (proj1 (proj2 (decrypt_key_sector_size
                          (sample_providers two_slots []) []
                          (sample_disk sample_primary sample_secondary 0) None
                          sample_keyslot_record (bytes_of_string "password") 8
                          blank_world 12)) _).
  vm_compute. tauto.
Defined.

Lemma no_nul_check (buf : list byte) :
  forallb (fun b => negb (b =? 0)) buf = true -> forall b, In b buf -> b <> 0.
Proof.
  intros H b Hin Hb. rewrite forallb_forall in H.
  specialize (H b Hin). subst b. discriminate H.
Qed.

Lemma unterminated_json_witness :
  value_of (luks2_recover_key (sample_providers two_slots [])
              (sample_disk short_primary short_secondary 1) None None 0
              blank_world)
  = GRUB_ERR_NONE.
Proof.
  refine (proj1 (unterminated_json_returns_without_error
                   (sample_providers two_slots [])
                   (sample_disk short_primary short_secondary 1) None None 0
                   blank_world blank_world blank_world
                   short_primary (repeat 1 16)
                   [EvDiskRead 0 4096; EvDiskRead 4112 4096]
                   [EvDiskRead 4096 16] _ _ _ _)).
  - vm_compute. reflexivity.
  - vm_compute. reflexivity.
  - vm_compute. reflexivity.
  - apply no_nul_check. vm_compute. reflexivity.
Defined.

Lemma json_parse_length_witness :
  exists (allocated declared : Z) (rest : list event),
    trace_of (luks2_recover_key (sample_providers two_slots [])
                (sample_disk short_primary short_secondary 0) None None 0
                blank_world)
    = [EvDiskRead 0 4096; EvDiskRead 4112 4096]
        ++ EvZalloc allocated :: [EvDiskRead 4096 16]
        ++ EvJsonParse allocated declared :: rest
    /\ allocated = hdr_size short_primary - 4096
    /\ declared = hdr_size short_primary
    /\ declared = allocated + 4096.
Proof.
  refine (json_parse_length_exceeds_buffer
            (sample_providers two_slots [])
            (sample_disk short_primary short_secondary 0) None None 0
            blank_world blank_world blank_world
            short_primary (repeat 0 16)
            [EvDiskRead 0 4096; EvDiskRead 4112 4096]
            [EvDiskRead 4096 16] _ _ _ _ _ _).
  - vm_compute. reflexivity.
  - vm_compute. split; reflexivity.
  - vm_compute. reflexivity.
  - vm_compute. reflexivity.
  - vm_compute. reflexivity.
  - vm_compute. reflexivity.
Defined.

Lemma all_trials_fail_witness :
  value_of (luks2_recover_key
              (sample_providers two_slots (bytes_of_string "wrong"))
              (sample_disk short_primary short_secondary 0) None None 0
              blank_world)
  = GRUB_ERR_ACCESS_DENIED.
Proof.
  pose (P := sample_providers two_slots (bytes_of_string "wrong")).
  pose (D := sample_disk short_primary short_secondary 0).
  pose (rounds := failed_rounds P D None two_slots (passphrase_bytes P None)
                    (passphrase_length P None 0) 2 0 (initial_locals P)
                    blank_world).
  pose (ln := match rounds with Some (l, _, _) => l | None => initial_locals P end).
  pose (wn := match rounds with Some (_, w, _) => w | None => blank_world end).
  pose (tn := match rounds with Some (_, _, t) => t | None => [] end).
  assert (Hpre : json_area_parsed P D None blank_world short_primary
                   (repeat 0 16) two_slots blank_world
                   ([EvDiskRead 0 4096; EvDiskRead 4112 4096]
                      ++ EvZalloc 16 :: [EvDiskRead 4096 16]
                      ++ [EvJsonParse 16 4112])).
  { exists blank_world, [EvDiskRead 0 4096; EvDiskRead 4112 4096],
      [EvDiskRead 4096 16].
    repeat split; vm_compute; reflexivity. }
  assert (Hs : passphrase_supplied P None = true) by reflexivity.
  assert (Hks : grub_json_getvalue two_slots "keyslots"
                = Some (JObject [("0", sample_keyslot [] sample_kdf_pbkdf2);
                                 ("1", sample_keyslot [] sample_kdf_pbkdf2)]))
    by reflexivity.
  assert (Hsize : grub_json_getsize
                    (JObject [("0", sample_keyslot [] sample_kdf_pbkdf2);
                              ("1", sample_keyslot [] sample_kdf_pbkdf2)])
                  = Some 2) by reflexivity.
  assert (Hf : failed_rounds P D None two_slots (passphrase_bytes P None)
                 (passphrase_length P None 0) (Z.to_nat 2) 0 (initial_locals P)
                 blank_world = Some (ln, wn, tn))
    by (vm_compute; reflexivity).
  exact (proj1 (all_trials_fail_access_denied P D None None 0
                  blank_world blank_world wn short_primary (repeat 0 16)
                  two_slots _ 2 ln _ tn Hpre Hs Hks Hsize Hf)).
Defined.

Lemma priority_zero_witness :
  fst (value_of (recover_key_with_json
                   (sample_providers priority_zero_first [])
                   (sample_disk sample_primary sample_secondary 0) None
                   (Some (bytes_of_string "password")) 8 []
                   priority_zero_first blank_world))
  = fst (value_of (recover_key_with_json
                     (sample_providers priority_zero_first [])
                     (sample_disk sample_primary sample_secondary 0) None
                     (Some (bytes_of_string "password")) 8 []
                     (remove_keyslot priority_zero_first 0) blank_world)).
Proof.
  refine (proj1 (proj2 (priority_zero_keyslot_is_skipped
                          (sample_providers priority_zero_first [])
                          (sample_disk sample_primary sample_secondary 0) None
                          (Some (bytes_of_string "password")) 8 []
                          priority_zero_first
                          [("0", sample_keyslot [("priority", JPrimitive "0")]
                                   sample_kdf_pbkdf2);
                           ("1", sample_keyslot [] sample_kdf_pbkdf2)]
                          0 _ _ _ _) blank_world)).
  - intros c _. discriminate.
  - reflexivity.
  - simpl. lia.
  - intros k d s w0.
    exists (snd (fst (fst (value_of
              (luks2_get_keyslot (sample_providers priority_zero_first [])
                 k d s priority_zero_first (Z.of_nat 0) w0))))),
      (snd (fst (value_of
              (luks2_get_keyslot (sample_providers priority_zero_first [])
                 k d s priority_zero_first (Z.of_nat 0) w0)))),
      (snd (value_of
              (luks2_get_keyslot (sample_providers priority_zero_first [])
                 k d s priority_zero_first (Z.of_nat 0) w0))).
    split; vm_compute; reflexivity.
Defined.

(* ================================================================== *)
(** * Further properties of the code *)

Lemma getchild_array_app (pre items : list grub_json_t) (x : grub_json_t) :
  grub_json_getchild (JArray (pre ++ x :: items)) (Z.of_nat (List.length pre)) = Some x.
Proof.
  unfold grub_json_getchild.
  destruct (Z.of_nat (List.length pre) <? 0) eqn:E; [apply Z.ltb_lt in E; lia|].
  rewrite Nat2Z.id, nth_error_app2 by lia. rewrite Nat.sub_diag. reflexivity.
Qed.

Lemma collect_bits_low (P : providers) (items : list grub_json_t) (bits : list Z) :
  Forall2 (fun it b => grub_json_getuint64 it None = Some b /\ 0 <= b < 31) items bits ->
  forall (pre : list grub_json_t) (mask : Z),
    collect_bits P (JArray (pre ++ items)) (List.length items)
      (Z.of_nat (List.length pre)) mask
    = (false, fold_left (fun m b => Z.lor m (2 ^ b)) bits mask).
Proof.
  induction 1 as [|x b items bits [Hx Hb] _ IH]; intros pre mask; simpl.
  - reflexivity.
  - rewrite getchild_array_app, Hx.
    unfold or_bit. rewrite int_shift_low_bit by lia.
    specialize (IH (pre ++ [x]) (Z.lor mask (2 ^ b))).
    rewrite <- app_assoc in IH. simpl in IH.
    rewrite length_app in IH. simpl in IH.
    replace (Z.of_nat (List.length pre + 1)) with (Z.of_nat (List.length pre) + 1) in IH by lia.
    exact IH.
Qed.

Lemma land_pow2_zero (m b : Z) :
  0 <= b -> (Z.land m (2 ^ b) =? 0) = negb (Z.testbit m b).
Proof.
  intros Hb. destruct (Z.testbit m b) eqn:E; simpl.
  - apply Z.eqb_neq. intros H0.
    assert (Ht : Z.testbit (Z.land m (2 ^ b)) b = true).
    { rewrite Z.land_spec, E, Z.pow2_bits_true by lia. reflexivity. }
    rewrite H0, Z.bits_0 in Ht. discriminate.
  - apply Z.eqb_eq. apply Z.bits_inj'. intros n Hn.
    rewrite Z.land_spec, Z.bits_0, Z.pow2_bits_eqb by lia.
    destruct (Z.eqb_spec b n) as [->|]; [rewrite E|]; auto using andb_false_r.
Qed.

Lemma test_bit_low (P : providers) (mask b : Z) :
  0 <= b < 31 -> test_bit P mask b = Z.testbit mask b.
Proof.
  intros Hb. unfold test_bit. rewrite int_shift_low_bit by lia.
  rewrite land_pow2_zero by lia. apply negb_involutive.
Qed.

Lemma fold_lor_testbit (bits : list Z) :
  Forall (fun b => 0 <= b) bits ->
  forall (mask b : Z), 0 <= b ->
    Z.testbit (fold_left (fun m x => Z.lor m (2 ^ x)) bits mask) b
    = Z.testbit mask b || existsb (Z.eqb b) bits.
Proof.
  induction 1 as [|x bits Hx _ IH]; intros mask b Hb; simpl.
  - rewrite orb_false_r. reflexivity.
  - rewrite IH by lia. rewrite Z.lor_spec, Z.pow2_bits_eqb by lia.
    rewrite (Z.eqb_sym x b). rewrite orb_assoc. reflexivity.
Qed.

Lemma existsb_eqb_in (b : Z) (bits : list Z) :
  existsb (Z.eqb b) bits = true <-> In b bits.
Proof.
  rewrite existsb_exists. split.
  - intros [x [Hin Hx]]. apply Z.eqb_eq in Hx. subst. exact Hin.
  - intros Hin. exists b. split; [exact Hin|apply Z.eqb_refl].
Qed.

Lemma forall2_nonneg (items : list grub_json_t) (bits : list Z) :
  Forall2 (fun it b => grub_json_getuint64 it None = Some b /\ 0 <= b < 31) items bits ->
  Forall (fun b => 0 <= b) bits.
Proof. induction 1 as [|x b items bits [_ Hb] _ IH]; constructor; auto; lia. Qed.

Lemma forall2_length {A B : Type} (R : A -> B -> Prop) (xs : list A) (ys : list B) :
  Forall2 R xs ys -> List.length xs = List.length ys.
Proof. induction 1; simpl; auto. Qed.

(** X1.  For a digest whose [keyslots] and [segments] arrays hold numbers
    below 31, the two masks that [luks2_parse_digest] builds are the
    bitwise OR of the single bits, and a bit below 31 tests as set exactly
    when its number is in the array. *)
Theorem parse_digest_low_bitmaps (P : providers) (out d' : grub_luks2_digest_t)
    (digest : grub_json_t) (w : world)
    (keyslots segments : list grub_json_t) (kbits sbits : list Z) :
  grub_json_getvalue digest "keyslots" = Some (JArray keyslots) ->
  grub_json_getvalue digest "segments" = Some (JArray segments) ->
  Forall2 (fun it b => grub_json_getuint64 it None = Some b /\ 0 <= b < 31)
    keyslots kbits ->
  Forall2 (fun it b => grub_json_getuint64 it None = Some b /\ 0 <= b < 31)
    segments sbits ->
  value_of (luks2_parse_digest P out digest w) = (GRUB_ERR_NONE, d') ->
  dg_keyslots d' = fold_left (fun m b => Z.lor m (2 ^ b)) kbits 0
  /\ dg_segments d' = fold_left (fun m b => Z.lor m (2 ^ b)) sbits 0
  /\ (forall b, 0 <= b < 31 ->
        (test_bit P (dg_keyslots d') b = true <-> In b kbits)
        /\ (test_bit P (dg_segments d') b = true <-> In b sbits)).
Proof.
  intros Hk Hs Hkb Hsb Hrun.
  pose proof (collect_bits_low P keyslots kbits Hkb [] 0) as Ck.
  pose proof (collect_bits_low P segments sbits Hsb [] 0) as Cs.
  simpl in Ck, Cs.
  assert (Hd : dg_keyslots d' = fold_left (fun m b => Z.lor m (2 ^ b)) kbits 0
               /\ dg_segments d' = fold_left (fun m b => Z.lor m (2 ^ b)) sbits 0).
  { revert Hrun. unfold luks2_parse_digest. rewrite Hk, Hs.
    unfold grub_json_getsize. rewrite !Nat2Z.id.
    cbn [dg_segments dg_keyslots set_dg_segments set_dg_keyslots].
    run_decoder; try (intros Hrun; discriminate Hrun).
    all: cbn [dg_segments dg_keyslots set_dg_segments set_dg_keyslots].
    all: rewrite ?Cs; simpl; rewrite ?Ck; simpl.
    all: intros Hrun; inversion Hrun; subst; simpl; auto. }
  destruct Hd as [Hdk Hds]. split; [exact Hdk|]. split; [exact Hds|].
  intros b Hb. rewrite !test_bit_low by lia. rewrite Hdk, Hds.
  rewrite !fold_lor_testbit by (eauto using forall2_nonneg; lia).
  rewrite Z.bits_0. simpl. rewrite !existsb_eqb_in. tauto.
Qed.

(** ** What an accepted keyslot object holds *)

Lemma strcmp_false (a b : string) : grub_strcmp a b = false -> a = b.
Proof.
  unfold grub_strcmp. intros H. apply negb_false_iff in H.
  apply String.eqb_eq. exact H.
Qed.

(** X2.  Every keyslot object that [luks2_parse_keyslot] accepts has the
    type "luks2", a raw area, a luks1 splitter and a PBKDF2 or Argon2 key
    derivation, and each field of the record holds the value of the member
    it is named after; the priority of an object without one is 1. *)
Theorem accepted_keyslot_fields (out k' : grub_luks2_keyslot_t)
    (keyslot : grub_json_t) (w : world) :
  value_of (luks2_parse_keyslot out keyslot w) = (GRUB_ERR_NONE, k') ->
  grub_json_getstring keyslot (Some "type") = Some "luks2"
  /\ grub_json_getint64 keyslot (Some "key_size") = Some (key_size k')
  /\ priority k' = match grub_json_getint64 keyslot (Some "priority") with
                   | Some v => v
                   | None => 1
                   end
  /\ exists area kdf af : grub_json_t,
       grub_json_getvalue keyslot "area" = Some area
       /\ grub_json_getstring area (Some "type") = Some "raw"
       /\ grub_json_getuint64 area (Some "offset") = Some (area_offset k')
       /\ grub_json_getuint64 area (Some "size") = Some (area_size k')
       /\ grub_json_getstring area (Some "encryption") = Some (area_encryption k')
       /\ grub_json_getint64 area (Some "key_size") = Some (area_key_size k')
       /\ grub_json_getvalue keyslot "kdf" = Some kdf
       /\ grub_json_getstring kdf (Some "salt") = Some (kdf_salt k')
       /\ ((kdf_type k' = LUKS2_KDF_TYPE_PBKDF2
            /\ grub_json_getstring kdf (Some "type") = Some "pbkdf2"
            /\ grub_json_getstring kdf (Some "hash") = Some (pbkdf2_hash k')
            /\ grub_json_getint64 kdf (Some "iterations")
               = Some (pbkdf2_iterations k'))
           \/ (kdf_type k' = LUKS2_KDF_TYPE_ARGON2I
               /\ (grub_json_getstring kdf (Some "type") = Some "argon2i"
                   \/ grub_json_getstring kdf (Some "type") = Some "argon2id")
               /\ option_map CInt (grub_json_getint64 kdf (Some "time"))
                  = Some (kdf_u0 k')
               /\ option_map CInt (grub_json_getint64 kdf (Some "memory"))
                  = Some (kdf_u1 k')
               /\ option_map CInt (grub_json_getint64 kdf (Some "cpus"))
                  = Some (kdf_u2 k')))
       /\ grub_json_getvalue keyslot "af" = Some af
       /\ grub_json_getstring af (Some "type") = Some "luks1"
       /\ grub_json_getint64 af (Some "stripes") = Some (af_stripes k')
       /\ grub_json_getstring af (Some "hash") = Some (af_hash k').
Proof.
  unfold luks2_parse_keyslot.
  destruct (grub_json_getstring keyslot (Some "type")) as [type|] eqn:Et;
    [|intros H; discriminate H].
  destruct (grub_strcmp type "luks2") eqn:Etype; [intros H; discriminate H|].
  apply strcmp_false in Etype. subst type.
  destruct (grub_json_getint64 keyslot (Some "key_size")) as [ks|] eqn:Eks;
    [|intros H; discriminate H].
  unfold into at 1. cbv beta iota.
  destruct (grub_json_getvalue keyslot "area") as [area|] eqn:Earea;
    [|intros H; discriminate H].
  destruct (grub_json_getstring area (Some "type")) as [atype|] eqn:Eat;
    [|intros H; discriminate H].
  destruct (grub_strcmp atype "raw") eqn:Eatype; [intros H; discriminate H|].
  apply strcmp_false in Eatype. subst atype.
  destruct (grub_json_getuint64 area (Some "offset")) as [ao|] eqn:Eao;
    [|intros H; discriminate H].
  destruct (grub_json_getuint64 area (Some "size")) as [asz|] eqn:Easz;
    [|intros H; discriminate H].
  destruct (grub_json_getstring area (Some "encryption")) as [aenc|] eqn:Eaenc;
    [|intros H; discriminate H].
  destruct (grub_json_getint64 area (Some "key_size")) as [aks|] eqn:Eaks;
    [|intros H; discriminate H].
  unfold into, orelse. cbv beta iota.
  destruct (grub_json_getvalue keyslot "kdf") as [kdf|] eqn:Ekdf;
    [|intros H; discriminate H].
  destruct (grub_json_getstring kdf (Some "type")) as [ktype|] eqn:Ekt;
    [|intros H; discriminate H].
  destruct (grub_json_getstring kdf (Some "salt")) as [salt|] eqn:Esalt;
    [|intros H; discriminate H].
  cbv beta iota.
  destruct (grub_json_getvalue keyslot "af") as [af|] eqn:Eaf.
  2: { destruct (negb (grub_strcmp ktype "argon2i")
                 || negb (grub_strcmp ktype "argon2id")).
       - run_decoder; intros H; discriminate H.
       - destruct (negb (grub_strcmp ktype "pbkdf2"));
           run_decoder; intros H; discriminate H. }
  destruct (grub_json_getstring af (Some "type")) as [aft|] eqn:Eaft.
  2: { destruct (negb (grub_strcmp ktype "argon2i")
                 || negb (grub_strcmp ktype "argon2id")).
       - run_decoder; intros H; discriminate H.
       - destruct (negb (grub_strcmp ktype "pbkdf2"));
           run_decoder; intros H; discriminate H. }
  destruct (grub_strcmp aft "luks1") eqn:Eaftype.
  { destruct (negb (grub_strcmp ktype "argon2i")
              || negb (grub_strcmp ktype "argon2id")).
    - run_decoder; intros H; discriminate H.
    - destruct (negb (grub_strcmp ktype "pbkdf2"));
        run_decoder; intros H; discriminate H. }
  apply strcmp_false in Eaftype. subst aft.
  destruct (grub_json_getint64 af (Some "stripes")) as [stripes|] eqn:Est.
  2: { destruct (negb (grub_strcmp ktype "argon2i")
                 || negb (grub_strcmp ktype "argon2id")).
       - run_decoder; intros H; discriminate H.
       - destruct (negb (grub_strcmp ktype "pbkdf2"));
           run_decoder; intros H; discriminate H. }
  destruct (grub_json_getstring af (Some "hash")) as [afh|] eqn:Eafh.
  2: { destruct (negb (grub_strcmp ktype "argon2i")
                 || negb (grub_strcmp ktype "argon2id")).
       - run_decoder; intros H; discriminate H.
       - destruct (negb (grub_strcmp ktype "pbkdf2"));
           run_decoder; intros H; discriminate H. }
  destruct (negb (grub_strcmp ktype "argon2i") || negb (grub_strcmp ktype "argon2id"))
    eqn:Eargon.
  - destruct (grub_json_getint64 kdf (Some "time")) as [time|] eqn:Etime;
      [|intros H; discriminate H].
    destruct (grub_json_getint64 kdf (Some "memory")) as [mem|] eqn:Emem;
      [|intros H; discriminate H].
    destruct (grub_json_getint64 kdf (Some "cpus")) as [cpus|] eqn:Ecpus;
      [|intros H; discriminate H].
    unfold pure, value_of. simpl.
    destruct (grub_json_getint64 keyslot (Some "priority"));
      intros H; inversion H; subst; clear H; simpl.
    all: split; [reflexivity|]; split; [reflexivity|]; split; [reflexivity|].
    all: exists area, kdf, af; repeat split; auto.
    all: right; repeat split; auto.
    all: rewrite ?Etime, ?Emem, ?Ecpus; try reflexivity.
    all: apply orb_true_iff in Eargon.
    all: destruct Eargon as [E|E]; apply negb_true_iff, strcmp_false in E; subst; auto.
  - destruct (negb (grub_strcmp ktype "pbkdf2")) eqn:Epb; [|intros H; discriminate H].
    apply negb_true_iff, strcmp_false in Epb. subst ktype.
    destruct (grub_json_getstring kdf (Some "hash")) as [kh|] eqn:Ekh;
      [|intros H; discriminate H].
    destruct (grub_json_getint64 kdf (Some "iterations")) as [it|] eqn:Eit;
      [|intros H; discriminate H].
    unfold pure, value_of. simpl.
    destruct (grub_json_getint64 keyslot (Some "priority"));
      intros H; inversion H; subst; clear H; simpl.
    all: split; [reflexivity|]; split; [reflexivity|]; split; [reflexivity|].
    all: exists area, kdf, af; repeat split; auto.
Qed.

(** X3.  A segment object that [luks2_parse_segment] accepts has the type
    "crypt", a digest object that [luks2_parse_digest] accepts has the type
    "pbkdf2" and both reference arrays, and each scalar field of the two
    records holds the value of the member it is named after; the size of a
    segment is kept as its text. *)
Theorem accepted_segment_and_digest_fields (P : providers)
    (s0 s' : grub_luks2_segment_t) (d0 d' : grub_luks2_digest_t)
    (segment digest : grub_json_t) (w : world) :
  (value_of (luks2_parse_segment s0 segment w) = (GRUB_ERR_NONE, s') ->
   grub_json_getstring segment (Some "type") = Some "crypt"
   /\ grub_json_getuint64 segment (Some "offset") = Some (seg_offset s')
   /\ grub_json_getstring segment (Some "size") = Some (seg_size s')
   /\ grub_json_getstring segment (Some "encryption") = Some (seg_encryption s')
   /\ grub_json_getint64 segment (Some "sector_size") = Some (seg_sector_size s'))
  /\ (value_of (luks2_parse_digest P d0 digest w) = (GRUB_ERR_NONE, d') ->
      grub_json_getstring digest (Some "type") = Some "pbkdf2"
      /\ grub_json_getvalue digest "segments" <> None
      /\ grub_json_getvalue digest "keyslots" <> None
      /\ grub_json_getstring digest (Some "salt") = Some (dg_salt d')
      /\ grub_json_getstring digest (Some "digest") = Some (dg_digest d')
      /\ grub_json_getstring digest (Some "hash") = Some (dg_hash d')
      /\ grub_json_getint64 digest (Some "iterations") = Some (dg_iterations d')).
Proof.
  split.
  - unfold luks2_parse_segment.
    run_decoder; intros H; try discriminate H.
    inversion H; subst; clear H. simpl.
    match goal with
    | Hs : grub_strcmp _ "crypt" = false |- _ => apply strcmp_false in Hs; subst
    end.
    repeat split; auto.
  - unfold luks2_parse_digest.
    run_decoder; try (intros H; discriminate H).
    all: repeat match goal with
         | |- context [collect_bits ?p ?a ?n ?i ?m] =>
             destruct (collect_bits p a n i m) as [[|] ?] eqn:?; simpl
         end; intros H; try discriminate H.
    inversion H; subst; clear H. simpl.
    match goal with
    | Hs : grub_strcmp _ "pbkdf2" = false |- _ => apply strcmp_false in Hs; subst
    end.
    repeat split; auto; discriminate.
Qed.

Ltac effect_leaf :=
  unfold decoder_effect, value_of, world_of, trace_of; simpl;
  first [ left; repeat split; reflexivity
        | right; eexists; repeat split; reflexivity ].

Lemma parse_segment_effect (s : grub_luks2_segment_t) (j : grub_json_t) (w : world) :
  decoder_effect w (luks2_parse_segment s j w).
Proof. unfold luks2_parse_segment. run_decoder; effect_leaf. Qed.

Lemma parse_keyslot_effect (k : grub_luks2_keyslot_t) (j : grub_json_t) (w : world) :
  decoder_effect w (luks2_parse_keyslot k j w).
Proof. unfold luks2_parse_keyslot. run_decoder; effect_leaf. Qed.

Lemma parse_digest_effect (P : providers) (d : grub_luks2_digest_t)
    (j : grub_json_t) (w : world) :
  decoder_effect w (luks2_parse_digest P d j w).
Proof.
  unfold luks2_parse_digest. run_decoder; try solve [effect_leaf].
  all: repeat match goal with
       | |- context [collect_bits ?p ?a ?n ?i ?m] =>
           destruct (collect_bits p a n i m) as [[|] ?] eqn:?; simpl
       end; effect_leaf.
Qed.

(** The value a decoder returns does not depend on the error state. *)
Lemma parse_segment_value_world (s : grub_luks2_segment_t) (j : grub_json_t)
    (w1 w2 : world) :
  value_of (luks2_parse_segment s j w1) = value_of (luks2_parse_segment s j w2).
Proof. unfold luks2_parse_segment. run_decoder; reflexivity. Qed.

Lemma parse_digest_value_world (P : providers) (d : grub_luks2_digest_t)
    (j : grub_json_t) (w1 w2 : world) :
  value_of (luks2_parse_digest P d j w1) = value_of (luks2_parse_digest P d j w2).
Proof.
  unfold luks2_parse_digest. run_decoder; try reflexivity.
  all: repeat match goal with
       | |- context [collect_bits ?p ?a ?n ?i ?m] =>
           destruct (collect_bits p a n i m) as [[|] ?] eqn:?; simpl
       end; reflexivity.
Qed.

Lemma parse_digest_success_any (P : providers) (d : grub_luks2_digest_t)
    (j : grub_json_t) (w : world) (x : grub_luks2_digest_t) :
  value_of (luks2_parse_digest P d j w) = (GRUB_ERR_NONE, x) ->
  forall d0 w0, value_of (luks2_parse_digest P d0 j w0) = (GRUB_ERR_NONE, x).
Proof.
  intros H d0 w0.
  rewrite (parse_digest_value_world P d0 j w0 w).
  pose proof (parse_digest_agrees P d d0 j w) as (_ & _ & He & Hok & _).
  rewrite H in He, Hok. simpl in He, Hok.
  destruct (Hok eq_refl) as (Hx & _).
  destruct (value_of (luks2_parse_digest P d0 j w)) as [e x0].
  simpl in *. subst. reflexivity.
Qed.

Lemma parse_segment_success_any (s : grub_luks2_segment_t)
    (j : grub_json_t) (w : world) (x : grub_luks2_segment_t) :
  value_of (luks2_parse_segment s j w) = (GRUB_ERR_NONE, x) ->
  forall s0 w0, value_of (luks2_parse_segment s0 j w0) = (GRUB_ERR_NONE, x).
Proof.
  intros H s0 w0.
  rewrite (parse_segment_value_world s0 j w0 w).
  pose proof (parse_segment_agrees s s0 j w) as (_ & _ & He & Hok & _).
  rewrite H in He, Hok. simpl in He, Hok.
  destruct (Hok eq_refl) as (Hx & _).
  destruct (value_of (luks2_parse_segment s0 j w)) as [e x0].
  simpl in *. subst. reflexivity.
Qed.

Lemma is_err_false (e : grub_err_t) : is_err e = false -> e = GRUB_ERR_NONE.
Proof. destruct e; simpl; intros H; try discriminate H; reflexivity. Qed.

(** The scan over the digests stops at the first entry, in document
    order, whose mask has the keyslot's bit; every entry before it was
    decoded and does not have the bit. *)
Lemma scan_digests_found (P : providers) (digests : grub_json_t) (kk : Z) (n : nat) :
  forall (i : Z) (d : grub_luks2_digest_t) (dk : Z) (w : world)
         (d' : grub_luks2_digest_t) (dk' : Z) (w' : world) (t' : list event),
    scan_digests P digests kk n i d dk w = (ScanFound d' dk', w', t') ->
    exists j, i <= j < i + Z.of_nat n
      /\ digest_entry P digests j dk' d'
      /\ test_bit P (dg_keyslots d') kk = true
      /\ forall i', i <= i' < j ->
           exists ki di, digest_entry P digests i' ki di
                         /\ test_bit P (dg_keyslots di) kk = false.
Proof.
  induction n as [|n IH]; intros i d dk w d' dk' w' t' H; simpl in H.
  - discriminate H.
  - destruct (grub_json_getchild digests i) as [member|] eqn:Em; [|discriminate H].
    destruct (grub_json_getuint64 member None) as [key|] eqn:Ek; [|discriminate H].
    destruct (grub_json_getchild member 0) as [obj|] eqn:Eo; [|discriminate H].
    unfold bind in H.
    destruct (luks2_parse_digest P d obj w) as [[[e d1] w1] t1] eqn:Ep.
    destruct (is_err e) eqn:Ee; [discriminate H|].
    apply is_err_false in Ee. subst e.
    assert (Hentry : digest_entry P digests i key d1).
    { exists member, obj. repeat split; auto.
      apply (parse_digest_success_any P d obj w). rewrite Ep. reflexivity. }
    destruct (test_bit P (dg_keyslots d1) kk) eqn:Eb.
    + inversion H; subst. exists i. repeat split; auto; try lia.
    + destruct (scan_digests P digests kk n (i + 1) d1 key w1)
        as [[r w2] t2] eqn:Es.
      inversion H; subst.
      destruct (IH _ _ _ _ _ _ _ _ Es) as (j & Hj & Hje & Hjb & Hbefore).
      exists j. repeat split; auto; try lia.
      intros i' Hi'. destruct (Z.eq_dec i' i) as [->|Hne].
      * exists key, d1. auto.
      * apply Hbefore. lia.
Qed.

Lemma scan_segments_found (P : providers) (segments : grub_json_t)
    (d : grub_luks2_digest_t) (n : nat) :
  forall (i : Z) (s : grub_luks2_segment_t) (sk : Z) (w : world)
         (s' : grub_luks2_segment_t) (sk' : Z) (w' : world) (t' : list event),
    scan_segments P segments d n i s sk w = (ScanFound s' sk', w', t') ->
    exists j, i <= j < i + Z.of_nat n
      /\ segment_entry segments j sk' s'
      /\ test_bit P (dg_segments d) sk' = true
      /\ forall i', i <= i' < j ->
           exists ki si, segment_entry segments i' ki si
                         /\ test_bit P (dg_segments d) ki = false.
Proof.
  induction n as [|n IH]; intros i s sk w s' sk' w' t' H; simpl in H.
  - discriminate H.
  - destruct (grub_json_getchild segments i) as [member|] eqn:Em; [|discriminate H].
    destruct (grub_json_getuint64 member None) as [key|] eqn:Ek; [|discriminate H].
    destruct (grub_json_getchild member 0) as [obj|] eqn:Eo; [|discriminate H].
    unfold bind in H.
    destruct (luks2_parse_segment s obj w) as [[[e s1] w1] t1] eqn:Ep.
    destruct (is_err e) eqn:Ee; [discriminate H|].
    apply is_err_false in Ee. subst e.
    assert (Hentry : segment_entry segments i key s1).
    { exists member, obj. repeat split; auto.
      apply (parse_segment_success_any s obj w). rewrite Ep. reflexivity. }
    destruct (test_bit P (dg_segments d) key) eqn:Eb.
    + inversion H; subst. exists i. repeat split; auto; try lia.
    + destruct (scan_segments P segments d n (i + 1) s1 key w1)
        as [[r w2] t2] eqn:Es.
      inversion H; subst.
      destruct (IH _ _ _ _ _ _ _ _ Es) as (j & Hj & Hje & Hjb & Hbefore).
      exists j. repeat split; auto; try lia.
      intros i' Hi'. destruct (Z.eq_dec i' i) as [->|Hne].
      * exists key, s1. auto.
      * apply Hbefore. lia.
Qed.

(** X4.  When [luks2_get_keyslot] succeeds, the keyslot record is decoded
    from the member at the index asked for; the digest is the first member
    of [digests], in document order, whose mask has the bit of that
    keyslot's key; the segment is the first member of [segments] whose key
    has its bit in the mask of that digest; and every member before the
    ones chosen was decoded without error. *)
Theorem get_keyslot_first_match (P : providers)
    (k : grub_luks2_keyslot_t) (d : grub_luks2_digest_t) (s : grub_luks2_segment_t)
    (root : grub_json_t) (idx : Z) (w : world)
    (k' : grub_luks2_keyslot_t) (d' : grub_luks2_digest_t)
    (s' : grub_luks2_segment_t) :
  value_of (luks2_get_keyslot P k d s root idx w) = (GRUB_ERR_NONE, k', d', s') ->
  exists (keyslots digests segments : grub_json_t)
         (keyslot_key digest_key segment_key jd js : Z),
    grub_json_getvalue root "keyslots" = Some keyslots
    /\ grub_json_getvalue root "digests" = Some digests
    /\ grub_json_getvalue root "segments" = Some segments
    /\ keyslot_entry keyslots idx keyslot_key k k'
    /\ 0 <= jd /\ digest_entry P digests jd digest_key d'
    /\ test_bit P (dg_keyslots d') keyslot_key = true
    /\ (forall i, 0 <= i < jd ->
          exists ki di, digest_entry P digests i ki di
                        /\ test_bit P (dg_keyslots di) keyslot_key = false)
    /\ 0 <= js /\ segment_entry segments js segment_key s'
    /\ test_bit P (dg_segments d') segment_key = true
    /\ (forall i, 0 <= i < js ->
          exists ki si, segment_entry segments i ki si
                        /\ test_bit P (dg_segments d') ki = false).
Proof.
  unfold luks2_get_keyslot, luks2_derror, grub_error.
  destruct (grub_json_getvalue root "keyslots") as [keyslots|];
    [|intros H; discriminate H].
  destruct (grub_json_getchild keyslots idx) as [member|] eqn:Em;
    [|intros H; discriminate H].
  destruct (grub_json_getuint64 member None) as [kk|] eqn:Ek;
    [|intros H; discriminate H].
  destruct (grub_json_getchild member 0) as [obj|] eqn:Eo;
    [|intros H; discriminate H].
  destruct (luks2_parse_keyslot k obj w) as [[[e k1] w1] t1] eqn:Ep.
  rewrite (bind_result _ _ _ _ _ _ Ep). cbv beta iota.
  destruct (is_err e) eqn:Ee; [intros H; discriminate H|].
  apply is_err_false in Ee. subst e.
  destruct (grub_json_getvalue root "digests") as [digests|];
    [|intros H; discriminate H].
  destruct (grub_json_getsize digests) as [dsize|]; [|intros H; discriminate H].
  destruct (scan_digests P digests kk (Z.to_nat dsize) 0 d 0 w1)
    as [[rd wd] td] eqn:Ed.
  rewrite (bind_result _ _ _ _ _ _ Ed). cbv beta iota.
  destruct rd as [d1 dk1|d1 dk1|d1]; try (intros H; discriminate H).
  destruct (grub_json_getvalue root "segments") as [segments|];
    [|intros H; discriminate H].
  destruct (grub_json_getsize segments) as [ssize|]; [|intros H; discriminate H].
  destruct (scan_segments P segments d1 (Z.to_nat ssize) 0 s 0 wd)
    as [[rs ws] ts] eqn:Es.
  rewrite (bind_result _ _ _ _ _ _ Es). cbv beta iota.
  destruct rs as [s1 sk1|s1 sk1|s1]; try (intros H; discriminate H).
  unfold pure, value_of. simpl. intros H. inversion H; subst.
  destruct (scan_digests_found _ _ _ _ _ _ _ _ _ _ _ _ Ed)
    as (jd & Hjd & Hde & Hdb & Hdbefore).
  destruct (scan_segments_found _ _ _ _ _ _ _ _ _ _ _ _ Es)
    as (js & Hjs & Hse & Hsb & Hsbefore).
  exists keyslots, digests, segments, kk, dk1, sk1, jd, js.
  repeat split; auto; try lia.
  exists member, obj, w. repeat split; auto. rewrite Ep. reflexivity.
Qed.

Lemma scan_digests_effect (P : providers) (digests : grub_json_t) (kk : Z) (n : nat) :
  forall (i : Z) (d : grub_luks2_digest_t) (dk : Z) (w : world),
    scan_effect w (scan_digests P digests kk n i d dk w).
Proof.
  induction n as [|n IH]; intros i d dk w; simpl.
  - unfold scan_effect, pure, value_of, world_of, trace_of. simpl. auto.
  - destruct (grub_json_getchild digests i) as [member|];
      [|unfold scan_effect, pure, value_of, world_of, trace_of; simpl; auto].
    destruct (grub_json_getuint64 member None) as [key|];
      [|unfold scan_effect, pure, value_of, world_of, trace_of; simpl; auto].
    destruct (grub_json_getchild member 0) as [obj|];
      [|unfold scan_effect, pure, value_of, world_of, trace_of; simpl; auto].
    pose proof (parse_digest_effect P d obj w) as He.
    destruct (luks2_parse_digest P d obj w) as [[[e d1] w1] t1] eqn:Ep.
    rewrite (bind_result _ _ _ _ _ _ Ep). cbv beta iota.
    unfold decoder_effect, value_of, world_of, trace_of in He. simpl in He.
    destruct He as [(He & Hw & Ht)|(msg & He & Hw & Ht)]; subst e w1 t1; simpl.
    + destruct (test_bit P (dg_keyslots d1) kk).
      * unfold scan_effect, pure, value_of, world_of, trace_of. simpl. auto.
      * specialize (IH (i + 1) d1 key w).
        destruct (scan_digests P digests kk n (i + 1) d1 key w) as [[r w2] t2].
        exact IH.
    + unfold scan_effect, pure, value_of, world_of, trace_of. simpl.
      right. exists msg. auto.
Qed.

Lemma scan_segments_effect (P : providers) (segments : grub_json_t)
    (d : grub_luks2_digest_t) (n : nat) :
  forall (i : Z) (s : grub_luks2_segment_t) (sk : Z) (w : world),
    scan_effect w (scan_segments P segments d n i s sk w).
Proof.
  induction n as [|n IH]; intros i s sk w; simpl.
  - unfold scan_effect, pure, value_of, world_of, trace_of. simpl. auto.
  - destruct (grub_json_getchild segments i) as [member|];
      [|unfold scan_effect, pure, value_of, world_of, trace_of; simpl; auto].
    destruct (grub_json_getuint64 member None) as [key|];
      [|unfold scan_effect, pure, value_of, world_of, trace_of; simpl; auto].
    destruct (grub_json_getchild member 0) as [obj|];
      [|unfold scan_effect, pure, value_of, world_of, trace_of; simpl; auto].
    pose proof (parse_segment_effect s obj w) as He.
    destruct (luks2_parse_segment s obj w) as [[[e s1] w1] t1] eqn:Ep.
    rewrite (bind_result _ _ _ _ _ _ Ep). cbv beta iota.
    unfold decoder_effect, value_of, world_of, trace_of in He. simpl in He.
    destruct He as [(He & Hw & Ht)|(msg & He & Hw & Ht)]; subst e w1 t1; simpl.
    + destruct (test_bit P (dg_segments d) key).
      * unfold scan_effect, pure, value_of, world_of, trace_of. simpl. auto.
      * specialize (IH (i + 1) s1 key w).
        destruct (scan_segments P segments d n (i + 1) s1 key w) as [[r w2] t2].
        exact IH.
    + unfold scan_effect, pure, value_of, world_of, trace_of. simpl.
      right. exists msg. auto.
Qed.

Ltac status_leaf :=
  unfold luks2_derror, grub_error, bind, pure, value_of, world_of, trace_of;
  simpl; repeat split; auto; intros; congruence.

(** What [luks2_get_keyslot] returns and records, on every path. *)
Lemma get_keyslot_cases (P : providers)
    (k : grub_luks2_keyslot_t) (d : grub_luks2_digest_t) (s : grub_luks2_segment_t)
    (root : grub_json_t) (idx : Z) (w : world) :
  let r := luks2_get_keyslot P k d s root idx w in
  let e := fst (fst (fst (value_of r))) in
  (e = GRUB_ERR_NONE \/ e = GRUB_ERR_BAD_ARGUMENT \/ e = GRUB_ERR_FILE_NOT_FOUND)
  /\ (e = GRUB_ERR_NONE -> world_of r = w /\ trace_of r = [])
  /\ (e <> GRUB_ERR_NONE -> grub_errno (world_of r) = e)
  /\ crypt (world_of r) = crypt w
  /\ forallb is_error_event (trace_of r) = true.
Proof.
  cbv zeta. unfold luks2_get_keyslot.
  destruct (grub_json_getvalue root "keyslots") as [keyslots|]; [|status_leaf].
  destruct (grub_json_getchild keyslots idx) as [member|]; [|status_leaf].
  destruct (grub_json_getuint64 member None) as [kk|]; [|status_leaf].
  destruct (grub_json_getchild member 0) as [obj|]; [|status_leaf].
  pose proof (parse_keyslot_effect k obj w) as He.
  destruct (luks2_parse_keyslot k obj w) as [[[e k1] w1] t1] eqn:Ep.
  rewrite (bind_result _ _ _ _ _ _ Ep). cbv beta iota.
  unfold decoder_effect, value_of, world_of, trace_of in He. simpl in He.
  destruct He as [(He & Hw & Ht)|(msg & He & Hw & Ht)]; subst e w1 t1;
    cbn [is_err]; [|status_leaf].
  destruct (grub_json_getvalue root "digests") as [digests|]; [|status_leaf].
  destruct (grub_json_getsize digests) as [dsize|]; [|status_leaf].
  pose proof (scan_digests_effect P digests kk (Z.to_nat dsize) 0 d 0 w) as Hd.
  destruct (scan_digests P digests kk (Z.to_nat dsize) 0 d 0 w)
    as [[rd wd] td] eqn:Ed.
  rewrite (bind_result _ _ _ _ _ _ Ed). cbv beta iota.
  unfold scan_effect, value_of, world_of, trace_of in Hd. simpl in Hd.
  destruct rd as [d1 dk1|d1 dk1|d1].
  2: { destruct Hd as [Hw Ht]; subst wd td. status_leaf. }
  2: { destruct Hd as [[Hw Ht]|(msg & Hw & Ht)]; subst wd td; status_leaf. }
  destruct Hd as [Hw Ht]; subst wd td.
  destruct (grub_json_getvalue root "segments") as [segments|]; [|status_leaf].
  destruct (grub_json_getsize segments) as [ssize|]; [|status_leaf].
  pose proof (scan_segments_effect P segments d1 (Z.to_nat ssize) 0 s 0 w) as Hs.
  destruct (scan_segments P segments d1 (Z.to_nat ssize) 0 s 0 w)
    as [[rs ws] ts] eqn:Es.
  rewrite (bind_result _ _ _ _ _ _ Es). cbv beta iota.
  unfold scan_effect, value_of, world_of, trace_of in Hs. simpl in Hs.
  destruct rs as [s1 sk1|s1 sk1|s1].
  2: { destruct Hs as [Hw Ht]; subst ws ts. status_leaf. }
  2: { destruct Hs as [[Hw Ht]|(msg & Hw & Ht)]; subst ws ts; status_leaf. }
  destruct Hs as [Hw Ht]; subst ws ts. status_leaf.
Qed.

(** X5.  [luks2_get_keyslot] returns no error, BadArgument or
    FileNotFound.  On success it records nothing; on failure [grub_errno]
    is the code it returns.  It never touches the crypto disk, and all it
    logs are errors. *)
Theorem get_keyslot_status (P : providers)
    (k : grub_luks2_keyslot_t) (d : grub_luks2_digest_t) (s : grub_luks2_segment_t)
    (root : grub_json_t) (idx : Z) (w : world) :
  let r := luks2_get_keyslot P k d s root idx w in
  let e := fst (fst (fst (value_of r))) in
  (e = GRUB_ERR_NONE \/ e = GRUB_ERR_BAD_ARGUMENT \/ e = GRUB_ERR_FILE_NOT_FOUND)
  /\ (e = GRUB_ERR_NONE -> world_of r = w /\ trace_of r = [])
  /\ (e <> GRUB_ERR_NONE -> grub_errno (world_of r) = e)
  /\ crypt (world_of r) = crypt w
  /\ forallb is_error_event (trace_of r) = true.
Proof. exact (get_keyslot_cases P k d s root idx w). Qed.

Lemma count_events_app (p : event -> bool) (a b : list event) :
  count_events p (a ++ b) = (count_events p a + count_events p b)%nat.
Proof. unfold count_events. rewrite filter_app, length_app. reflexivity. Qed.

Lemma luks2_read_crypt (disk : grub_disk) (hdr_file : option grub_file)
    (ret : grub_err_t) (off size : Z) (buf : list byte) (w : world) :
  crypt (world_of (luks2_read disk hdr_file ret off size buf w)) = crypt w.
Proof.
  unfold luks2_read, bind, emit, get_world, put_world, pure, world_of.
  destruct hdr_file as [f|].
  - destruct (file_seek_result f off); simpl; auto.
    destruct (file_read_result f off size) as [data [e|]]; simpl; auto.
    destruct (Z.of_nat (List.length data) =? size); simpl; auto.
  - destruct (disk_read_result disk off size) as [e data].
    destruct (is_err e); simpl; auto.
Qed.

Lemma negb_eqb_true (g : Z) : negb (g =? 0) = true -> g <> 0.
Proof. intros H. apply negb_true_iff, Z.eqb_neq in H. exact H. Qed.

Lemma negb_eqb_false (g : Z) : negb (g =? 0) = false -> g = 0.
Proof. intros H. apply negb_false_iff, Z.eqb_eq in H. exact H. Qed.

Lemma wp_bind_trace {A B : Type} (q : event -> bool) (m : M A) (f : A -> M B)
    (w : world) (Q : B -> world -> list event -> Prop) :
  trace_all q m ->
  (forall a w1 t1, forallb q t1 = true ->
     wp (f a) w1 (fun b w2 t2 => Q b w2 (t1 ++ t2))) ->
  wp (bind m f) w Q.
Proof.
  intros Hm Hf. apply wp_bind. apply wp_run. intros a w1 t1 E.
  apply Hf. specialize (Hm w). rewrite E in Hm. exact Hm.
Qed.

(** ** The header codec *)

Lemma luks2_read_count (disk : grub_disk) (hdr_file : option grub_file)
    (ret : grub_err_t) (off size : Z) (buf : list byte) (w : world) :
  (count_events is_read_event
     (trace_of (luks2_read disk hdr_file ret off size buf w)) <= 1)%nat.
Proof.
  unfold luks2_read, bind, emit, get_world, put_world, pure, trace_of, count_events.
  destruct hdr_file as [f|].
  - destruct (file_seek_result f off); simpl; auto.
    destruct (file_read_result f off size) as [data [e|]]; simpl; auto.
    destruct (Z.of_nat (List.length data) =? size); simpl; auto.
  - destruct (disk_read_result disk off size) as [e data].
    destruct (is_err e); simpl; auto.
Qed.

Lemma signature_check_1st (h : list byte) :
  (grub_memcmp (hdr_magic h) LUKS_MAGIC_1ST 6 || negb (hdr_version h =? 2)) = false
  -> valid_header LUKS_MAGIC_1ST h.
Proof. intros H. apply signature_check in H; auto. Qed.

Lemma signature_check_2nd (h : list byte) :
  (grub_memcmp (hdr_magic h) LUKS_MAGIC_2ND 6 || negb (hdr_version h =? 2)) = false
  -> valid_header LUKS_MAGIC_2ND h.
Proof. intros H. apply signature_check in H; auto. Qed.

(** What [luks2_read_header] returns, on every path. *)
Lemma read_header_cases (P : providers) (disk : grub_disk)
    (hdr_file : option grub_file) (outhdr : list byte) (w : world) :
  let r := luks2_read_header P disk hdr_file outhdr w in
  (fst (value_of r) <> GRUB_ERR_NONE -> snd (value_of r) = outhdr)
  /\ (fst (value_of r) = GRUB_ERR_NONE ->
      exists (p s : list byte) (w1 : world),
        p = snd (value_of (luks2_read disk hdr_file GRUB_ERR_NONE 0 sizeof_header
                             (uninit_header P) w))
        /\ s = snd (value_of (luks2_read disk hdr_file GRUB_ERR_NONE (hdr_size p)
                                sizeof_header (uninit_header P) w1))
        /\ valid_header LUKS_MAGIC_1ST p
        /\ valid_header LUKS_MAGIC_2ND s
        /\ snd (value_of r) = (if hdr_seqid p <? hdr_seqid s then s else p))
  /\ crypt (world_of r) = crypt w
  /\ (count_events is_read_event (trace_of r) <= 2)%nat.
Proof.
  cbv zeta. unfold luks2_read_header.
  pose proof (luks2_read_crypt disk hdr_file GRUB_ERR_NONE 0 sizeof_header
                (uninit_header P) w) as Hc1.
  pose proof (luks2_read_count disk hdr_file GRUB_ERR_NONE 0 sizeof_header
                (uninit_header P) w) as Hn1.
  destruct (luks2_read disk hdr_file GRUB_ERR_NONE 0 sizeof_header
              (uninit_header P) w) as [[[e1 p] w1] t1] eqn:E1.
  rewrite (bind_result _ _ _ _ _ _ E1). cbv beta iota.
  unfold world_of, trace_of in Hc1, Hn1. simpl in Hc1, Hn1.
  destruct (is_err e1) eqn:Ee1.
  { unfold pure, value_of, world_of, trace_of. simpl.
    rewrite app_nil_r. repeat split; auto; try lia.
    intros He. subst e1. discriminate Ee1. }
  apply is_err_false in Ee1. subst e1.
  destruct (grub_memcmp (hdr_magic p) LUKS_MAGIC_1ST 6 || negb (hdr_version p =? 2))
    eqn:Ev1.
  { unfold grub_error, bind, pure, value_of, world_of, trace_of. simpl.
    rewrite count_events_app. unfold count_events at 2. simpl.
    repeat split; auto; try lia. intros He. discriminate He. }
  apply signature_check_1st in Ev1.
  pose proof (luks2_read_crypt disk hdr_file GRUB_ERR_NONE (hdr_size p) sizeof_header
                (uninit_header P) w1) as Hc2.
  pose proof (luks2_read_count disk hdr_file GRUB_ERR_NONE (hdr_size p) sizeof_header
                (uninit_header P) w1) as Hn2.
  destruct (luks2_read disk hdr_file GRUB_ERR_NONE (hdr_size p) sizeof_header
              (uninit_header P) w1) as [[[e2 s] w2] t2] eqn:E2.
  rewrite (bind_result _ _ _ _ _ _ E2). cbv beta iota.
  unfold world_of, trace_of in Hc2, Hn2. simpl in Hc2, Hn2.
  destruct (is_err e2) eqn:Ee2.
  { unfold pure, value_of, world_of, trace_of. simpl.
    rewrite app_nil_r, count_events_app.
    repeat split; auto; try lia; try congruence.
    intros He. subst e2. discriminate Ee2. }
  apply is_err_false in Ee2. subst e2.
  destruct (grub_memcmp (hdr_magic s) LUKS_MAGIC_2ND 6 || negb (hdr_version s =? 2))
    eqn:Ev2.
  { unfold grub_error, bind, pure, value_of, world_of, trace_of. simpl.
    rewrite !count_events_app. unfold count_events at 3. simpl.
    repeat split; auto; try lia; try congruence. }
  apply signature_check_2nd in Ev2.
  unfold pure, value_of, world_of, trace_of. simpl.
  rewrite app_nil_r, count_events_app.
  repeat split; auto; try lia; try congruence.
  intros _. exists p, s, w1. rewrite E2. simpl.
  split; [reflexivity|]. split; [reflexivity|]. auto.
Qed.

(** X6.  [luks2_read_header] hands the out header back untouched whenever
    it fails.  It succeeds only when the primary and the secondary header
    both carry their magic and version 2, and then it returns the
    secondary when its sequence id is greater and the primary otherwise.
    It reads the device at most twice and leaves the crypto disk alone. *)
Theorem read_header_needs_both_headers (P : providers) (disk : grub_disk)
    (hdr_file : option grub_file) (outhdr : list byte) (w : world) :
  let r := luks2_read_header P disk hdr_file outhdr w in
  (fst (value_of r) <> GRUB_ERR_NONE -> snd (value_of r) = outhdr)
  /\ (fst (value_of r) = GRUB_ERR_NONE ->
      exists (p s : list byte) (w1 : world),
        p = snd (value_of (luks2_read disk hdr_file GRUB_ERR_NONE 0 sizeof_header
                             (uninit_header P) w))
        /\ s = snd (value_of (luks2_read disk hdr_file GRUB_ERR_NONE (hdr_size p)
                                sizeof_header (uninit_header P) w1))
        /\ valid_header LUKS_MAGIC_1ST p
        /\ valid_header LUKS_MAGIC_2ND s
        /\ snd (value_of r) = (if hdr_seqid p <? hdr_seqid s then s else p))
  /\ crypt (world_of r) = crypt w
  /\ (count_events is_read_event (trace_of r) <= 2)%nat.
Proof. exact (read_header_cases P disk hdr_file outhdr w). Qed.

(** ** The scan probe *)

(** X7.  [luks2_scan] returns no crypto disk, reads nothing and changes
    nothing when [check_boot] is set.  When the header cannot be read or
    validated it returns none as well, allocates nothing and clears
    [grub_errno]; the message of the error stays. *)
Theorem scan_gives_up_quietly (P : providers)
    (grub_uuidcasecmp : string -> list byte -> Z -> Z) (sizeof_cryptodisk : Z)
    (disk : grub_disk) (check_uuid : option string) (check_boot : Z)
    (hdr_file : option grub_file) (w : world) :
  let r := luks2_scan P grub_uuidcasecmp sizeof_cryptodisk disk check_uuid
             check_boot hdr_file w in
  let h := luks2_read_header P disk hdr_file (uninit_header P) w in
  (check_boot <> 0 -> r = (None, w, []))
  /\ (check_boot = 0 -> fst (value_of h) <> GRUB_ERR_NONE ->
      value_of r = None
      /\ world_of r = set_errno (world_of h) GRUB_ERR_NONE
      /\ trace_of r = trace_of h).
Proof.
  cbv zeta. unfold luks2_scan. split.
  - intros Hb. apply Z.eqb_neq in Hb. rewrite Hb. reflexivity.
  - intros Hb Herr. subst check_boot. simpl (negb (0 =? 0)). cbv iota.
    destruct (luks2_read_header P disk hdr_file (uninit_header P) w)
      as [[[e header] w1] t1] eqn:Eh.
    rewrite (bind_result _ _ _ _ _ _ Eh). cbv beta iota.
    unfold value_of in Herr. simpl in Herr.
    destruct e; try (exfalso; apply Herr; reflexivity).
    all: unfold bind, get_world, put_world, pure, value_of, world_of, trace_of;
      simpl; rewrite app_nil_r; auto.
Qed.

(** X8.  A crypto disk returned by [luks2_scan] comes from a header that
    [luks2_read_header] accepted; when a UUID was asked for, its comparison
    with the UUID field of that header gave 0; the object is zeroed but for
    the UUID copied from the header, it carries the module name "luks2",
    and the probe added nothing to the error state. *)
Theorem scan_advertises_header_uuid (P : providers)
    (grub_uuidcasecmp : string -> list byte -> Z -> Z) (sizeof_cryptodisk : Z)
    (disk : grub_disk) (check_uuid : option string) (check_boot : Z)
    (hdr_file : option grub_file) (w : world) (c : scanned_cryptodisk) :
  let r := luks2_scan P grub_uuidcasecmp sizeof_cryptodisk disk check_uuid
             check_boot hdr_file w in
  let h := luks2_read_header P disk hdr_file (uninit_header P) w in
  value_of r = Some c ->
  exists header : list byte,
    check_boot = 0
    /\ value_of h = (GRUB_ERR_NONE, header)
    /\ (valid_header LUKS_MAGIC_1ST header \/ valid_header LUKS_MAGIC_2ND header)
    /\ (forall u, check_uuid = Some u ->
          grub_uuidcasecmp u (hdr_uuid header) 40 = 0)
    /\ alloc_ok P sizeof_cryptodisk = true
    /\ c = mk_scanned
             (mk_cryptodisk 0 0 0 None None (c_string (hdr_uuid header))) "luks2"
    /\ world_of r = world_of h
    /\ trace_of r = trace_of h ++ [EvZalloc sizeof_cryptodisk].
Proof.
  cbv zeta. unfold luks2_scan.
  destruct (negb (check_boot =? 0)) eqn:Eb; [intros H; discriminate H|].
  apply negb_false_iff, Z.eqb_eq in Eb.
  pose proof (read_header_cases P disk hdr_file (uninit_header P) w) as Hh.
  cbv zeta in Hh.
  destruct (luks2_read_header P disk hdr_file (uninit_header P) w)
    as [[[e header] w1] t1] eqn:Eh.
  rewrite (bind_result _ _ _ _ _ _ Eh). cbv beta iota.
  unfold value_of, world_of, trace_of in Hh. simpl in Hh.
  destruct Hh as (_ & Hok & _).
  destruct (is_err e) eqn:Ee; [intros H; discriminate H|].
  apply is_err_false in Ee. subst e.
  destruct (Hok eq_refl) as (p & s & w0 & _ & _ & Hp & Hs & Hsel).
  assert (Hvalid : valid_header LUKS_MAGIC_1ST header
                   \/ valid_header LUKS_MAGIC_2ND header).
  { rewrite Hsel. destruct (hdr_seqid p <? hdr_seqid s); auto. }
  destruct (match check_uuid with
            | Some u => negb (grub_uuidcasecmp u (hdr_uuid header) 40 =? 0)
            | None => false
            end) eqn:Eu; [intros H; discriminate H|].
  unfold bind, emit, grub_error, pure, value_of, world_of, trace_of. simpl.
  destruct (alloc_ok P sizeof_cryptodisk) eqn:Ea; simpl;
    [|intros H; discriminate H].
  intros H. inversion H as [Hc]. clear H. exists header.
  repeat split; auto.
  intros u Hu. subst check_uuid. apply negb_eqb_false in Eu. exact Eu.
Qed.

(** ** The digest verifier *)

(** X9.  When a libgcrypt failure converts to an error, [luks2_verify_key]
    accepts exactly when both base64 strings decode, the hash is known,
    and PBKDF2 over the candidate key with the decoded salt, asked for as
    many bytes as the decoded digest has, returns that digest.  An
    accepting run changes nothing, a rejecting run leaves its code in
    [grub_errno], and the crypto disk is never touched. *)
Theorem verify_key_accepts_iff (P : providers) (d : grub_luks2_digest_t)
    (candidate_key : list byte) (candidate_key_len : Z) (w : world) :
  (forall c, c <> 0 -> grub_crypto_gcry_error P c <> GRUB_ERR_NONE) ->
  let r := luks2_verify_key P d candidate_key candidate_key_len w in
  (value_of r = GRUB_ERR_NONE <->
     exists digest salt derived,
       base64_decode P (dg_digest d) GRUB_CRYPTODISK_MAX_KEYLEN = Some digest
       /\ base64_decode P (dg_salt d) GRUB_CRYPTODISK_MAX_KEYLEN = Some salt
       /\ grub_crypto_lookup_md_by_name P (dg_hash d) = true
       /\ grub_crypto_pbkdf2 P (dg_hash d) candidate_key candidate_key_len salt
            (dg_iterations d) (Z.of_nat (List.length digest)) = (0, derived)
       /\ firstn (List.length digest) derived = digest)
  /\ (value_of r = GRUB_ERR_NONE -> world_of r = w)
  /\ (value_of r <> GRUB_ERR_NONE -> grub_errno (world_of r) = value_of r)
  /\ crypt (world_of r) = crypt w.
Proof.
  intros Hg. cbv zeta.
  change (wp (luks2_verify_key P d candidate_key candidate_key_len) w
            (fun a w' _ =>
               (a = GRUB_ERR_NONE <->
                  exists digest salt derived,
                    base64_decode P (dg_digest d) GRUB_CRYPTODISK_MAX_KEYLEN = Some digest
                    /\ base64_decode P (dg_salt d) GRUB_CRYPTODISK_MAX_KEYLEN = Some salt
                    /\ grub_crypto_lookup_md_by_name P (dg_hash d) = true
                    /\ grub_crypto_pbkdf2 P (dg_hash d) candidate_key
                         candidate_key_len salt (dg_iterations d)
                         (Z.of_nat (List.length digest)) = (0, derived)
                    /\ firstn (List.length digest) derived = digest)
               /\ (a = GRUB_ERR_NONE -> w' = w)
               /\ (a <> GRUB_ERR_NONE -> grub_errno w' = a)
               /\ crypt w' = crypt w)).
  unfold luks2_verify_key.
  destruct (base64_decode P (dg_digest d) GRUB_CRYPTODISK_MAX_KEYLEN)
    as [digest|] eqn:Ed.
  2: { wp_steps. simpl. repeat split; auto; try discriminate.
       intros (? & ? & ? & H & _). discriminate H. }
  destruct (base64_decode P (dg_salt d) GRUB_CRYPTODISK_MAX_KEYLEN)
    as [salt|] eqn:Es.
  2: { wp_steps. simpl. repeat split; auto; try discriminate.
       intros (? & ? & ? & _ & H & _). discriminate H. }
  destruct (grub_crypto_lookup_md_by_name P (dg_hash d)) eqn:Eh.
  2: { wp_steps. simpl. repeat split; auto; try discriminate.
       intros (? & ? & ? & _ & _ & H & _). discriminate H. }
  destruct (grub_crypto_pbkdf2 P (dg_hash d) candidate_key candidate_key_len salt
              (dg_iterations d) (Z.of_nat (List.length digest)))
    as [g derived] eqn:Ep.
  destruct (negb (g =? 0)) eqn:Eg.
  { wp_steps. apply negb_eqb_true in Eg. simpl. repeat split; auto.
    - intros Hn. exfalso. exact (Hg g Eg Hn).
    - intros (dg & sl & dr & H1 & H2 & _ & H4 & _).
      inversion H1; inversion H2; subst. rewrite Ep in H4. inversion H4. lia.
    - intros Hn. exfalso. exact (Hg g Eg Hn). }
  destruct (grub_memcmp derived digest (List.length digest)) eqn:Em.
  - wp_steps. apply negb_eqb_false in Eg. subst g.
    simpl. repeat split; auto; try discriminate.
    intros (dg & sl & dr & H1 & H2 & _ & H4 & H5).
    inversion H1; inversion H2; subst. rewrite Ep in H4. inversion H4; subst.
    unfold grub_memcmp in Em. apply negb_true_iff in Em.
    rewrite H5, firstn_all in Em.
    assert (bytes_eqb dg dg = true) by (apply bytes_eqb_eq; reflexivity).
    congruence.
  - wp_steps. apply negb_eqb_false in Eg. subst g.
    simpl. repeat split; auto; try congruence.
    intros _. exists digest, salt, derived. repeat split; auto.
    unfold grub_memcmp in Em. apply negb_false_iff, bytes_eqb_eq in Em.
    rewrite firstn_all in Em. exact Em.
Qed.

(** ** The key pipeline *)



(** X11.  [luks2_decrypt_key] asks for memory at most once.  It frees one
    buffer when it got the memory and none when it did not, and the free
    is the last thing it does. *)
Theorem decrypt_key_frees_what_it_allocates (P : providers) (out_key : list byte)
    (source : grub_disk) (hdr_file : option grub_file)
    (k : grub_luks2_keyslot_t) (passphrase : list byte) (passphraselen : Z)
    (w : world) :
  let t := trace_of (luks2_decrypt_key P out_key source hdr_file k passphrase
                       passphraselen w) in
  (count_events is_malloc_event t <= 1)%nat
  /\ count_events is_free_event t
     = (if alloc_ok P (area_size k) then count_events is_malloc_event t else 0%nat)
  /\ (forall c, In (EvFree c) t -> exists before, t = before ++ [EvFree c]).
Proof.
  cbv zeta.
  change (wp (luks2_decrypt_key P out_key source hdr_file k passphrase passphraselen) w
            (fun _ _ t =>
               (count_events is_malloc_event t <= 1)%nat
               /\ count_events is_free_event t
                  = (if alloc_ok P (area_size k)
                     then count_events is_malloc_event t else 0%nat)
               /\ (forall c, In (EvFree c) t -> exists before, t = before ++ [EvFree c]))).
  unfold luks2_decrypt_key, decrypt_key_err, grub_cryptodisk_setcipher,
    grub_cryptodisk_setkey, grub_cryptodisk_decrypt, luks2_read.
  destruct (alloc_ok P (area_size k)) eqn:Ea.
  all: wp_steps.
  all: unfold count_events; simpl.
  all: repeat split; auto.
  all: intros c Hin;
    repeat (destruct Hin as [Hin|Hin]; [try discriminate Hin|]); try contradiction.
  all: inversion Hin; subst.
  all: match goal with
       | |- exists before, ?t = before ++ [?e] =>
           let rec go l :=
             lazymatch l with
             | [e] => constr:(@nil event)
             | ?x :: ?rest => let r := go rest in constr:(x :: r)
             end in
           let b := go t in exists b; reflexivity
       end.
Qed.

(** X12.  The only access of [luks2_decrypt_key] to the device is one read
    of [area.size] bytes at [area.offset], from the header file when there
    is one and from the disk otherwise. *)
Theorem decrypt_key_reads_the_area_once (P : providers) (out_key : list byte)
    (source : grub_disk) (hdr_file : option grub_file)
    (k : grub_luks2_keyslot_t) (passphrase : list byte) (passphraselen : Z)
    (w : world) :
  let t := trace_of (luks2_decrypt_key P out_key source hdr_file k passphrase
                       passphraselen w) in
  Forall (area_access_ok hdr_file (area_offset k) (area_size k)) t
  /\ (count_events is_read_event t <= 1)%nat.
Proof.
  cbv zeta.
  change (wp (luks2_decrypt_key P out_key source hdr_file k passphrase passphraselen) w
            (fun _ _ t =>
               Forall (area_access_ok hdr_file (area_offset k) (area_size k)) t
               /\ (count_events is_read_event t <= 1)%nat)).
  unfold luks2_decrypt_key, decrypt_key_err, grub_cryptodisk_setcipher,
    grub_cryptodisk_setkey, grub_cryptodisk_decrypt, luks2_read.
  destruct hdr_file as [f|].
  all: wp_steps.
  all: unfold count_events; simpl.
  all: repeat split; auto.
  all: repeat constructor; simpl; auto; congruence.
Qed.

Lemma split_dash_some (s : string) :
  forall a b, split_dash s = Some (a, b) ->
    s = (a ++ String "-" b)%string /\ split_dash a = None.
Proof.
  induction s as [|c s IH]; intros a b H; simpl in H; [discriminate H|].
  destruct (Ascii.eqb c "-") eqn:Ec.
  - apply Ascii.eqb_eq in Ec. inversion H; subst. simpl. auto.
  - destruct (split_dash s) as [[a' b']|] eqn:Es; [|discriminate H].
    inversion H; subst. destruct (IH a' b eq_refl) as [Hs Ha].
    simpl. rewrite Ec, Ha. subst s. auto.
Qed.

(** X13.  For encryption strings that fit the cipher array, every call
    of [setcipher], for the key area in [luks2_decrypt_key] and for the
    data segment at the end of [luks2_recover_key], gets the text of the
    encryption string before its first dash as the cipher and all the
    text after that dash as the mode. *)
Theorem setcipher_gets_split_at_first_dash (P : providers) (out_key : list byte)
    (source : grub_disk) (hdr_file : option grub_file)
    (k : grub_luks2_keyslot_t) (passphrase : list byte) (passphraselen : Z)
    (w : world) (json_header buf : list byte) (l : locals) :
  fits_cipher (area_encryption k) ->
  fits_cipher (seg_encryption (l_segment l)) ->
  Forall (setcipher_splits (area_encryption k))
    (trace_of (luks2_decrypt_key P out_key source hdr_file k passphrase
                 passphraselen w))
  /\ Forall (setcipher_splits (seg_encryption (l_segment l)))
       (trace_of (recover_key_finish P json_header buf l w)).
Proof.
  intros Hk Hs. apply cipher_array_fits in Hk. apply cipher_array_fits in Hs.
  split.
  - change (wp (luks2_decrypt_key P out_key source hdr_file k passphrase
                  passphraselen) w
              (fun _ _ t => Forall (setcipher_splits (area_encryption k)) t)).
    unfold luks2_decrypt_key, decrypt_key_err, grub_cryptodisk_setcipher,
      grub_cryptodisk_setkey, grub_cryptodisk_decrypt, luks2_read.
    rewrite Hk.
    wp_steps.
    all: repeat (apply Forall_cons || apply Forall_nil || apply Forall_app || split);
      simpl; auto.
    all: eapply split_dash_some; eassumption.
  - change (wp (recover_key_finish P json_header buf l) w
              (fun _ _ t =>
                 Forall (setcipher_splits (seg_encryption (l_segment l))) t)).
    unfold recover_key_finish, recover_key_err, grub_cryptodisk_setcipher,
      grub_cryptodisk_setkey.
    rewrite Hs.
    wp_steps.
    all: repeat (apply Forall_cons || apply Forall_nil || apply Forall_app || split);
      simpl; auto.
    all: eapply split_dash_some; eassumption.
Qed.

(** X14.  With a header file that delivers fewer bytes of the key area
    than were asked for and reports no error, [luks2_decrypt_key] does not
    notice: it goes on to decrypt the buffer, which holds the bytes
    delivered followed by what the allocator left in the block. *)
Theorem decrypt_key_short_read_undetected (P : providers) (out_key : list byte)
    (source : grub_disk) (f : grub_file)
    (k : grub_luks2_keyslot_t) (passphrase : list byte) (passphraselen : Z)
    (w : world) (data : list byte) :
  file_seek_result f (area_offset k) = None ->
  file_read_result f (area_offset k) (area_size k) = (data, None) ->
  Z.of_nat (List.length data) < area_size k ->
  let r := luks2_decrypt_key P out_key source (Some f) k passphrase passphraselen w in
  In (EvFileRead (area_size k)) (trace_of r) ->
  In (EvDecrypt (area_size k) 0 9) (trace_of r)
  /\ exists c1,
       In (EvFree (snd (decrypt_result P c1
                          (overwrite (malloc_contents P (area_size k)) data)
                          (area_size k) 0 LUKS_LOG_SECTOR_SIZE)))
          (trace_of r).
Proof.
  intros Hseek Hread Hshort. cbv zeta.
  change (wp (luks2_decrypt_key P out_key source (Some f) k passphrase passphraselen) w
            (fun _ _ t =>
               In (EvFileRead (area_size k)) t ->
               In (EvDecrypt (area_size k) 0 9) t
               /\ exists c1,
                    In (EvFree (snd (decrypt_result P c1
                                       (overwrite (malloc_contents P (area_size k)) data)
                                       (area_size k) 0 LUKS_LOG_SECTOR_SIZE))) t)).
  unfold luks2_decrypt_key, decrypt_key_err, grub_cryptodisk_setcipher,
    grub_cryptodisk_setkey, grub_cryptodisk_decrypt, luks2_read.
  assert (Hne : (Z.of_nat (List.length data) =? area_size k) = false)
    by (apply Z.eqb_neq; lia).
  wp_steps.
  all: simpl; intros Hin.
  all: try solve [repeat (destruct Hin as [Hin|Hin]; [discriminate Hin|]);
                  contradiction].
  all: try solve [exfalso;
                  match goal with
                  | H : is_err (grub_errno _) = true |- _ =>
                      simpl in H; discriminate H
                  end].
  all: split; [auto 20|].
  all: match goal with
       | H : decrypt_result _ ?c _ _ _ _ = (_, ?b) |- _ =>
           exists c; rewrite H; simpl; auto 20
       end.
Qed.

Lemma decrypt_key_argon2 (P : providers) (out_key : list byte)
    (source : grub_disk) (hdr_file : option grub_file)
    (k : grub_luks2_keyslot_t) (passphrase : list byte) (passphraselen : Z)
    (w : world) :
  kdf_type k = LUKS2_KDF_TYPE_ARGON2I ->
  let r := luks2_decrypt_key P out_key source hdr_file k passphrase passphraselen w in
  value_of r = (GRUB_ERR_BAD_ARGUMENT, out_key)
  /\ crypt (world_of r) = crypt w
  /\ (trace_of r = [EvBase64 (kdf_salt k);
                    EvError GRUB_ERR_BAD_ARGUMENT "Argon2 not supported"]
      \/ trace_of r = [EvBase64 (kdf_salt k);
                       EvError GRUB_ERR_BAD_ARGUMENT "Invalid keyslot salt"]).
Proof.
  intros Hk. cbv zeta.
  unfold luks2_decrypt_key, reject, luks2_derror, grub_error, bind, emit, pure,
    value_of, world_of, trace_of.
  rewrite Hk.
  destruct (base64_decode P (kdf_salt k) GRUB_CRYPTODISK_MAX_KEYLEN); simpl; auto.
Qed.

(** X15.  A keyslot object whose kdf type is "argon2i" or "argon2id" is
    decoded as an Argon2 keyslot, and [luks2_decrypt_key] rejects the
    record with BadArgument once it has decoded the salt: no key is
    derived, the crypto disk is untouched and the device is not read. *)
Theorem argon2_keyslot_is_decoded_but_never_tried (P : providers)
    (k0 k' : grub_luks2_keyslot_t) (keyslot kdf : grub_json_t) (type : string)
    (w : world) :
  grub_json_getvalue keyslot "kdf" = Some kdf ->
  grub_json_getstring kdf (Some "type") = Some type ->
  type = "argon2i" \/ type = "argon2id" ->
  value_of (luks2_parse_keyslot k0 keyslot w) = (GRUB_ERR_NONE, k') ->
  kdf_type k' = LUKS2_KDF_TYPE_ARGON2I
  /\ forall (out_key : list byte) (source : grub_disk) (hdr_file : option grub_file)
            (passphrase : list byte) (passphraselen : Z) (w1 : world),
       let r := luks2_decrypt_key P out_key source hdr_file k' passphrase
                  passphraselen w1 in
       value_of r = (GRUB_ERR_BAD_ARGUMENT, out_key)
       /\ crypt (world_of r) = crypt w1
       /\ (trace_of r = [EvBase64 (kdf_salt k');
                         EvError GRUB_ERR_BAD_ARGUMENT "Argon2 not supported"]
           \/ trace_of r = [EvBase64 (kdf_salt k');
                            EvError GRUB_ERR_BAD_ARGUMENT "Invalid keyslot salt"]).
Proof.
  intros Hkdf Htype Hargon Hrun.
  assert (Hk : kdf_type k' = LUKS2_KDF_TYPE_ARGON2I).
  { revert Hrun. unfold luks2_parse_keyslot. rewrite Hkdf, Htype.
    assert (Hd : (negb (grub_strcmp type "argon2i")
                  || negb (grub_strcmp type "argon2id")) = true)
      by (destruct Hargon; subst type; reflexivity).
    rewrite Hd. clear Hd Hargon.
    run_decoder; intros Hrun; try discriminate Hrun.
    all: inversion Hrun; subst; reflexivity. }
  split; [exact Hk|].
  intros. apply decrypt_key_argon2. exact Hk.
Qed.

(** ** Events of whole runs *)

Lemma trace_all_bind {A B : Type} (q : event -> bool) (m : M A) (f : A -> M B) :
  trace_all q m -> (forall a, trace_all q (f a)) -> trace_all q (bind m f).
Proof.
  intros Hm Hf w. unfold bind, trace_of.
  specialize (Hm w). unfold trace_of in Hm.
  destruct (m w) as [[a w1] t1]. simpl in Hm.
  specialize (Hf a w1). unfold trace_of in Hf.
  destruct (f a w1) as [[b w2] t2]. simpl in *.
  rewrite forallb_app, Hm, Hf. reflexivity.
Qed.

Lemma trace_all_pure {A : Type} (q : event -> bool) (a : A) : trace_all q (pure a).
Proof. intros w. reflexivity. Qed.

Lemma trace_all_emit (q : event -> bool) (e : event) :
  q e = true -> trace_all q (emit e).
Proof. intros H w. unfold emit, trace_of. simpl. rewrite H. reflexivity. Qed.

Lemma trace_all_get_world (q : event -> bool) : trace_all q get_world.
Proof. intros w. reflexivity. Qed.

Lemma trace_all_put_world (q : event -> bool) (w' : world) :
  trace_all q (put_world w').
Proof. intros w. reflexivity. Qed.

Lemma trace_all_update_crypt (q : event -> bool)
    (f : grub_cryptodisk -> grub_cryptodisk) : trace_all q (update_crypt f).
Proof. intros w. reflexivity. Qed.

Lemma trace_all_error (q : event -> bool) (n : grub_err_t) (fmt : string) :
  q (EvError n fmt) = true -> trace_all q (grub_error n fmt).
Proof. intros H w. unfold grub_error, trace_of. simpl. rewrite H. reflexivity. Qed.

Lemma trace_all_weaken {A : Type} (q q' : event -> bool) (m : M A) :
  (forall e, q e = true -> q' e = true) -> trace_all q m -> trace_all q' m.
Proof.
  intros Hq Hm w. specialize (Hm w).
  rewrite forallb_forall in *. auto.
Qed.

(** One step through a computation, for a property of all its events. *)
Ltac trace_step :=
  lazymatch goal with
  | |- trace_all _ (bind _ _) => apply trace_all_bind; [|intros ?]
  | |- trace_all _ (pure _) => apply trace_all_pure
  | |- trace_all _ (emit _) => apply trace_all_emit; reflexivity
  | |- trace_all _ get_world => apply trace_all_get_world
  | |- trace_all _ (put_world _) => apply trace_all_put_world
  | |- trace_all _ (update_crypt _) => apply trace_all_update_crypt
  | |- trace_all _ (grub_error _ _) => apply trace_all_error; auto
  | |- trace_all _ (luks2_derror _ _) => unfold luks2_derror
  | |- trace_all _ (reject _ _ _) => unfold reject
  | |- trace_all _ (grub_dprintf _ _) => unfold grub_dprintf
  | |- trace_all _ (grub_printf_ _ _) => unfold grub_printf_
  | |- trace_all _ (match ?x with _ => _ end) => destruct x
  | |- trace_all _ (let _ := _ in _) => cbv zeta
  end.

Ltac trace_steps := cbv beta iota; repeat (trace_step; cbv beta iota).

Section ErrorsOnly.

Variable q : event -> bool.
Hypothesis q_error : forall n fmt, q (EvError n fmt) = true.

Lemma parse_keyslot_trace (k : grub_luks2_keyslot_t) (j : grub_json_t) :
  trace_all q (luks2_parse_keyslot k j).
Proof. unfold luks2_parse_keyslot. trace_steps. Qed.

Lemma parse_segment_trace (s : grub_luks2_segment_t) (j : grub_json_t) :
  trace_all q (luks2_parse_segment s j).
Proof. unfold luks2_parse_segment. trace_steps. Qed.

Lemma parse_digest_trace (P : providers) (d : grub_luks2_digest_t) (j : grub_json_t) :
  trace_all q (luks2_parse_digest P d j).
Proof. unfold luks2_parse_digest. trace_steps. Qed.

Lemma scan_digests_trace (P : providers) (digests : grub_json_t) (kk : Z) (n : nat) :
  forall (i : Z) (d : grub_luks2_digest_t) (dk : Z),
    trace_all q (scan_digests P digests kk n i d dk).
Proof.
  induction n as [|n IH]; intros i d dk; simpl.
  - apply trace_all_pure.
  - destruct (grub_json_getchild digests i) as [member|]; [|apply trace_all_pure].
    destruct (grub_json_getuint64 member None) as [key|]; [|apply trace_all_pure].
    destruct (grub_json_getchild member 0) as [obj|]; [|apply trace_all_pure].
    apply trace_all_bind; [apply parse_digest_trace|].
    intros [e d1]. destruct (is_err e); [apply trace_all_pure|].
    destruct (test_bit P (dg_keyslots d1) kk); [apply trace_all_pure|apply IH].
Qed.

Lemma scan_segments_trace (P : providers) (segments : grub_json_t)
    (d : grub_luks2_digest_t) (n : nat) :
  forall (i : Z) (s : grub_luks2_segment_t) (sk : Z),
    trace_all q (scan_segments P segments d n i s sk).
Proof.
  induction n as [|n IH]; intros i s sk; simpl.
  - apply trace_all_pure.
  - destruct (grub_json_getchild segments i) as [member|]; [|apply trace_all_pure].
    destruct (grub_json_getuint64 member None) as [key|]; [|apply trace_all_pure].
    destruct (grub_json_getchild member 0) as [obj|]; [|apply trace_all_pure].
    apply trace_all_bind; [apply parse_segment_trace|].
    intros [e s1]. destruct (is_err e); [apply trace_all_pure|].
    destruct (test_bit P (dg_segments d) key); [apply trace_all_pure|apply IH].
Qed.

Lemma get_keyslot_trace (P : providers) (k : grub_luks2_keyslot_t)
    (d : grub_luks2_digest_t) (s : grub_luks2_segment_t) (root : grub_json_t)
    (idx : Z) :
  trace_all q (luks2_get_keyslot P k d s root idx).
Proof.
  unfold luks2_get_keyslot.
  repeat first [ apply parse_keyslot_trace
               | apply scan_digests_trace
               | apply scan_segments_trace
               | progress (trace_step; cbv beta iota) ].
Qed.

End ErrorsOnly.

Lemma trial_event_error (h : option grub_file) (n : grub_err_t) (fmt : string) :
  trial_event h (EvError n fmt) = true.
Proof. reflexivity. Qed.

Lemma luks2_read_trace_all (q : event -> bool) (disk : grub_disk)
    (hdr_file : option grub_file) (ret : grub_err_t) (off size : Z)
    (buf : list byte) :
  (forall e, device_matches hdr_file e = true -> q e = true) ->
  trace_all q (luks2_read disk hdr_file ret off size buf).
Proof.
  intros Hq. apply (trace_all_weaken (device_matches hdr_file)); [exact Hq|].
  unfold luks2_read. destruct hdr_file as [f|]; trace_steps.
Qed.

Lemma trial_event_device (h : option grub_file) (e : event) :
  device_matches h e = true ->
  match e with
  | EvDiskRead _ _ | EvFileSeek _ | EvFileRead _ => trial_event h e = true
  | _ => True
  end.
Proof. destruct e; simpl; auto. Qed.

Lemma decrypt_key_trace (P : providers) (out_key : list byte)
    (source : grub_disk) (hdr_file : option grub_file)
    (k : grub_luks2_keyslot_t) (passphrase : list byte) (passphraselen : Z) :
  trace_all (trial_event hdr_file)
    (luks2_decrypt_key P out_key source hdr_file k passphrase passphraselen).
Proof.
  unfold luks2_decrypt_key, decrypt_key_err, grub_cryptodisk_setcipher,
    grub_cryptodisk_setkey, grub_cryptodisk_decrypt, luks2_read.
  destruct hdr_file as [f|]; trace_steps.
Qed.

Lemma verify_key_trace (P : providers) (h : option grub_file)
    (d : grub_luks2_digest_t) (candidate_key : list byte) (len : Z) :
  trace_all (trial_event h) (luks2_verify_key P d candidate_key len).
Proof. unfold luks2_verify_key. trace_steps. Qed.

Lemma trial_body_trace (P : providers) (source : grub_disk)
    (hdr_file : option grub_file) (json : grub_json_t)
    (passphrase : list byte) (passphrase_len : Z) (i : Z) (l : locals) :
  trace_all (trial_event hdr_file)
    (trial_body P source hdr_file json passphrase passphrase_len i l).
Proof.
  unfold trial_body.
  repeat first [ apply get_keyslot_trace; apply trial_event_error
               | apply decrypt_key_trace
               | apply verify_key_trace
               | progress (trace_step; cbv beta iota) ].
Qed.

Lemma trial_loop_trace (P : providers) (source : grub_disk)
    (hdr_file : option grub_file) (json : grub_json_t)
    (passphrase : list byte) (passphrase_len : Z) (n : nat) :
  forall (i : Z) (l : locals),
    trace_all (trial_event hdr_file)
      (trial_loop P source hdr_file json passphrase passphrase_len n i l).
Proof.
  induction n as [|n IH]; intros i l; simpl.
  - apply trace_all_pure.
  - apply trace_all_bind; [apply trial_body_trace|].
    intros [stop l1]. destruct stop; [apply trace_all_pure|apply IH].
Qed.

Lemma read_header_trace_all (q : event -> bool) (P : providers) (disk : grub_disk)
    (hdr_file : option grub_file) (outhdr : list byte) :
  (forall e, device_matches hdr_file e = true -> q e = true) ->
  trace_all q (luks2_read_header P disk hdr_file outhdr).
Proof.
  intros Hq. unfold luks2_read_header.
  repeat first [ apply luks2_read_trace_all; exact Hq
               | progress (trace_step; cbv beta iota) ].
  all: apply Hq; reflexivity.
Qed.

Lemma recover_key_finish_trace_all (q : event -> bool) (P : providers)
    (json_header buf : list byte) (l : locals) :
  (forall e, is_prompt_event e = false ->
             match e with
             | EvSetCipher _ _ | EvSetKey _ _ | EvError _ _ | EvFree _ | EvJsonFree =>
                 q e = true
             | _ => True
             end) ->
  trace_all q (recover_key_finish P json_header buf l).
Proof.
  intros Hq.
  unfold recover_key_finish, recover_key_err, grub_cryptodisk_setcipher,
    grub_cryptodisk_setkey.
  trace_steps.
  all: try (apply trace_all_emit).
  all: match goal with
       | |- _ ?e = true => apply (Hq e); reflexivity
       end.
Qed.

(** Whatever the run, [luks2_recover_key] goes to the header file for
    every byte it reads when there is one, and to the disk otherwise. *)
Lemma recover_key_frame_device (P : providers) (source : grub_disk)
    (hdr_file : option grub_file) (key : option (list byte)) (keyfile_size : Z) :
  trace_all (device_matches hdr_file)
    (luks2_recover_key_frame P source hdr_file key keyfile_size).
Proof.
  assert (Hloop : forall e, trial_event hdr_file e = true ->
                            device_matches hdr_file e = true).
  { intros e. destruct e; simpl; auto. }
  unfold luks2_recover_key_frame, recover_key_with_json, recover_key_trials,
    recover_key_err.
  repeat first [ apply read_header_trace_all; auto
               | apply luks2_read_trace_all; auto
               | apply (trace_all_weaken (trial_event hdr_file));
                 [exact Hloop|apply trial_loop_trace]
               | apply recover_key_finish_trace_all;
                 intros e _; destruct e; reflexivity
               | progress (trace_step; cbv beta iota) ].
  all: destruct hdr_file; reflexivity.
Qed.

(** X16.  [luks2_recover_key] and [luks2_scan] read from the header file
    only when one is given, and from the disk only when none is. *)
Theorem reads_go_where_the_header_is (P : providers)
    (grub_uuidcasecmp : string -> list byte -> Z -> Z) (sizeof_cryptodisk : Z)
    (source : grub_disk) (hdr_file : option grub_file)
    (key : option (list byte)) (keyfile_size : Z)
    (check_uuid : option string) (check_boot : Z) (w : world) :
  forallb (device_matches hdr_file)
    (trace_of (luks2_recover_key P source hdr_file key keyfile_size w)) = true
  /\ forallb (device_matches hdr_file)
       (trace_of (luks2_scan P grub_uuidcasecmp sizeof_cryptodisk source
                    check_uuid check_boot hdr_file w)) = true.
Proof.
  split.
  - revert w.
    change (trace_all (device_matches hdr_file)
              (luks2_recover_key P source hdr_file key keyfile_size)).
    unfold luks2_recover_key.
    apply trace_all_bind; [apply recover_key_frame_device|].
    intros [ret fr]. apply trace_all_pure.
  - revert w.
    change (trace_all (device_matches hdr_file)
              (luks2_scan P grub_uuidcasecmp sizeof_cryptodisk source
                 check_uuid check_boot hdr_file)).
    unfold luks2_scan.
    repeat first [ apply read_header_trace_all; auto
                 | progress (trace_step; cbv beta iota) ].
Qed.

(** ** The prompt *)

Lemma preparing_is_quiet (e : event) : preparing_event e = true -> quiet_event e = true.
Proof. unfold preparing_event. intros H. apply andb_true_iff in H. tauto. Qed.

Lemma prompts_once_bind {A B : Type} (m : M A) (f : A -> M B) :
  trace_all preparing_event m ->
  (forall a w, prompts_once (trace_of (f a w))) ->
  forall w, prompts_once (trace_of (bind m f w)).
Proof.
  intros Hm Hf w. unfold bind, trace_of.
  specialize (Hm w). unfold trace_of in Hm.
  destruct (m w) as [[a w1] t1]. simpl in Hm.
  specialize (Hf a w1). unfold trace_of in Hf.
  destruct (f a w1) as [[b w2] t2]. simpl in *.
  destruct Hf as [Hq|(pre & post & Ht & Hpre & Hpost)].
  - left. rewrite forallb_app, Hq, andb_true_r.
    rewrite forallb_forall in *. auto using preparing_is_quiet.
  - right. exists (t1 ++ pre), post. subst t2.
    rewrite <- app_assoc, forallb_app, Hm, Hpre. auto.
Qed.

Lemma prompts_once_quiet {A : Type} (m : M A) :
  trace_all quiet_event m -> forall w, prompts_once (trace_of (m w)).
Proof. intros H w. left. apply H. Qed.

Lemma trial_event_quiet (h : option grub_file) (e : event) :
  trial_event h e = true -> quiet_event e = true.
Proof.
  destruct e; simpl; auto; try discriminate.
  intros H. apply String.eqb_eq in H. subst. reflexivity.
Qed.

Lemma device_event_preparing (h : option grub_file) (e : event) :
  device_matches h e = true ->
  match e with
  | EvDiskRead _ _ | EvFileSeek _ | EvFileRead _ | EvError _ _ =>
      preparing_event e = true
  | _ => True
  end.
Proof. destruct e; simpl; auto. Qed.

Lemma recover_key_trials_quiet (P : providers) (source : grub_disk)
    (hdr_file : option grub_file) (json_header : list byte) (json : grub_json_t)
    (buf passphrase : list byte) (passphrase_len : Z) :
  trace_all quiet_event
    (recover_key_trials P source hdr_file json_header json buf passphrase
       passphrase_len).
Proof.
  unfold recover_key_trials, recover_key_err.
  repeat first [ apply (trace_all_weaken (trial_event hdr_file));
                 [apply trial_event_quiet|apply trial_loop_trace]
               | apply recover_key_finish_trace_all;
                 intros e _; destruct e; reflexivity
               | progress (trace_step; cbv beta iota) ].
Qed.

Lemma recover_key_with_json_prompts (P : providers) (source : grub_disk)
    (hdr_file : option grub_file) (key : option (list byte)) (keyfile_size : Z)
    (json_header : list byte) (json : grub_json_t) (w : world) :
  let t := trace_of (recover_key_with_json P source hdr_file key keyfile_size
                       json_header json w) in
  (key <> None -> forallb quiet_event t = true) /\ prompts_once t.
Proof.
  cbv zeta. unfold recover_key_with_json.
  destruct key as [kb|].
  - pose proof (recover_key_trials_quiet P source hdr_file json_header json
                  (repeat 0 (Z.to_nat MAX_PASSPHRASE)) kb keyfile_size w) as H.
    split; [intros _; exact H|left; exact H].
  - split; [intros H; exfalso; apply H; reflexivity|].
    right. exists [].
    unfold bind at 1. unfold grub_printf_, emit at 1. cbv beta iota.
    unfold bind at 1. unfold emit at 1. cbv beta iota.
    destruct (grub_password_get P) as [supplied typed].
    destruct supplied; cbn [negb].
    + pose proof (recover_key_trials_quiet P source hdr_file json_header json
                    (overwrite (repeat 0 (Z.to_nat MAX_PASSPHRASE)) (typed ++ [0]))
                    (overwrite (repeat 0 (Z.to_nat MAX_PASSPHRASE)) (typed ++ [0]))
                    (strlen_bytes
                       (overwrite (repeat 0 (Z.to_nat MAX_PASSPHRASE)) (typed ++ [0])))
                    w) as H.
      unfold trace_of in *.
      destruct (recover_key_trials _ _ _ _ _ _ _ _ _) as [[a w'] t].
      exists t. simpl in *. auto.
    + unfold recover_key_err, grub_error, bind, emit, pure, trace_of. simpl.
      eexists. repeat split.
Qed.

Lemma recover_key_frame_prompts (P : providers) (source : grub_disk)
    (hdr_file : option grub_file) (key : option (list byte)) (keyfile_size : Z)
    (w : world) :
  let t := trace_of (luks2_recover_key_frame P source hdr_file key keyfile_size w) in
  (key <> None -> forallb quiet_event t = true) /\ prompts_once t.
Proof.
  cbv zeta.
  assert (Hdev : forall e, device_matches hdr_file e = true ->
                           match e with
                           | EvDiskRead _ _ | EvFileSeek _ | EvFileRead _
                           | EvError _ _ => preparing_event e = true
                           | _ => True
                           end) by apply device_event_preparing.
  assert (Hhdr : forall outhdr,
             trace_all preparing_event (luks2_read_header P source hdr_file outhdr)).
  { intros outhdr. unfold luks2_read_header, luks2_read.
    destruct hdr_file; trace_steps. }
  assert (Hread : forall ret off size buf,
             trace_all preparing_event (luks2_read source hdr_file ret off size buf)).
  { intros. unfold luks2_read. destruct hdr_file; trace_steps. }
  split.
  - intros Hkey. revert w.
    change (trace_all quiet_event
              (luks2_recover_key_frame P source hdr_file key keyfile_size)).
    unfold luks2_recover_key_frame, recover_key_err.
    repeat first [ apply (trace_all_weaken preparing_event);
                   [apply preparing_is_quiet|first [apply Hhdr|apply Hread]]
                 | lazymatch goal with
                   | |- trace_all _ (recover_key_with_json _ _ _ _ _ _ _) =>
                       intros w0;
                       apply (recover_key_with_json_prompts P source hdr_file key
                                keyfile_size); exact Hkey
                   end
                 | progress (trace_step; cbv beta iota) ].
  - revert w. unfold luks2_recover_key_frame, recover_key_err.
    repeat first [ apply Hhdr | apply Hread
                 | lazymatch goal with
                   | |- forall w, prompts_once
                          (trace_of (recover_key_with_json _ _ _ _ _ _ _ w)) =>
                       intros w0;
                       apply (recover_key_with_json_prompts P source hdr_file key
                                keyfile_size)
                   | |- trace_all _ _ => progress (trace_step; cbv beta iota)
                   | |- forall w, prompts_once (trace_of (bind _ _ w)) =>
                       apply prompts_once_bind; [|intros ?]; cbv beta iota
                   | |- forall w, prompts_once
                          (trace_of ((match ?x with _ => _ end) w)) =>
                       destruct x; cbv beta iota
                   | |- forall w, prompts_once (trace_of (pure _ w)) =>
                       apply prompts_once_quiet; apply trace_all_pure
                   end ].
Qed.

Lemma recover_key_trace_is_frame_trace (P : providers) (source : grub_disk)
    (hdr_file : option grub_file) (key : option (list byte)) (keyfile_size : Z)
    (w : world) :
  luks2_recover_key P source hdr_file key keyfile_size w
  = (fst (value_of (luks2_recover_key_frame P source hdr_file key keyfile_size w)),
     world_of (luks2_recover_key_frame P source hdr_file key keyfile_size w),
     trace_of (luks2_recover_key_frame P source hdr_file key keyfile_size w)).
Proof.
  unfold luks2_recover_key, bind.
  destruct (luks2_recover_key_frame P source hdr_file key keyfile_size w)
    as [[[ret fr] w1] t1].
  unfold pure, value_of, world_of, trace_of. simpl. rewrite app_nil_r. reflexivity.
Qed.

(** X17.  With a key file [luks2_recover_key] never prompts.  Without one
    it prompts at most once: the message, then the reading of the
    passphrase, and no work on a keyslot before them. *)
Theorem passphrase_is_asked_once_or_never (P : providers) (source : grub_disk)
    (hdr_file : option grub_file) (key : option (list byte)) (keyfile_size : Z)
    (w : world) :
  let t := trace_of (luks2_recover_key P source hdr_file key keyfile_size w) in
  (key <> None -> forallb quiet_event t = true) /\ prompts_once t.
Proof.
  cbv zeta. rewrite recover_key_trace_is_frame_trace.
  exact (recover_key_frame_prompts P source hdr_file key keyfile_size w).
Qed.

(** ** The order of the trials *)

Lemma tried_indices_app (a b : list event) :
  tried_indices (a ++ b) = tried_indices a ++ tried_indices b.
Proof.
  induction a as [|e a IH]; simpl; auto.
  destruct e; auto.
  destruct args as [|i [|j args]]; auto.
  destruct (String.eqb fmt "Trying keyslot %lu\n"); simpl; rewrite ?IH; auto.
Qed.

Lemma tried_none (t : list event) :
  forallb not_trying t = true -> tried_indices t = [].
Proof.
  induction t as [|e t IH]; simpl; auto.
  intros H. apply andb_true_iff in H. destruct H as [He Ht].
  destruct e; auto.
  destruct args as [|i [|j args]]; auto.
  simpl in He. apply negb_true_iff in He. rewrite He. auto.
Qed.

Lemma get_keyslot_not_trying (P : providers) (k : grub_luks2_keyslot_t)
    (d : grub_luks2_digest_t) (s : grub_luks2_segment_t) (root : grub_json_t)
    (idx : Z) :
  trace_all not_trying (luks2_get_keyslot P k d s root idx).
Proof. apply get_keyslot_trace. reflexivity. Qed.

Lemma decrypt_key_not_trying (P : providers) (out_key : list byte)
    (source : grub_disk) (hdr_file : option grub_file)
    (k : grub_luks2_keyslot_t) (passphrase : list byte) (passphraselen : Z) :
  trace_all not_trying
    (luks2_decrypt_key P out_key source hdr_file k passphrase passphraselen).
Proof.
  unfold luks2_decrypt_key, decrypt_key_err, grub_cryptodisk_setcipher,
    grub_cryptodisk_setkey, grub_cryptodisk_decrypt, luks2_read.
  destruct hdr_file as [f|]; trace_steps.
Qed.

Lemma verify_key_not_trying (P : providers) (d : grub_luks2_digest_t)
    (candidate_key : list byte) (len : Z) :
  trace_all not_trying (luks2_verify_key P d candidate_key len).
Proof. unfold luks2_verify_key. trace_steps. Qed.

(** A round logs "Trying keyslot" at most once, with its own index, and a
    round that does not log it leaves the crypto disk and the key length
    alone and ends in [continue]. *)
Lemma trial_body_tried (P : providers) (source : grub_disk)
    (hdr_file : option grub_file) (json : grub_json_t)
    (passphrase : list byte) (passphrase_len : Z) (i : Z) (l : locals) (w : world) :
  wp (trial_body P source hdr_file json passphrase passphrase_len i l) w
    (fun a w' t =>
       (tried_indices t = [i]
        \/ (tried_indices t = [] /\ crypt w' = crypt w /\ fst a = false))).
Proof.
  unfold trial_body.
  pose proof (get_keyslot_cases P (l_keyslot l) (l_digest l) (l_segment l) json i w)
    as Hc. cbv zeta in Hc.
  pose proof (get_keyslot_not_trying P (l_keyslot l) (l_digest l) (l_segment l)
                json i w) as Ht.
  destruct (luks2_get_keyslot P (l_keyslot l) (l_digest l) (l_segment l) json i w)
    as [[[[[e k] d] s] w0] t0] eqn:E.
  unfold value_of, world_of, trace_of in Hc, Ht. simpl in Hc, Ht.
  destruct Hc as (_ & _ & _ & Hcrypt & _).
  apply tried_none in Ht.
  wp_with E.
  destruct (is_err e).
  { wp_steps. right. rewrite tried_indices_app, Ht. simpl. auto. }
  destruct (priority k =? 0).
  { wp_steps. right. rewrite tried_indices_app, Ht. simpl. auto. }
  apply wp_bind. unfold grub_dprintf. apply wp_emit.
  apply wp_bind. apply wp_update_crypt.
  apply wp_bind. apply wp_update_crypt.
  apply wp_bind.
  assert (Hrest : forall (w1 : world) (Q : unit -> world -> list event -> Prop),
             (forall w2, Q tt w2 []) ->
             wp (if negb (grub_strcmp (seg_size s) "dynamic")
                 then update_crypt (fun c =>
                        set_cd_total_sectors c
                          (u64 (Z.shiftr (disk_size source)
                                  (log_sector_size c - disk_log_sector_size source)
                                - offset_sectors c)))
                 else update_crypt (fun c =>
                        set_cd_total_sectors c
                          (Z.shiftr (grub_strtoull (seg_size s)) (log_sector_size c))))
               w1 Q).
  { intros w1 Q HQ. destruct (negb (grub_strcmp (seg_size s) "dynamic"));
      apply wp_update_crypt; apply HQ. }
  apply Hrest. intros w2.
  apply (wp_bind_trace not_trying); [apply decrypt_key_not_trying|].
  intros [ret key1] w3 t3 Ht3. cbv beta iota. apply tried_none in Ht3.
  destruct (is_err ret).
  { wp_steps. left. rewrite tried_indices_app, Ht. simpl.
    rewrite tried_indices_app, Ht3. reflexivity. }
  apply (wp_bind_trace not_trying); [apply verify_key_not_trying|].
  intros ret2 w4 t4 Ht4. cbv beta iota. apply tried_none in Ht4.
  destruct (is_err ret2); wp_steps; left.
  all: rewrite tried_indices_app, Ht; simpl.
  all: rewrite !tried_indices_app, Ht3, Ht4; reflexivity.
Qed.

Lemma ascending_cons (a : Z) (xs : list Z) :
  forallb (fun j => a <? j) xs = true -> ascending xs = true ->
  ascending (a :: xs) = true.
Proof.
  destruct xs as [|b xs]; simpl; auto.
  intros H Hs. apply andb_true_iff in H. destruct H as [Hab _].
  rewrite Hab. exact Hs.
Qed.

Lemma forallb_range_weaken (i n : Z) (xs : list Z) :
  forallb (fun j => (i + 1 <=? j) && (j <? i + 1 + n)) xs = true ->
  forallb (fun j => i <? j) xs = true
  /\ forallb (fun j => (i <=? j) && (j <? i + (n + 1))) xs = true.
Proof.
  rewrite !forallb_forall. intros H. split; intros j Hj; specialize (H j Hj);
    apply andb_true_iff in H; destruct H as [H1 H2];
    apply Z.leb_le in H1; apply Z.ltb_lt in H2.
  - apply Z.ltb_lt. lia.
  - apply andb_true_iff. split; [apply Z.leb_le|apply Z.ltb_lt]; lia.
Qed.

(** The loop tries keyslots in ascending order of their index, each at
    most once, and leaves the crypto disk and the key length alone as
    long as it tries none. *)
Lemma trial_loop_tried (P : providers) (source : grub_disk)
    (hdr_file : option grub_file) (json : grub_json_t)
    (passphrase : list byte) (passphrase_len : Z) (n : nat) :
  forall (i : Z) (l : locals) (w : world),
    wp (trial_loop P source hdr_file json passphrase passphrase_len n i l) w
      (fun l' w' t =>
         ascending (tried_indices t) = true
         /\ forallb (fun j => (i <=? j) && (j <? i + Z.of_nat n))
              (tried_indices t) = true
         /\ (tried_indices t = [] ->
             crypt w' = crypt w
             /\ l_candidate_key_len l' = l_candidate_key_len l)).
Proof.
  induction n as [|n IH]; intros i l w.
  - simpl. apply wp_pure. simpl. auto.
  - cbn [trial_loop]. apply wp_bind. apply wp_run.
    intros [stop l1] w1 t1 Eb. cbv beta iota.
    pose proof (trial_body_tried P source hdr_file json passphrase passphrase_len
                  i l w) as Hb.
    unfold wp in Hb. rewrite Eb in Hb. unfold value_of, world_of, trace_of in Hb.
    simpl in Hb.
    assert (Hi : ((i <=? i) && (i <? i + Z.of_nat (S n))) = true).
    { apply andb_true_iff. split; [apply Z.leb_le|apply Z.ltb_lt]; lia. }
    destruct stop.
    + apply wp_pure. rewrite app_nil_r.
      destruct Hb as [Hb|(_ & _ & Hb)]; [|discriminate Hb].
      rewrite Hb. cbn [ascending forallb]. rewrite Hi.
      split; [reflexivity|]. split; [reflexivity|]. intros Hn. discriminate Hn.
    + pose proof (trial_body_continue P source hdr_file json _ _ _ _ _ _ _ _ Eb)
        as Hlen.
      eapply wp_weaken; [apply IH|].
      intros l2 w2 t2 (Hasc & Hrange & Hnone).
      rewrite tried_indices_app.
      replace (Z.of_nat (S n)) with (Z.of_nat n + 1) by lia.
      destruct (forallb_range_weaken i (Z.of_nat n) _ Hrange) as [Hgt Hr].
      destruct Hb as [Hb|(Hb & Hcrypt & _)]; rewrite Hb; cbn [app forallb].
      * replace (Z.of_nat (S n)) with (Z.of_nat n + 1) in Hi by lia.
        rewrite Hi, Hr. split; [apply ascending_cons; assumption|].
        split; [reflexivity|]. intros Hn. discriminate Hn.
      * rewrite Hr. split; [exact Hasc|]. split; [reflexivity|].
        intros Hn. destruct (Hnone Hn) as [Hc Hl]. split; congruence.
Qed.

Lemma recover_key_finish_untried (P : providers) (json_header buf : list byte)
    (l : locals) (w : world) :
  wp (recover_key_finish P json_header buf l) w
    (fun _ w' t =>
       tried_indices t = []
       /\ (l_candidate_key_len l = 0 -> crypt w' = crypt w)).
Proof.
  unfold recover_key_finish, recover_key_err, grub_cryptodisk_setcipher,
    grub_cryptodisk_setkey.
  wp_steps; simpl; split; auto.
  all: intros Hz;
    match goal with
    | H : (l_candidate_key_len _ =? 0) = false |- _ =>
        apply Z.eqb_neq in H; exfalso; exact (H Hz)
    end.
Qed.

(** What the order of the trials looks like from a point on. *)
Lemma recover_key_trials_tried (P : providers) (source : grub_disk)
    (hdr_file : option grub_file) (json_header : list byte) (json : grub_json_t)
    (buf passphrase : list byte) (passphrase_len : Z) (w : world) :
  wp (recover_key_trials P source hdr_file json_header json buf passphrase
        passphrase_len) w
    (fun _ w' t =>
       ascending (tried_indices t) = true
       /\ forallb (fun j => 0 <=? j) (tried_indices t) = true
       /\ (tried_indices t = [] -> crypt w' = crypt w)).
Proof.
  unfold recover_key_trials.
  destruct (grub_json_getvalue json "keyslots") as [keyslots|].
  2: { unfold recover_key_err. wp_steps. simpl. auto. }
  destruct (grub_json_getsize keyslots) as [size|].
  2: { unfold recover_key_err. wp_steps. simpl. auto. }
  apply wp_bind. eapply wp_weaken; [apply trial_loop_tried|].
  intros l w1 t1 (Hasc & Hrange & Hnone). cbv beta.
  eapply wp_weaken; [apply recover_key_finish_untried|].
  intros a w2 t2 (Ht2 & Hcrypt). cbv beta.
  rewrite tried_indices_app, Ht2, app_nil_r.
  split; [exact Hasc|]. split.
  - rewrite forallb_forall in *. intros j Hj. specialize (Hrange j Hj).
    apply andb_true_iff in Hrange. tauto.
  - intros H. destruct (Hnone H) as [Hc Hl].
    rewrite Hcrypt; [exact Hc|]. rewrite Hl. reflexivity.
Qed.

Lemma recover_key_with_json_tried (P : providers) (source : grub_disk)
    (hdr_file : option grub_file) (key : option (list byte)) (keyfile_size : Z)
    (json_header : list byte) (json : grub_json_t) (w : world) :
  wp (recover_key_with_json P source hdr_file key keyfile_size json_header json) w
    (fun _ w' t =>
       ascending (tried_indices t) = true
       /\ forallb (fun j => 0 <=? j) (tried_indices t) = true
       /\ (tried_indices t = [] -> crypt w' = crypt w)).
Proof.
  unfold recover_key_with_json.
  destruct key as [kb|]; [apply recover_key_trials_tried|].
  apply wp_bind. unfold grub_printf_. apply wp_emit.
  apply wp_bind. apply wp_emit.
  destruct (grub_password_get P) as [supplied typed].
  destruct supplied; cbn [negb].
  - eapply wp_weaken; [apply recover_key_trials_tried|].
    intros a w' t H. exact H.
  - unfold recover_key_err. wp_steps. simpl. auto.
Qed.

Lemma recover_key_frame_tried (P : providers) (source : grub_disk)
    (hdr_file : option grub_file) (key : option (list byte)) (keyfile_size : Z)
    (w : world) :
  wp (luks2_recover_key_frame P source hdr_file key keyfile_size) w
    (fun _ w' t =>
       ascending (tried_indices t) = true
       /\ forallb (fun j => 0 <=? j) (tried_indices t) = true
       /\ (tried_indices t = [] -> crypt w' = crypt w)).
Proof.
  unfold luks2_recover_key_frame.
  apply wp_bind. apply wp_run. intros [ret header] w1 th Eh.
  pose proof (read_header_cases P source hdr_file (uninit_header P) w) as Hc.
  cbv zeta in Hc. rewrite Eh in Hc. unfold world_of in Hc. simpl in Hc.
  destruct Hc as (_ & _ & Hcrypt1 & _).
  assert (Hth : tried_indices th = []).
  { apply tried_none.
    assert (Ht : trace_all not_trying
                   (luks2_read_header P source hdr_file (uninit_header P))).
    { unfold luks2_read_header, luks2_read. destruct hdr_file; trace_steps. }
    specialize (Ht w). rewrite Eh in Ht. exact Ht. }
  cbv beta iota.
  destruct (is_err ret).
  { apply wp_pure. rewrite app_nil_r, Hth. simpl. auto. }
  apply wp_bind. apply wp_emit.
  destruct (alloc_ok P (u64 (hdr_size header - sizeof_header))); cbn [negb].
  2: { apply wp_pure. rewrite tried_indices_app, Hth. simpl. auto. }
  apply wp_bind. apply wp_run. intros [ret2 json_header] w2 tj Ej.
  pose proof (luks2_read_crypt source hdr_file ret
                (u64 (hdr_offset header + sizeof_header))
                (u64 (hdr_size header - sizeof_header))
                (repeat 0 (Z.to_nat (u64 (hdr_size header - sizeof_header)))) w1)
    as Hcrypt2.
  rewrite Ej in Hcrypt2. unfold world_of in Hcrypt2. simpl in Hcrypt2.
  assert (Htj : tried_indices tj = []).
  { apply tried_none.
    assert (Ht : forall r o sz b,
               trace_all not_trying (luks2_read source hdr_file r o sz b)).
    { intros. unfold luks2_read. destruct hdr_file; trace_steps. }
    specialize (Ht ret (u64 (hdr_offset header + sizeof_header))
                  (u64 (hdr_size header - sizeof_header))
                  (repeat 0 (Z.to_nat (u64 (hdr_size header - sizeof_header)))) w1).
    rewrite Ej in Ht. exact Ht. }
  cbv beta iota.
  assert (Hfinal : forall (w' : world) (tail : list event),
             ascending (tried_indices tail) = true
             /\ forallb (fun j => 0 <=? j) (tried_indices tail) = true
             /\ (tried_indices tail = [] -> crypt w' = crypt w2) ->
             ascending
               (tried_indices
                  (th ++ [EvZalloc (u64 (hdr_size header - sizeof_header))]
                      ++ tj ++ tail)) = true
             /\ forallb (fun j => 0 <=? j)
                  (tried_indices
                     (th ++ [EvZalloc (u64 (hdr_size header - sizeof_header))]
                         ++ tj ++ tail)) = true
             /\ (tried_indices
                   (th ++ [EvZalloc (u64 (hdr_size header - sizeof_header))]
                       ++ tj ++ tail) = [] ->
                 crypt w' = crypt w)).
  { intros w' tail (Ha & Hr & Hn).
    rewrite !tried_indices_app, Hth, Htj. simpl.
    repeat split; auto. intros Hnone. rewrite (Hn Hnone). congruence. }
  destruct (is_err ret2).
  { unfold recover_key_err. wp_steps. apply Hfinal. simpl. auto. }
  destruct (has_nul json_header (u64 (hdr_size header - sizeof_header))); cbn [negb].
  2: { unfold recover_key_err. wp_steps. apply Hfinal. simpl. auto. }
  apply wp_bind. apply wp_emit.
  destruct (grub_json_parse P json_header (hdr_size header)) as [json|].
  2: { unfold recover_key_err. wp_steps. apply Hfinal. simpl. auto. }
  eapply wp_weaken; [apply recover_key_with_json_tried|].
  intros a w' t H. apply Hfinal. simpl. exact H.
Qed.

(** X18.  [luks2_recover_key] tries keyslots in strictly ascending order
    of their index, so each one at most once. *)
Theorem keyslots_are_tried_in_ascending_order (P : providers) (source : grub_disk)
    (hdr_file : option grub_file) (key : option (list byte)) (keyfile_size : Z)
    (w : world) :
  let tried := tried_indices
                 (trace_of (luks2_recover_key P source hdr_file key keyfile_size w)) in
  ascending tried = true /\ forallb (fun j => 0 <=? j) tried = true.
Proof.
  cbv zeta. rewrite recover_key_trace_is_frame_trace.
  pose proof (recover_key_frame_tried P source hdr_file key keyfile_size w) as H.
  unfold wp in H. unfold trace_of at 1 3. cbn [snd]. tauto.
Qed.

(** X19.  A run of [luks2_recover_key] that tries no keyslot leaves the
    crypto disk exactly as it was. *)
Theorem crypto_disk_is_untouched_until_a_keyslot_is_tried (P : providers)
    (source : grub_disk) (hdr_file : option grub_file)
    (key : option (list byte)) (keyfile_size : Z) (w : world) :
  let r := luks2_recover_key P source hdr_file key keyfile_size w in
  tried_indices (trace_of r) = [] -> crypt (world_of r) = crypt w.
Proof.
  cbv zeta. rewrite recover_key_trace_is_frame_trace.
  pose proof (recover_key_frame_tried P source hdr_file key keyfile_size w) as H.
  unfold wp in H. unfold world_of at 1, trace_of at 1 3. cbn [fst snd]. tauto.
Qed.

(** ** The JSON buffer and the parsed document *)

Lemma released_prefix (e : grub_err_t) (w : world) (t1 t2 : list event) :
  forallb keeps_json t1 = true ->
  released_or_returned e w t2 -> released_or_returned e w (t1 ++ t2).
Proof.
  intros H1 [(pre & buf & Ht & Hpre)|[Hk Hr]].
  - left. exists (t1 ++ pre), buf. subst t2.
    rewrite <- app_assoc, forallb_app, H1, Hpre. auto.
  - right. rewrite forallb_app, H1, Hk. auto.
Qed.

Lemma released_here (e : grub_err_t) (w : world) (pre : list event) (buf : list byte) :
  forallb keeps_json pre = true ->
  released_or_returned e w (pre ++ [EvFree buf; EvJsonFree]).
Proof. intros H. left. exists pre, buf. auto. Qed.

Ltac released_leaf :=
  lazymatch goal with
  | |- released_or_returned _ _ ?t =>
      let rec go l :=
        lazymatch l with
        | [EvFree ?b; EvJsonFree] => constr:(@nil event)
        | ?x :: ?rest => let r := go rest in constr:(x :: r)
        end in
      let pre := go t in
      lazymatch t with
      | context [EvFree ?b :: EvJsonFree :: nil] =>
          apply (released_here _ _ pre b); reflexivity
      end
  end.

Lemma recover_key_finish_releases (P : providers) (json_header buf : list byte)
    (l : locals) (w : world) :
  wp (recover_key_finish P json_header buf l) w
    (fun a w' t => released_or_returned (fst a) w' t).
Proof.
  unfold recover_key_finish, recover_key_err, grub_cryptodisk_setcipher,
    grub_cryptodisk_setkey.
  wp_steps; simpl.
  all: try released_leaf.
  right. split; [reflexivity|]. split; reflexivity.
Qed.

Lemma trial_event_keeps (h : option grub_file) (e : event) :
  trial_event h e = true -> keeps_json e = true.
Proof. destruct e; simpl; auto. Qed.

Lemma recover_key_trials_releases (P : providers) (source : grub_disk)
    (hdr_file : option grub_file) (json_header : list byte) (json : grub_json_t)
    (buf passphrase : list byte) (passphrase_len : Z) (w : world) :
  wp (recover_key_trials P source hdr_file json_header json buf passphrase
        passphrase_len) w
    (fun a w' t => released_or_returned (fst a) w' t).
Proof.
  unfold recover_key_trials.
  destruct (grub_json_getvalue json "keyslots") as [keyslots|].
  2: { unfold recover_key_err. wp_steps. simpl. released_leaf. }
  destruct (grub_json_getsize keyslots) as [size|].
  2: { unfold recover_key_err. wp_steps. simpl. released_leaf. }
  apply (wp_bind_trace keeps_json).
  { apply (trace_all_weaken (trial_event hdr_file));
      [apply trial_event_keeps|apply trial_loop_trace]. }
  intros l w1 t1 Ht1.
  eapply wp_weaken; [apply recover_key_finish_releases|].
  intros a w' t H. apply released_prefix; assumption.
Qed.

Lemma recover_key_with_json_releases (P : providers) (source : grub_disk)
    (hdr_file : option grub_file) (key : option (list byte)) (keyfile_size : Z)
    (json_header : list byte) (json : grub_json_t) (w : world) :
  wp (recover_key_with_json P source hdr_file key keyfile_size json_header json) w
    (fun a w' t => released_or_returned (fst a) w' t).
Proof.
  unfold recover_key_with_json.
  destruct key as [kb|]; [apply recover_key_trials_releases|].
  apply wp_bind. unfold grub_printf_. apply wp_emit.
  apply wp_bind. apply wp_emit.
  destruct (grub_password_get P) as [supplied typed].
  destruct supplied; cbn [negb].
  - eapply wp_weaken; [apply recover_key_trials_releases|].
    intros a w' t H.
    apply (released_prefix _ _
             [EvPrintf "Enter passphrase for %s%s%s (%s): " []; EvPasswordGet]);
      [reflexivity|exact H].
  - unfold recover_key_err. wp_steps. simpl. released_leaf.
Qed.

Lemma device_event_keeps (h : option grub_file) (e : event) :
  device_matches h e = true ->
  match e with
  | EvDiskRead _ _ | EvFileSeek _ | EvFileRead _ | EvError _ _ =>
      (keeps_json e && negb (is_zalloc_event e)) = true
  | _ => True
  end.
Proof. destruct e; simpl; auto. Qed.

Lemma forallb_and_l (p q : event -> bool) (t : list event) :
  forallb (fun e => p e && q e) t = true -> forallb p t = true.
Proof.
  rewrite !forallb_forall. intros H e Hin.
  specialize (H e Hin). apply andb_true_iff in H. tauto.
Qed.

Lemma no_zalloc_in (t : list event) (n : Z) :
  forallb (fun e => keeps_json e && negb (is_zalloc_event e)) t = true ->
  ~ In (EvZalloc n) t.
Proof.
  rewrite forallb_forall. intros H Hin. specialize (H _ Hin). discriminate H.
Qed.

Lemma recover_key_frame_releases (P : providers) (source : grub_disk)
    (hdr_file : option grub_file) (key : option (list byte)) (keyfile_size : Z)
    (w : world) :
  wp (luks2_recover_key_frame P source hdr_file key keyfile_size) w
    (fun a w' t =>
       released_or_returned (fst a) w' t
       \/ (forallb keeps_json t = true
           /\ forall n, In (EvZalloc n) t -> alloc_ok P n = false)).
Proof.
  unfold luks2_recover_key_frame.
  apply (wp_bind_trace (fun e => keeps_json e && negb (is_zalloc_event e))).
  { unfold luks2_read_header, luks2_read. destruct hdr_file; trace_steps. }
  intros [ret header] w1 th Hth. cbv beta iota.
  pose proof (forallb_and_l _ _ _ Hth) as Hkh.
  destruct (is_err ret).
  { apply wp_pure. right. rewrite app_nil_r. split; [exact Hkh|].
    intros n Hin. exfalso. exact (no_zalloc_in _ _ Hth Hin). }
  apply wp_bind. apply wp_emit.
  destruct (alloc_ok P (u64 (hdr_size header - sizeof_header))) eqn:Ea; cbn [negb].
  2: { apply wp_pure. right. simpl. rewrite forallb_app, Hkh. split; [reflexivity|].
       intros n Hin. apply in_app_or in Hin. destruct Hin as [Hin|Hin].
       - exfalso. exact (no_zalloc_in _ _ Hth Hin).
       - simpl in Hin. destruct Hin as [Hin|[]]. inversion Hin; subst. exact Ea. }
  apply (wp_bind_trace keeps_json).
  { unfold luks2_read. destruct hdr_file; trace_steps. }
  intros [ret2 json_header] w2 tj Htj. cbv beta iota.
  assert (Hpre : forall tail,
             forallb keeps_json
               (EvZalloc (u64 (hdr_size header - sizeof_header)) :: tj ++ tail)
             = forallb keeps_json tail).
  { intros tail. simpl. rewrite forallb_app, Htj. reflexivity. }
  assert (Hfinal : forall e0 w0 tail,
             released_or_returned e0 w0 tail ->
             released_or_returned e0 w0
               (th ++ [EvZalloc (u64 (hdr_size header - sizeof_header))]
                   ++ tj ++ tail)).
  { intros e0 w0 tail H. apply released_prefix; [exact Hkh|].
    apply (released_prefix _ _ [EvZalloc (u64 (hdr_size header - sizeof_header))]);
      [reflexivity|].
    apply released_prefix; assumption. }
  destruct (is_err ret2).
  { unfold recover_key_err. wp_steps. left. apply Hfinal. simpl. released_leaf. }
  destruct (has_nul json_header (u64 (hdr_size header - sizeof_header))); cbn [negb].
  2: { unfold recover_key_err. wp_steps. left. apply Hfinal. simpl. released_leaf. }
  apply wp_bind. apply wp_emit.
  destruct (grub_json_parse P json_header (hdr_size header)) as [json|].
  2: { unfold recover_key_err. wp_steps. left. apply Hfinal. simpl. released_leaf. }
  eapply wp_weaken; [apply recover_key_with_json_releases|].
  intros a w' t H. left. apply Hfinal.
  apply (released_prefix _ _
           [EvJsonParse (Z.of_nat (List.length json_header)) (hdr_size header)]);
    [reflexivity|exact H].
Qed.

(** X20.  Every run of [luks2_recover_key] ends by freeing the JSON buffer
    and the parsed document, and frees the document nowhere else, with two
    exceptions that free neither: a run that got no buffer, and a run that
    returns BadArgument "Invalid encryption". *)
Theorem json_is_released_unless_encryption_is_invalid (P : providers)
    (source : grub_disk) (hdr_file : option grub_file)
    (key : option (list byte)) (keyfile_size : Z) (w : world) :
  let r := luks2_recover_key P source hdr_file key keyfile_size w in
  released_at_end (trace_of r)
  \/ (forallb keeps_json (trace_of r) = true
      /\ ((forall n, In (EvZalloc n) (trace_of r) -> alloc_ok P n = false)
          \/ (value_of r = GRUB_ERR_BAD_ARGUMENT
              /\ grub_errmsg (world_of r) = "Invalid encryption"))).
Proof.
  cbv zeta. rewrite recover_key_trace_is_frame_trace.
  pose proof (recover_key_frame_releases P source hdr_file key keyfile_size w) as H.
  unfold wp in H. unfold value_of at 1, world_of at 1 2, trace_of at 1 2 3.
  cbn [fst snd].
  destruct H as [[Hr|[Hk Hret]]|[Hk Hz]]; auto.
Qed.

(** ** After a keyslot has opened *)





(** ** The sector layout of the unlocked disk *)

Lemma same_layout_refl (a : grub_cryptodisk) : same_layout a a.
Proof. unfold same_layout. auto. Qed.






(** ** Success needs an opened keyslot *)

Lemma trial_loop_opened (P : providers) (source : grub_disk)
    (hdr_file : option grub_file) (json : grub_json_t)
    (passphrase : list byte) (passphrase_len : Z) (n : nat) :
  forall (i : Z) (l l' : locals) (w w' : world) (t : list event),
    trial_loop P source hdr_file json passphrase passphrase_len n i l w
      = (l', w', t) ->
    l_candidate_key_len l' <> l_candidate_key_len l ->
    exists j, In (EvPrintf "Slot %lu opened\n" [j]) t.
Proof.
  induction n as [|n IH]; intros i l l' w w' t H Hlen; simpl in H.
  - inversion H; subst. exfalso. apply Hlen. reflexivity.
  - unfold bind in H.
    destruct (trial_body P source hdr_file json passphrase passphrase_len i l w)
      as [[[stop l1] w1] t1] eqn:Eb.
    destruct stop.
    + inversion H; subst.
      destruct (trial_body_break P source hdr_file json _ _ _ _ _ _ _ _ Eb)
        as (_ & _ & _ & _ & Hin).
      exists i. apply in_or_app. left. exact Hin.
    + pose proof (trial_body_continue P source hdr_file json _ _ _ _ _ _ _ _ Eb)
        as Hc.
      destruct (trial_loop P source hdr_file json passphrase passphrase_len n
                  (i + 1) l1 w1) as [[l2 w2] t2] eqn:El.
      inversion H; subst.
      destruct (IH _ _ _ _ _ _ El) as [j Hj]; [congruence|].
      exists j. apply in_or_app. right. exact Hj.
Qed.

Lemma recover_key_finish_success (P : providers) (json_header buf : list byte)
    (l : locals) (w : world) :
  (forall c, c <> 0 -> grub_crypto_gcry_error P c <> GRUB_ERR_NONE) ->
  wp (recover_key_finish P json_header buf l) w
    (fun a _ _ => fst a = GRUB_ERR_NONE -> l_candidate_key_len l <> 0).
Proof.
  intros Hg.
  unfold recover_key_finish, recover_key_err, grub_cryptodisk_setcipher,
    grub_cryptodisk_setkey.
  wp_steps; simpl; intros Hn; try discriminate Hn.
  all: try (exfalso;
            match goal with
            | H : is_err ?e = true |- _ => rewrite Hn in H; discriminate H
            | H : negb (?g =? 0) = true |- _ =>
                apply negb_eqb_true in H; exact (Hg g H Hn)
            end).
  all: match goal with
       | H : (l_candidate_key_len _ =? 0) = false |- _ =>
           apply Z.eqb_neq in H; exact H
       end.
Qed.

Lemma recover_key_trials_success (P : providers) (source : grub_disk)
    (hdr_file : option grub_file) (json_header : list byte) (json : grub_json_t)
    (buf passphrase : list byte) (passphrase_len : Z) (w : world) :
  (forall c, c <> 0 -> grub_crypto_gcry_error P c <> GRUB_ERR_NONE) ->
  wp (recover_key_trials P source hdr_file json_header json buf passphrase
        passphrase_len) w
    (fun a _ t =>
       fst a = GRUB_ERR_NONE ->
       exists j, In (EvPrintf "Slot %lu opened\n" [j]) t).
Proof.
  intros Hg. unfold recover_key_trials.
  destruct (grub_json_getvalue json "keyslots") as [keyslots|].
  2: { unfold recover_key_err. wp_steps. simpl. intros H. discriminate H. }
  destruct (grub_json_getsize keyslots) as [size|].
  2: { unfold recover_key_err. wp_steps. simpl. intros H. discriminate H. }
  apply wp_bind. apply wp_run. intros l w1 t1 El.
  eapply wp_weaken; [apply (recover_key_finish_success P _ _ _ _ Hg)|].
  intros a w' t Hlen Hn.
  destruct (trial_loop_opened P source hdr_file json _ _ _ _ _ _ _ _ _ El)
    as [j Hj]; [simpl; auto|].
  exists j. apply in_or_app. left. exact Hj.
Qed.

Lemma recover_key_with_json_success (P : providers) (source : grub_disk)
    (hdr_file : option grub_file) (key : option (list byte)) (keyfile_size : Z)
    (json_header : list byte) (json : grub_json_t) (w : world) :
  (forall c, c <> 0 -> grub_crypto_gcry_error P c <> GRUB_ERR_NONE) ->
  wp (recover_key_with_json P source hdr_file key keyfile_size json_header json) w
    (fun a _ t =>
       fst a = GRUB_ERR_NONE ->
       exists j, In (EvPrintf "Slot %lu opened\n" [j]) t).
Proof.
  intros Hg. unfold recover_key_with_json.
  destruct key as [kb|]; [apply recover_key_trials_success; exact Hg|].
  apply wp_bind. unfold grub_printf_. apply wp_emit.
  apply wp_bind. apply wp_emit.
  destruct (grub_password_get P) as [supplied typed].
  destruct supplied; cbn [negb].
  - eapply wp_weaken; [apply recover_key_trials_success; exact Hg|].
    intros a w' t H Hn. destruct (H Hn) as [j Hj].
    exists j. simpl. auto.
  - unfold recover_key_err. wp_steps. simpl. intros H. discriminate H.
Qed.

(** X23.  When a libgcrypt failure converts to an error,
    [luks2_recover_key] returns success only after a keyslot has opened,
    or without having called the JSON parser at all, which is the return
    on a JSON area without a NUL. *)
Theorem success_means_a_keyslot_opened (P : providers) (source : grub_disk)
    (hdr_file : option grub_file) (key : option (list byte)) (keyfile_size : Z)
    (w : world) :
  (forall c, c <> 0 -> grub_crypto_gcry_error P c <> GRUB_ERR_NONE) ->
  let r := luks2_recover_key P source hdr_file key keyfile_size w in
  value_of r = GRUB_ERR_NONE ->
  (exists j, In (EvPrintf "Slot %lu opened\n" [j]) (trace_of r))
  \/ forallb not_json_parse (trace_of r) = true.
Proof.
  intros Hg. cbv zeta. rewrite recover_key_trace_is_frame_trace.
  unfold value_of at 1, trace_of at 1 3. cbn [fst snd].
  change (wp (luks2_recover_key_frame P source hdr_file key keyfile_size) w
            (fun a _ t =>
               fst a = GRUB_ERR_NONE ->
               (exists j, In (EvPrintf "Slot %lu opened\n" [j]) t)
               \/ forallb not_json_parse t = true)).
  unfold luks2_recover_key_frame.
  apply (wp_bind_trace not_json_parse).
  { unfold luks2_read_header, luks2_read. destruct hdr_file; trace_steps. }
  intros [ret header] w1 th Hth. cbv beta iota.
  destruct (is_err ret) eqn:Eret.
  { apply wp_pure. simpl. intros Hn. rewrite Hn in Eret. discriminate Eret. }
  apply wp_bind. apply wp_emit.
  destruct (alloc_ok P (u64 (hdr_size header - sizeof_header))); cbn [negb].
  2: { apply wp_pure. simpl. intros Hn. discriminate Hn. }
  apply (wp_bind_trace not_json_parse).
  { unfold luks2_read. destruct hdr_file; trace_steps. }
  intros [ret2 json_header] w2 tj Htj. cbv beta iota.
  destruct (is_err ret2) eqn:Eret2.
  { unfold recover_key_err. wp_steps. simpl. intros Hn.
    rewrite Hn in Eret2. discriminate Eret2. }
  destruct (has_nul json_header (u64 (hdr_size header - sizeof_header))); cbn [negb].
  2: { unfold recover_key_err. wp_steps. simpl. intros _. right.
       rewrite forallb_app, Hth. simpl. rewrite forallb_app, Htj. reflexivity. }
  apply wp_bind. apply wp_emit.
  destruct (grub_json_parse P json_header (hdr_size header)) as [json|].
  2: { unfold recover_key_err. wp_steps. simpl. intros Hn. discriminate Hn. }
  eapply wp_weaken; [apply recover_key_with_json_success; exact Hg|].
  intros a w' t H Hn. left. destruct (H Hn) as [j Hj].
  exists j. apply in_or_app. right. simpl. right.
  apply in_or_app. right. simpl. auto.
Qed.

(** ** C2: the first keyslot that opens ends the loop *)









(** ** The further statements at work on the sample volume *)

Lemma parse_digest_low_bitmaps_witness :
  dg_keyslots sample_digest_record = fold_left (fun m b => Z.lor m (2 ^ b)) [0; 1] 0
  /\ (test_bit (sample_providers two_slots []) (dg_keyslots sample_digest_record) 1
      = true <-> In 1 [0; 1]).
Proof.
  pose proof (parse_digest_low_bitmaps (sample_providers two_slots [])
                blank_digest sample_digest_record
                (sample_digest [0; 1] [0] "pppp") blank_world
                [JString "0"; JString "1"] [JString "0"] [0; 1] [0]) as H.
  assert (Hk : grub_json_getvalue (sample_digest [0; 1] [0] "pppp") "keyslots"
               = Some (JArray [JString "0"; JString "1"])) by reflexivity.
  assert (Hs : grub_json_getvalue (sample_digest [0; 1] [0] "pppp") "segments"
               = Some (JArray [JString "0"])) by reflexivity.
  assert (Hkb : Forall2 (fun it b => grub_json_getuint64 it None = Some b
                                     /\ 0 <= b < 31)
                  [JString "0"; JString "1"] [0; 1]).
  { repeat constructor; lia. }
  assert (Hsb : Forall2 (fun it b => grub_json_getuint64 it None = Some b
                                     /\ 0 <= b < 31)
                  [JString "0"] [0]).
  { repeat constructor; lia. }
  assert (Hrun : value_of (luks2_parse_digest (sample_providers two_slots [])
                             blank_digest (sample_digest [0; 1] [0] "pppp")
                             blank_world)
                 = (GRUB_ERR_NONE, sample_digest_record)) by reflexivity.
  destruct (H Hk Hs Hkb Hsb Hrun) as (Hdk & _ & Hbits).
  split; [exact Hdk|].
  assert (H1 : 0 <= 1 < 31) by lia.
  exact (proj1 (Hbits 1 H1)).
Defined.

Lemma get_keyslot_first_match_witness :
  exists (digests : grub_json_t) (digest_key jd : Z),
    grub_json_getvalue two_slots "digests" = Some digests
    /\ digest_entry (sample_providers two_slots []) digests jd digest_key
         sample_digest_record.
Proof.
  assert (Hrun : value_of (luks2_get_keyslot (sample_providers two_slots [])
                             blank_keyslot blank_digest blank_segment two_slots 1
                             blank_world)
                 = (GRUB_ERR_NONE, sample_keyslot_record, sample_digest_record,
                    mk_segment 16777216 "dynamic" "aes-xts-plain64" 4096))
    by (vm_compute; reflexivity).
  destruct (get_keyslot_first_match (sample_providers two_slots [])
              blank_keyslot blank_digest blank_segment two_slots 1 blank_world
              sample_keyslot_record sample_digest_record
              (mk_segment 16777216 "dynamic" "aes-xts-plain64" 4096) Hrun)
    as (keyslots & digests & segments & kk & dk & sk & jd & js
        & _ & Hd & _ & _ & _ & Hde & _).
  exists digests, dk, jd. split; assumption.
Defined.

Lemma verify_key_accepts_iff_witness :
  value_of (luks2_verify_key (sample_providers two_slots []) sample_digest_record
              (bytes_of_string "pppp") 4 blank_world) = GRUB_ERR_NONE
  <-> exists digest salt derived : list byte,
        base64_decode (sample_providers two_slots []) "pppp"
          GRUB_CRYPTODISK_MAX_KEYLEN = Some digest
        /\ base64_decode (sample_providers two_slots []) "c2FsdA=="
             GRUB_CRYPTODISK_MAX_KEYLEN = Some salt
        /\ grub_crypto_lookup_md_by_name (sample_providers two_slots []) "sha256"
           = true
        /\ grub_crypto_pbkdf2 (sample_providers two_slots []) "sha256"
             (bytes_of_string "pppp") 4 salt 1000 (Z.of_nat (List.length digest))
           = (0, derived)
        /\ firstn (List.length digest) derived = digest.
Proof.
  assert (Hg : forall c, c <> 0 ->
                 grub_crypto_gcry_error (sample_providers two_slots []) c
                 <> GRUB_ERR_NONE).
  { intros c _. discriminate. }
  exact (proj1 (verify_key_accepts_iff (sample_providers two_slots [])
                  sample_digest_record (bytes_of_string "pppp") 4 blank_world Hg)).
Defined.


Lemma setcipher_split_witness :
  Forall (setcipher_splits "aes-xts-plain64")
    (trace_of (luks2_decrypt_key (sample_providers two_slots []) []
                 (sample_disk sample_primary sample_secondary 0) None
                 sample_keyslot_record (bytes_of_string "password") 8
                 blank_world)).
Proof.
  assert (Hk : fits_cipher (area_encryption sample_keyslot_record))
    by (vm_compute; lia).
  assert (Hs : fits_cipher
                 (seg_encryption
                    (l_segment
                       (mk_locals sample_keyslot_record sample_digest_record
                          blank_segment [] 4 GRUB_ERR_NONE))))
    by (vm_compute; lia).
  exact (proj1 (setcipher_gets_split_at_first_dash
                  (sample_providers two_slots []) []
                  (sample_disk sample_primary sample_secondary 0) None
                  sample_keyslot_record (bytes_of_string "password") 8
                  blank_world [] []
                  (mk_locals sample_keyslot_record sample_digest_record
                     blank_segment [] 4 GRUB_ERR_NONE)
                  Hk Hs)).
Defined.

Lemma decrypt_key_short_read_witness :
  In (EvDecrypt 16 0 9)
    (trace_of (luks2_decrypt_key (sample_providers two_slots []) []
                 (sample_disk sample_primary sample_secondary 0)
                 (Some truncated_file) sample_keyslot_record
                 (bytes_of_string "password") 8 blank_world)).
Proof.
  refine (proj1 (decrypt_key_short_read_undetected (sample_providers two_slots [])
                   [] (sample_disk sample_primary sample_secondary 0)
                   truncated_file sample_keyslot_record
                   (bytes_of_string "password") 8 blank_world [1; 2; 3]
                   _ _ _ _)).
  - reflexivity.
  - reflexivity.
  - vm_compute. reflexivity.
  - vm_compute. tauto.
Defined.

Lemma argon2_keyslot_witness :
  kdf_type (snd (value_of (luks2_parse_keyslot blank_keyslot
                             (sample_keyslot [] sample_kdf_argon2) blank_world)))
  = LUKS2_KDF_TYPE_ARGON2I.
Proof.
  refine (proj1 (argon2_keyslot_is_decoded_but_never_tried
                   (sample_providers two_slots []) blank_keyslot
                   (snd (value_of (luks2_parse_keyslot blank_keyslot
                                     (sample_keyslot [] sample_kdf_argon2)
                                     blank_world)))
                   (sample_keyslot [] sample_kdf_argon2) sample_kdf_argon2
                   "argon2id" blank_world _ _ _ _)).
  - reflexivity.
  - reflexivity.
  - right. reflexivity.
  - vm_compute. reflexivity.
Defined.

Lemma scan_advertises_header_uuid_witness :
  exists header : list byte,
    value_of (luks2_read_header (sample_providers two_slots [])
                (sample_disk sample_primary newer_secondary 0) None
                (uninit_header (sample_providers two_slots [])) blank_world)
    = (GRUB_ERR_NONE, header)
    /\ (valid_header LUKS_MAGIC_1ST header \/ valid_header LUKS_MAGIC_2ND header).
Proof.
  assert (Hrun : value_of (luks2_scan (sample_providers two_slots [])
                             (fun _ _ _ => 0) 512
                             (sample_disk sample_primary newer_secondary 0)
                             (Some "0a1b") 0 None blank_world)
                 = Some (mk_scanned (mk_cryptodisk 0 0 0 None None "") "luks2"))
    by (vm_compute; reflexivity).
  destruct (scan_advertises_header_uuid (sample_providers two_slots [])
              (fun _ _ _ => 0) 512
              (sample_disk sample_primary newer_secondary 0)
              (Some "0a1b") 0 None blank_world
              (mk_scanned (mk_cryptodisk 0 0 0 None None "") "luks2") Hrun)
    as (header & _ & Hh & Hv & _).
  exists header. split; assumption.
Defined.

Lemma accepted_keyslot_fields_witness :
  grub_json_getstring (sample_keyslot [] sample_kdf_pbkdf2) (Some "type")
  = Some "luks2"
  /\ priority sample_keyslot_record = 1.
Proof.
  assert (Hrun : value_of (luks2_parse_keyslot blank_keyslot
                             (sample_keyslot [] sample_kdf_pbkdf2) blank_world)
                 = (GRUB_ERR_NONE, sample_keyslot_record))
    by (vm_compute; reflexivity).
  destruct (accepted_keyslot_fields blank_keyslot sample_keyslot_record
              (sample_keyslot [] sample_kdf_pbkdf2) blank_world Hrun)
    as (Ht & _ & Hp & _).
  split; [exact Ht|exact Hp].
Defined.

Lemma success_means_a_keyslot_opened_witness :
  (exists j, In (EvPrintf "Slot %lu opened\n" [j])
               (trace_of (luks2_recover_key
                            (sample_providers two_slots (bytes_of_string "password"))
                            (sample_disk short_primary short_secondary 0)
                            None None 0 blank_world)))
  \/ forallb not_json_parse
       (trace_of (luks2_recover_key
                    (sample_providers two_slots (bytes_of_string "password"))
                    (sample_disk short_primary short_secondary 0)
                    None None 0 blank_world)) = true.
Proof.
  refine (success_means_a_keyslot_opened
            (sample_providers two_slots (bytes_of_string "password"))
            (sample_disk short_primary short_secondary 0) None None 0 blank_world
            _ _).
  - intros c _. discriminate.
  - vm_compute. reflexivity.
Defined.

Lemma untouched_crypto_disk_witness :
  crypt (world_of (luks2_recover_key
                     (sample_providers ignored_slot_root (bytes_of_string "password"))
                     (sample_disk short_primary short_secondary 0)
                     None None 0 blank_world))
  = crypt blank_world.
Proof.
  refine (crypto_disk_is_untouched_until_a_keyslot_is_tried
            (sample_providers ignored_slot_root (bytes_of_string "password"))
            (sample_disk short_primary short_secondary 0) None None 0 blank_world
            _).
  vm_compute. reflexivity.
Defined.


